(** * Promise evaluation engine: rule-based and interpretive evaluators

    A shallow embedding of
      - [src/evaluator/rule_based.py]  (class [RuleBasedEvaluator]),
      - [src/evaluator/llm_based.py]   (method [_mock_llm_call]),
      - [src/terra_api/client.py]      (the elevated heart-rate sweep),
    together with the part of Python's [datetime] module these files use.

    Conventions of the embedding.
      - Python [int] is [Z]; Python [float] is an exact rational [Q]
        (every float the theorems inspect, 0.0, 0.7, 0.85, 0.9, 1.0, 3.0,
        122.5, is built from small integers).
      - A [datetime] is the record of its seven fields, as in CPython;
        ordering is lexicographic on the fields, day arithmetic goes through
        the calendar, and a result past year 9999 raises [OverflowError].
      - ISO timestamps are held parsed: a field that the code reads with
        [datetime.fromisoformat] is a [datetime] here.
      - A dict read with [.get(key, default)] is a record of [option]
        fields, [None] standing for an absent key.
      - A dict whose iteration order is observable ([periods]) is an
        association list in insertion order.
      - A call either returns, raises or loops for ever: [outcome]. *)

From Stdlib Require Import ZArith QArith List String Ascii Bool Lia.
From Stdlib Require Import Permutation Sorted DecimalString.
Import ListNotations.

#[local] Open Scope string_scope.
#[local] Open Scope list_scope.
#[local] Open Scope Z_scope.

(** ** Outcomes of a call *)

Inductive exn : Type :=
| TypeError
| ValueError
| OverflowError
| ZeroDivisionError.

Inductive outcome (A : Type) : Type :=
| Ok (a : A)
| Raise (e : exn)
| Diverge.

Arguments Ok {A} a.
Arguments Raise {A} e.
Arguments Diverge {A}.

Definition bind {A B : Type} (m : outcome A) (k : A -> outcome B) : outcome B :=
  match m with
  | Ok a => k a
  | Raise e => Raise e
  | Diverge => Diverge
  end.

Notation "x <- m ;; k" := (bind m (fun x => k))
  (at level 61, m at next level, right associativity).

(** ** The fragment of [datetime] used by the evaluators *)

Module PyDatetime.

Record datetime : Type := mkDatetime {
  year : Z;
  month : Z;
  day : Z;
  hour : Z;
  minute : Z;
  second : Z;
  microsecond : Z
}.

Definition MINYEAR : Z := 1.
Definition MAXYEAR : Z := 9999.

(** [_is_leap] *)
Definition is_leap (y : Z) : bool :=
  (y mod 4 =? 0) && (negb (y mod 100 =? 0) || (y mod 400 =? 0)).

(** [_days_in_month] *)
Definition days_in_month (y m : Z) : Z :=
  if m =? 2 then (if is_leap y then 29 else 28)
  else if (m =? 4) || (m =? 6) || (m =? 9) || (m =? 11) then 30
  else 31.

(** [_days_before_year]: days before January 1st of year [y]. *)
Definition days_before_year (y : Z) : Z :=
  let y' := y - 1 in
  y' * 365 + y' / 4 - y' / 100 + y' / 400.

(** [_days_before_month]: days in year [y] before the first of month [m]. *)
Definition days_before_month (y m : Z) : Z :=
  let base :=
    if m =? 1 then 0 else if m =? 2 then 31 else if m =? 3 then 59
    else if m =? 4 then 90 else if m =? 5 then 120 else if m =? 6 then 151
    else if m =? 7 then 181 else if m =? 8 then 212 else if m =? 9 then 243
    else if m =? 10 then 273 else if m =? 11 then 304 else 334 in
  base + (if (2 <? m) && is_leap y then 1 else 0).

(** [date.toordinal]: 0001-01-01 is day 1. *)
Definition toordinal (d : datetime) : Z :=
  days_before_year (year d) + days_before_month (year d) (month d) + day d.

(** [date.weekday]: Monday is 0, Sunday is 6. *)
Definition weekday (d : datetime) : Z := (toordinal d + 6) mod 7.

(** The values a [datetime] object can hold. *)
Definition dt_okb (d : datetime) : bool :=
  (MINYEAR <=? year d) && (year d <=? MAXYEAR) &&
  (1 <=? month d) && (month d <=? 12) &&
  (1 <=? day d) && (day d <=? days_in_month (year d) (month d)) &&
  (0 <=? hour d) && (hour d <? 24) &&
  (0 <=? minute d) && (minute d <? 60) &&
  (0 <=? second d) && (second d <? 60) &&
  (0 <=? microsecond d) && (microsecond d <? 1000000).

Definition dt_ok (d : datetime) : Prop := dt_okb d = true.

(** Comparison of two naive datetimes: lexicographic on the fields. *)
Definition dt_ltb (a b : datetime) : bool :=
  (year a <? year b) || ((year a =? year b) &&
  ((month a <? month b) || ((month a =? month b) &&
  ((day a <? day b) || ((day a =? day b) &&
  ((hour a <? hour b) || ((hour a =? hour b) &&
  ((minute a <? minute b) || ((minute a =? minute b) &&
  ((second a <? second b) || ((second a =? second b) &&
  (microsecond a <? microsecond b)))))))))))).

Definition dt_eqb (a b : datetime) : bool :=
  (year a =? year b) && (month a =? month b) && (day a =? day b) &&
  (hour a =? hour b) && (minute a =? minute b) && (second a =? second b) &&
  (microsecond a =? microsecond b).

Definition dt_leb (a b : datetime) : bool := dt_ltb a b || dt_eqb a b.

(** The day after and the day before, time of day kept. *)
Definition next_day (d : datetime) : datetime :=
  if day d <? days_in_month (year d) (month d) then
    mkDatetime (year d) (month d) (day d + 1)
               (hour d) (minute d) (second d) (microsecond d)
  else if month d <? 12 then
    mkDatetime (year d) (month d + 1) 1
               (hour d) (minute d) (second d) (microsecond d)
  else
    mkDatetime (year d + 1) 1 1
               (hour d) (minute d) (second d) (microsecond d).

Definition prev_day (d : datetime) : datetime :=
  if 1 <? day d then
    mkDatetime (year d) (month d) (day d - 1)
               (hour d) (minute d) (second d) (microsecond d)
  else if 1 <? month d then
    mkDatetime (year d) (month d - 1) (days_in_month (year d) (month d - 1))
               (hour d) (minute d) (second d) (microsecond d)
  else
    mkDatetime (year d - 1) 12 31
               (hour d) (minute d) (second d) (microsecond d).

Fixpoint iter_day (step : datetime -> datetime) (n : nat) (d : datetime)
  : datetime :=
  match n with
  | O => d
  | S n' => iter_day step n' (step d)
  end.

(** The date [n] days after [d] ([n] may be negative), on the proleptic
    Gregorian calendar, before any range check. *)
Definition shift_days (d : datetime) (n : Z) : datetime :=
  if 0 <=? n then iter_day next_day (Z.to_nat n) d
  else iter_day prev_day (Z.to_nat (- n)) d.

(** [d + timedelta(days=n)]: [OverflowError] outside years 1..9999. *)
Definition add_days (d : datetime) (n : Z) : outcome datetime :=
  let r := shift_days d n in
  if (MINYEAR <=? year r) && (year r <=? MAXYEAR) then Ok r
  else Raise OverflowError.

(** [datetime(y, m, d)]: midnight of that date, [ValueError] when a field
    is out of range. *)
Definition datetime_new (y m d : Z) : outcome datetime :=
  let r := mkDatetime y m d 0 0 0 0 in
  if dt_okb r then Ok r else Raise ValueError.

(** Microseconds since midnight. *)
Definition time_us (d : datetime) : Z :=
  ((hour d * 60 + minute d) * 60 + second d) * 1000000 + microsecond d.

Definition US_PER_DAY : Z := 86400000000.

(** Microseconds since the start of day 0 of the calendar. *)
Definition abs_us (d : datetime) : Z := toordinal d * US_PER_DAY + time_us d.

(** [a - b], a [timedelta], held as its total number of microseconds. *)
Definition dt_sub (a b : datetime) : Z := abs_us a - abs_us b.

(** [timedelta.days]: the normalised day part, a floor division. *)
Definition td_days (td : Z) : Z := td / US_PER_DAY.

(** [timedelta.total_seconds() / 60]. *)
Definition td_minutes (td : Z) : Q := inject_Z td / inject_Z 60000000.

(** [d - timedelta(microseconds=1)]. *)
Definition sub_microsecond (d : datetime) : outcome datetime :=
  if 0 <? microsecond d then
    Ok (mkDatetime (year d) (month d) (day d) (hour d) (minute d) (second d)
                   (microsecond d - 1))
  else if 0 <? second d then
    Ok (mkDatetime (year d) (month d) (day d) (hour d) (minute d)
                   (second d - 1) 999999)
  else if 0 <? minute d then
    Ok (mkDatetime (year d) (month d) (day d) (hour d) (minute d - 1)
                   59 999999)
  else if 0 <? hour d then
    Ok (mkDatetime (year d) (month d) (day d) (hour d - 1) 59 59 999999)
  else
    let p := prev_day d in
    if MINYEAR <=? year p then
      Ok (mkDatetime (year p) (month p) (day p) 23 59 59 999999)
    else Raise OverflowError.

(** Decimal rendering of an integer, as [str(int)]. *)
Definition str_of_Z (z : Z) : string := NilZero.string_of_int (Z.to_int z).

Fixpoint zeros (n : nat) : string :=
  match n with
  | O => EmptyString
  | S n' => String "0"%char (zeros n')
  end.

(** ["%0wd"] for a non-negative integer. *)
Definition pad (w : nat) (z : Z) : string :=
  let s := str_of_Z z in
  (zeros (w - String.length s) ++ s)%string.

(** [datetime.isoformat()]. *)
Definition isoformat (d : datetime) : string :=
  (pad 4 (year d) ++ "-" ++ pad 2 (month d) ++ "-" ++ pad 2 (day d) ++ "T" ++
   pad 2 (hour d) ++ ":" ++ pad 2 (minute d) ++ ":" ++ pad 2 (second d) ++
   (if (microsecond d =? 0)%Z then "" else "." ++ pad 6 (microsecond d)))%string.

(** The calendar part of validity: any year, a real month and day. *)
Definition cal_ok (d : datetime) : Prop :=
  1 <= month d <= 12 /\ 1 <= day d <= days_in_month (year d) (month d).

(** A strictly monotone rank of the date part, used to bound loops. *)
Definition rank (d : datetime) : Z := year d * 372 + month d * 31 + day d.

(** [d + timedelta(minutes=n)] for [n >= 0]: the minutes are added to the
    time of day and the whole days that result are added to the date. *)
Definition add_minutes (d : datetime) (n : Z) : outcome datetime :=
  let total := hour d * 60 + minute d + n in
  r <- add_days d (total / 1440) ;;
  Ok (mkDatetime (year r) (month r) (day r)
                 ((total mod 1440) / 60) ((total mod 1440) mod 60)
                 (second d) (microsecond d)).

(** [datetime(y, m, d, h, mi)]: [ValueError] when a field is out of
    range. *)
Definition datetime_new_hm (y m d h mi : Z) : outcome datetime :=
  let r := mkDatetime y m d h mi 0 0 in
  if dt_okb r then Ok r else Raise ValueError.

(** A rank of the date, hour and minute, strictly monotone along the
    minutes; used to bound the loop over the minutes. *)
Definition minute_rank (d : datetime) : Z :=
  rank d * 1440 + hour d * 60 + minute d.

End PyDatetime.

Import PyDatetime.

(** ** Python values, promises, evidence and verdicts *)

(** A JSON-like Python value, for the free-form [details] of a verdict. *)
#[warnings="-register-all"]
Inductive pyval : Type :=
| PNone
| PBool (b : bool)
| PInt (z : Z)
| PFloat (q : Q)
| PStr (s : string)
| PList (l : list pyval)
| PDict (d : list (string * pyval)).

(** [d.get(key)] on a [PDict]. *)
Fixpoint assoc_get (key : string) (d : list (string * pyval)) : option pyval :=
  match d with
  | [] => None
  | (k, v) :: d' => if String.eqb k key then Some v else assoc_get key d'
  end.

Definition py_get (key : string) (v : pyval) : option pyval :=
  match v with
  | PDict d => assoc_get key d
  | _ => None
  end.

(** True division of two numbers; the float is kept in lowest terms, so
    that equal floats are equal terms. *)
Definition true_div (a b : Q) : Q := Qred (a / b).

(** One heart-rate sample: [{"timestamp": ..., "heart_rate": ...}]. *)
Module Sample.
Record t : Type := mk {
  timestamp : datetime;
  heart_rate : Z
}.
End Sample.

(** One recorded activity of [evidence["exercise_sessions"]]. *)
Module Session.
Record t : Type := mk {
  start_time : datetime;
  end_time : datetime;
  duration_minutes : Z;
  average_heart_rate : Z;
  activity_type : string
}.
End Session.

(** One entry of [evidence["elevated_hr_periods"]]; the two numeric keys
    are read with [.get(key, 0)]. *)
Module Interval.
Record t : Type := mk {
  start_time : datetime;
  end_time : datetime;
  duration_minutes : option Q;
  average_heart_rate : option Q
}.
End Interval.

Module Promise.
Record t : Type := mk {
  type : option string;
  frequency : option Z;
  period : option string;
  heart_rate_threshold : option Z;
  duration_minutes : option Z;
  max_gap_days : option Z;
  start_date : option datetime;
  end_date : option datetime
}.
End Promise.

Module Evidence.
Record t : Type := mk {
  heart_rate_data : list Sample.t;
  exercise_sessions : option (list Session.t);
  elevated_hr_periods : option (list Interval.t)
}.
End Evidence.

Module Verdict.
Record t : Type := mk {
  fulfilled : bool;
  confidence : Q;
  reasoning : string;
  details : pyval
}.
End Verdict.

(** [d.get(key, default)] on an optional field. *)
Definition get_default {A : Type} (field : option A) (default : A) : A :=
  match field with
  | Some v => v
  | None => default
  end.

(** [datetime.fromisoformat(promise.get(key))]: [TypeError] on [None]. *)
Definition fromisoformat_get (field : option datetime) : outcome datetime :=
  match field with
  | Some d => Ok d
  | None => Raise TypeError
  end.

(** ** The module [random] *)

Module Random.

(** The state of the module-level generator: the raw draws, of which the
    first [pos] are used. Nothing is assumed of the raw draws, so what is
    proved holds for every run of the generator. *)
Record state : Type := mk {
  raw : nat -> Z;
  pos : nat
}.

Definition draw (g : state) : Z * state :=
  (raw g (pos g), mk (raw g) (S (pos g))).

(** [random.randint(a, b)] for [a <= b], as at every call in the
    client. *)
Definition randint (a b : Z) (g : state) : Z * state :=
  let '(r, g') := draw g in (a + r mod (b - a + 1), g').

(** [random.choice(seq)] for a non-empty [seq]. *)
Definition choice {A : Type} (default : A) (seq : list A) (g : state)
  : A * state :=
  let '(r, g') := draw g in
  (nth (Z.to_nat (r mod Z.of_nat (List.length seq))) seq default, g').

End Random.

(** A sample as the mock client builds it: the two keys that the sweep
    reads and the [source] tag. *)
Module MockSample.
Record t : Type := mk {
  sample : Sample.t;
  source : string
}.
End MockSample.

(** A session as the mock client builds it: the keys of a session, the
    burned calories and the [source] tag. *)
Module MockSession.
Record t : Type := mk {
  session : Session.t;
  calories_burned : Z;
  source : string
}.
End MockSession.

(** ** The elevated heart-rate sweep of [TerraApiClient] *)

Module TerraApiClient.

(** [_calculate_average_hr] *)
Definition _calculate_average_hr (hr_data : list Sample.t)
    (start_time end_time : datetime) : Q :=
  let relevant_data :=
    map Sample.heart_rate
      (filter (fun d => dt_leb start_time (Sample.timestamp d) &&
                        dt_leb (Sample.timestamp d) end_time) hr_data) in
  match relevant_data with
  | [] => 0%Q
  | _ => true_div (inject_Z (fold_right Z.add 0 relevant_data))
                  (inject_Z (Z.of_nat (List.length relevant_data)))
  end.

(** The state of the sweep: the periods found so far and the start of the
    period that is open, if any. *)
Definition sweep_state : Type := (list Interval.t * option datetime)%type.

(** One turn of the [for] loop over [hr_data]. *)
Definition sweep_step (hr_data : list Sample.t)
    (threshold min_duration_minutes : Z)
    (st : sweep_state) (data_point : Sample.t) : sweep_state :=
  let '(elevated_periods, current_period_start) := st in
  let hr := Sample.heart_rate data_point in
  let timestamp := Sample.timestamp data_point in
  if threshold <=? hr then
    match current_period_start with
    | None => (elevated_periods, Some timestamp)
    | Some _ => st
    end
  else
    match current_period_start with
    | Some start =>
        let period_duration := Qred (td_minutes (dt_sub timestamp start)) in
        (if Qle_bool (inject_Z min_duration_minutes) period_duration then
           elevated_periods ++
             [Interval.mk start timestamp (Some period_duration)
                (Some (_calculate_average_hr hr_data start timestamp))]
         else elevated_periods,
         None)
    | None => st
    end.

(** [check_continuous_elevated_heart_rate], on the samples that
    [get_heart_rate_data] returned. *)
Definition check_continuous_elevated_heart_rate (hr_data : list Sample.t)
    (threshold min_duration_minutes : Z) : list Interval.t :=
  let '(elevated_periods, current_period_start) :=
    fold_left (sweep_step hr_data threshold min_duration_minutes)
              hr_data ([], None) in
  match current_period_start with
  | Some start =>
      let last_timestamp := last (map Sample.timestamp hr_data) start in
      let period_duration := Qred (td_minutes (dt_sub last_timestamp start)) in
      if Qle_bool (inject_Z min_duration_minutes) period_duration then
        elevated_periods ++
          [Interval.mk start last_timestamp (Some period_duration)
             (Some (_calculate_average_hr hr_data start last_timestamp))]
      else elevated_periods
  | None => elevated_periods
  end.

End TerraApiClient.

(** ** The mock data of [TerraApiClient] *)

Module MockClient.

(** The client object: [user_id] and the cache [_mock_data_cache], a dict
    from cache key to the list of samples. *)
Record t : Type := mk {
  user_id : string;
  _mock_data_cache : list (string * list MockSample.t)
}.

(** [__init__] *)
Definition __init__ (user_id_ : string) : t := mk user_id_ [].

(** [key in cache] and [cache[key]] *)
Fixpoint cache_get (cache : list (string * list MockSample.t))
    (key : string) : option (list MockSample.t) :=
  match cache with
  | [] => None
  | (k, v) :: rest => if String.eqb k key then Some v else cache_get rest key
  end.

(** [cache[key] = data] *)
Fixpoint cache_set (cache : list (string * list MockSample.t))
    (key : string) (data : list MockSample.t)
  : list (string * list MockSample.t) :=
  match cache with
  | [] => [(key, data)]
  | (k, v) :: rest =>
      if String.eqb k key then (k, data) :: rest
      else (k, v) :: cache_set rest key data
  end.

(** The heart rate drawn for a sample taken at [hour]: the base rate is
    drawn first, also when it is not used. *)
Definition mock_heart_rate (hour_ : Z) (g : Random.state)
  : Z * Random.state :=
  let '(base_hr, g1) := Random.randint 60 80 g in
  if (6 <=? hour_) && (hour_ <? 9) then Random.randint 100 160 g1
  else if (17 <=? hour_) && (hour_ <? 20) then Random.randint 100 150 g1
  else let '(delta, g2) := Random.randint (-5) 20 g1 in (base_hr + delta, g2).

(** The [while current_time <= end_date] loop of
    [_generate_mock_heart_rate_data]; [fuel] as in [generate_periods]. *)
Fixpoint generate_samples (fuel : nat) (current_time end_date : datetime)
    (data : list MockSample.t) (g : Random.state)
  : outcome (list MockSample.t * Random.state) :=
  if dt_leb current_time end_date then
    match fuel with
    | O => Diverge
    | S fuel' =>
        let '(hr, g') := mock_heart_rate (hour current_time) g in
        let data' :=
          data ++ [MockSample.mk (Sample.mk current_time hr)
                                 "mock_terra_api"] in
        current_time' <- add_minutes current_time 1 ;;
        generate_samples fuel' current_time' end_date data' g'
    end
  else Ok (data, g).

(** Every turn moves [current_time] one minute forward. *)
Definition minute_budget (start_date end_date : datetime) : nat :=
  Z.to_nat (minute_rank end_date - minute_rank start_date + 1).

(** [_generate_mock_heart_rate_data] *)
Definition _generate_mock_heart_rate_data (start_date end_date : datetime)
    (g : Random.state) : outcome (list MockSample.t * Random.state) :=
  generate_samples (minute_budget start_date end_date) start_date end_date
                   [] g.

(** The cache key of [get_heart_rate_data]. *)
Definition cache_key (start_date end_date : datetime) : string :=
  (isoformat start_date ++ "_" ++ isoformat end_date)%string.

(** [get_heart_rate_data]: the samples, the client and the generator
    after the call. *)
Definition get_heart_rate_data (self : t) (start_date end_date : datetime)
    (g : Random.state)
  : outcome (list MockSample.t * t * Random.state) :=
  let key := cache_key start_date end_date in
  match cache_get (_mock_data_cache self) key with
  | Some data => Ok (data, self, g)
  | None =>
      r <- _generate_mock_heart_rate_data start_date end_date g ;;
      let '(data, g') := r in
      Ok (data,
          mk (user_id self) (cache_set (_mock_data_cache self) key data),
          g')
  end.

(** The method [check_continuous_elevated_heart_rate]: it fetches the
    samples through [get_heart_rate_data] and sweeps them. *)
Definition check_continuous_elevated_heart_rate_call (self : t)
    (threshold min_duration_minutes : Z) (start_date end_date : datetime)
    (g : Random.state) : outcome (list Interval.t * t * Random.state) :=
  r <- get_heart_rate_data self start_date end_date g ;;
  let '(hr_data, self', g') := r in
  Ok (TerraApiClient.check_continuous_elevated_heart_rate
        (map MockSample.sample hr_data) threshold min_duration_minutes,
      self', g').

(** One turn of the [for _ in range(num_sessions)] loop of
    [get_exercise_sessions]. *)
Definition session_step (start_date end_date : datetime) (days : Z)
    (sessions : list MockSession.t) (g : Random.state)
  : outcome (list MockSession.t * Random.state) :=
  let '(random_days, g1) := Random.randint 0 (days - 1) g in
  let '(random_hour, g2) := Random.choice 7 [7; 8; 17; 18; 19] g1 in
  session_date <- add_days start_date random_days ;;
  let '(random_minute, g3) := Random.randint 0 30 g2 in
  session_start <- datetime_new_hm (year session_date) (month session_date)
                                   (day session_date) random_hour
                                   random_minute ;;
  let '(duration_minutes, g4) := Random.randint 30 90 g3 in
  session_end <- add_minutes session_start duration_minutes ;;
  if dt_leb start_date session_start && dt_leb session_end end_date then
    let '(activity_type, g5) :=
      Random.choice "running"
        ["running"; "cycling"; "walking"; "strength_training"] g4 in
    let '(calories, g6) := Random.randint 200 600 g5 in
    let '(average_heart_rate, g7) := Random.randint 120 160 g6 in
    Ok (sessions ++
          [MockSession.mk
             (Session.mk session_start session_end duration_minutes
                         average_heart_rate activity_type)
             calories "mock_terra_api"],
        g7)
  else Ok (sessions, g4).

Fixpoint session_loop (n : nat) (start_date end_date : datetime) (days : Z)
    (sessions : list MockSession.t) (g : Random.state)
  : outcome (list MockSession.t * Random.state) :=
  match n with
  | O => Ok (sessions, g)
  | S n' =>
      r <- session_step start_date end_date days sessions g ;;
      let '(sessions', g') := r in
      session_loop n' start_date end_date days sessions' g'
  end.

(** [get_exercise_sessions]; [int(days / 7 * r)] truncates towards
    zero. *)
Definition get_exercise_sessions (self : t) (start_date end_date : datetime)
    (g : Random.state) : outcome (list MockSession.t * Random.state) :=
  let days := td_days (dt_sub end_date start_date) + 1 in
  let '(r, g1) := Random.randint 3 5 g in
  let num_sessions := Z.quot (days * r) 7 in
  session_loop (Z.to_nat num_sessions) start_date end_date days [] g1.

(** The dict returned by [generate_test_data_for_week]. *)
Record test_data : Type := mkTestData {
  heart_rate_data : list MockSample.t;
  exercise_sessions : list MockSession.t;
  elevated_hr_periods : list Interval.t
}.

(** [generate_test_data_for_week] *)
Definition generate_test_data_for_week (user_id_ : string)
    (week_start : datetime) (g : Random.state)
  : outcome (test_data * Random.state) :=
  let client := __init__ user_id_ in
  week_end <- add_days week_start 7 ;;
  r1 <- get_heart_rate_data client week_start week_end g ;;
  let '(hr, client1, g1) := r1 in
  r2 <- get_exercise_sessions client1 week_start week_end g1 ;;
  let '(sessions, g2) := r2 in
  r3 <- check_continuous_elevated_heart_rate_call client1 120 25
          week_start week_end g2 ;;
  let '(elevated, client3, g3) := r3 in
  Ok (mkTestData hr sessions elevated, g3).

End MockClient.

(** ** [RuleBasedEvaluator] *)

Module RuleBasedEvaluator.

(** [_get_period_start] *)
Definition _get_period_start (date : datetime) (period : string)
  : outcome datetime :=
  if String.eqb period "day" then
    datetime_new (year date) (month date) (day date)
  else if String.eqb period "week" then
    (* Start of the week (Monday) *)
    add_days date (- weekday date)
  else if String.eqb period "month" then
    datetime_new (year date) (month date) 1
  else Ok date.

(** The first day of the month after [d], as both [_get_period_end] and
    the period loop compute it. *)
Definition first_of_next_month (d : datetime) : outcome datetime :=
  if month d =? 12 then datetime_new (year d + 1) 1 1
  else datetime_new (year d) (month d + 1) 1.

(** [_get_period_end] *)
Definition _get_period_end (period_start : datetime) (period : string)
  : outcome datetime :=
  if String.eqb period "day" then
    d <- add_days period_start 1 ;; sub_microsecond d
  else if String.eqb period "week" then
    d <- add_days period_start 7 ;; sub_microsecond d
  else if String.eqb period "month" then
    next_month <- first_of_next_month period_start ;;
    sub_microsecond next_month
  else
    d <- add_days period_start 1 ;; sub_microsecond d.

Section Grouping.

Context {A : Type}.

(** The dict [periods]: keys in insertion order. *)
Definition period_dict : Type := list (datetime * list A).

(** [key in periods] *)
Fixpoint dict_mem (key : datetime) (periods : period_dict) : bool :=
  match periods with
  | [] => false
  | (k, _) :: rest => dt_eqb k key || dict_mem key rest
  end.

(** [periods[key] = value]: an existing key keeps its place. *)
Fixpoint dict_set (periods : period_dict) (key : datetime) (value : list A)
  : period_dict :=
  match periods with
  | [] => [(key, value)]
  | (k, v) :: rest =>
      if dt_eqb k key then (k, value) :: rest
      else (k, v) :: dict_set rest key value
  end.

(** [periods[key].append(item)] for a key that is present. *)
Fixpoint dict_append (periods : period_dict) (key : datetime) (item : A)
  : period_dict :=
  match periods with
  | [] => []
  | (k, v) :: rest =>
      if dt_eqb k key then (k, v ++ [item]) :: rest
      else (k, v) :: dict_append rest key item
  end.

(** "Move to the next period": the last statement of the [while] body.
    An unknown period leaves [current_date] as it is. *)
Definition next_period (period : string) (current_date : datetime)
  : outcome datetime :=
  if String.eqb period "day" then add_days current_date 1
  else if String.eqb period "week" then add_days current_date 7
  else if String.eqb period "month" then first_of_next_month current_date
  else Ok current_date.

(** The [while current_date <= end_date] loop of [_group_by_period]. The
    loop has no bound of its own; [fuel] counts the turns still allowed,
    and running out of it stands for a loop that does not end. *)
Fixpoint generate_periods (fuel : nat) (period : string)
    (current_date end_date : datetime) (periods : period_dict)
  : outcome period_dict :=
  if dt_leb current_date end_date then
    match fuel with
    | O => Diverge
    | S fuel' =>
        period_start <- _get_period_start current_date period ;;
        current_date' <- next_period period current_date ;;
        generate_periods fuel' period current_date' end_date
                         (dict_set periods period_start [])
    end
  else Ok periods.

(** Every turn of the loop that changes [current_date] moves its date
    forward, so more turns than this are only taken by a loop that never
    ends. *)
Definition loop_budget (start_date end_date : datetime) : nat :=
  Z.to_nat (rank end_date - rank start_date + 1).

(** The [for item in items] loop of [_group_by_period]. *)
Fixpoint group_items (period : string) (timestamp_key : A -> datetime)
    (items : list A) (periods : period_dict) : outcome period_dict :=
  match items with
  | [] => Ok periods
  | item :: rest =>
      let item_date := timestamp_key item in
      period_start <- _get_period_start item_date period ;;
      group_items period timestamp_key rest
        (if dict_mem period_start periods
         then dict_append periods period_start item
         else periods)
  end.

(** [_group_by_period] *)
Definition _group_by_period (items : list A) (period : string)
    (start_date end_date : datetime) (timestamp_key : A -> datetime)
  : outcome period_dict :=
  periods <- generate_periods (loop_budget start_date end_date) period
                              start_date end_date [] ;;
  group_items period timestamp_key items periods.

(** The [for period_start, sessions in periods.items()] loop shared by the
    frequency and the duration handler; [count_key] is the key under which
    the entry reports [len(sessions)]. *)
Fixpoint check_periods (count_key period : string) (frequency : Z)
    (periods : period_dict) (fulfilled_periods : Z) (entries : list pyval)
  : outcome (Z * list pyval) :=
  match periods with
  | [] => Ok (fulfilled_periods, entries)
  | (period_start, sessions) :: rest =>
      period_end <- _get_period_end period_start period ;;
      let period_fulfilled := frequency <=? Z.of_nat (List.length sessions) in
      check_periods count_key period frequency rest
        (fulfilled_periods + (if period_fulfilled then 1 else 0))
        (entries ++
         [PDict [("period_start", PStr (isoformat period_start));
                 ("period_end", PStr (isoformat period_end));
                 (count_key, PInt (Z.of_nat (List.length sessions)));
                 ("required_count", PInt frequency);
                 ("fulfilled", PBool period_fulfilled)]])
  end.

End Grouping.

(** [a / b] on two ints. *)
Definition py_div (a b : Z) : outcome Q :=
  if b =? 0 then Raise ZeroDivisionError
  else Ok (true_div (inject_Z a) (inject_Z b)).

(** Rounding to the nearest integer, ties to even. *)
Definition round_half_even (q : Q) : Z :=
  let n := Qnum q in
  let d := Z.pos (Qden q) in
  let fl := n / d in
  let r2 := 2 * (n mod d) in
  if r2 <? d then fl
  else if d <? r2 then fl + 1
  else if Z.even fl then fl else fl + 1.

(** [f"{x:.0%}"] *)
Definition format_percent (x : Q) : string :=
  (str_of_Z (round_half_even (x * 100)) ++ "%")%string.

(** [fulfilled_periods / total_periods if total_periods > 0 else 0] *)
Definition fulfillment (fulfilled_periods total_periods : Z) : outcome Q :=
  if 0 <? total_periods then py_div fulfilled_periods total_periods
  else Ok 0%Q.

(** [_evaluate_exercise_frequency] *)
Definition _evaluate_exercise_frequency (promise : Promise.t)
    (evidence : Evidence.t) : outcome Verdict.t :=
  let frequency := get_default (Promise.frequency promise) 1 in
  let period := get_default (Promise.period promise) "week" in
  start_date <- fromisoformat_get (Promise.start_date promise) ;;
  end_date <- fromisoformat_get (Promise.end_date promise) ;;
  let exercise_sessions :=
    get_default (Evidence.exercise_sessions evidence) [] in
  periods <- _group_by_period exercise_sessions period start_date end_date
                              Session.start_time ;;
  let total_periods := Z.of_nat (List.length periods) in
  r <- check_periods "sessions_count" period frequency periods 0 [] ;;
  let '(fulfilled_periods, entries) := r in
  fulfillment_percentage <- fulfillment fulfilled_periods total_periods ;;
  let fulfilled := Qle_bool 1 fulfillment_percentage in
  Ok (Verdict.mk fulfilled 1
        ("The promise required exercising " ++ str_of_Z frequency ++
         " times per " ++ period ++ ". " ++
         "You met this requirement in " ++ str_of_Z fulfilled_periods ++
         " out of " ++ str_of_Z total_periods ++ " " ++ period ++ "s " ++
         "(" ++ format_percent fulfillment_percentage ++ ").")%string
        (PDict [("periods", PList entries);
                ("total_periods", PInt total_periods);
                ("fulfilled_periods", PInt fulfilled_periods)])).

(** The filter of [_evaluate_exercise_duration]. *)
Definition qualifies (heart_rate_threshold duration_minutes : Z)
    (p : Interval.t) : bool :=
  Qle_bool (inject_Z heart_rate_threshold)
           (get_default (Interval.average_heart_rate p) 0%Q) &&
  Qle_bool (inject_Z duration_minutes)
           (get_default (Interval.duration_minutes p) 0%Q).

(** [_evaluate_exercise_duration] *)
Definition _evaluate_exercise_duration (promise : Promise.t)
    (evidence : Evidence.t) : outcome Verdict.t :=
  let heart_rate_threshold :=
    get_default (Promise.heart_rate_threshold promise) 120 in
  let duration_minutes := get_default (Promise.duration_minutes promise) 25 in
  let frequency := get_default (Promise.frequency promise) 1 in
  let period := get_default (Promise.period promise) "week" in
  start_date <- fromisoformat_get (Promise.start_date promise) ;;
  end_date <- fromisoformat_get (Promise.end_date promise) ;;
  let elevated_hr_periods :=
    get_default (Evidence.elevated_hr_periods evidence) [] in
  let qualifying_periods :=
    filter (qualifies heart_rate_threshold duration_minutes)
           elevated_hr_periods in
  periods <- _group_by_period qualifying_periods period start_date end_date
                              Interval.start_time ;;
  let total_periods := Z.of_nat (List.length periods) in
  r <- check_periods "qualifying_sessions" period frequency periods 0 [] ;;
  let '(fulfilled_periods, entries) := r in
  fulfillment_percentage <- fulfillment fulfilled_periods total_periods ;;
  let fulfilled := Qle_bool 1 fulfillment_percentage in
  Ok (Verdict.mk fulfilled 1
        ("The promise required exercising with a heart rate above " ++
         str_of_Z heart_rate_threshold ++ " bpm " ++
         "for at least " ++ str_of_Z duration_minutes ++ " minutes, " ++
         str_of_Z frequency ++ " times per " ++ period ++ ". " ++
         "You met this requirement in " ++ str_of_Z fulfilled_periods ++
         " out of " ++ str_of_Z total_periods ++ " " ++ period ++ "s " ++
         "(" ++ format_percent fulfillment_percentage ++ ").")%string
        (PDict [("periods", PList entries);
                ("total_periods", PInt total_periods);
                ("fulfilled_periods", PInt fulfilled_periods);
                ("qualifying_sessions",
                 PInt (Z.of_nat (List.length qualifying_periods)))])).

(** One entry of [gaps]; [details] renders the two instants with
    [isoformat]. *)
Record Gap : Type := mkGap {
  gap_start : datetime;
  gap_end : datetime;
  gap_days : Z
}.

Definition gap_entry (g : Gap) : pyval :=
  PDict [("gap_start", PStr (isoformat (gap_start g)));
         ("gap_end", PStr (isoformat (gap_end g)));
         ("gap_days", PInt (gap_days g))].

(** [sorted(exercise_sessions, key=start_time)]: a stable sort, here by
    insertion; a session goes in front of the sessions after it in the
    input that start at the same instant. *)
Fixpoint insert_session (s : Session.t) (l : list Session.t)
  : list Session.t :=
  match l with
  | [] => [s]
  | y :: l' =>
      if dt_leb (Session.start_time s) (Session.start_time y) then s :: l
      else y :: insert_session s l'
  end.

Definition sorted_sessions (exercise_sessions : list Session.t)
  : list Session.t :=
  fold_right insert_session [] exercise_sessions.

(** One turn of the [for session in sorted_sessions] loop; the state is
    [(gaps, last_session_end)]. *)
Definition gap_step (max_gap_days : Z) (st : list Gap * datetime)
    (session : Session.t) : list Gap * datetime :=
  let '(gaps, last_session_end) := st in
  let session_start := Session.start_time session in
  let gap_days := td_days (dt_sub session_start last_session_end) in
  (if max_gap_days <? gap_days
   then gaps ++ [mkGap last_session_end session_start gap_days]
   else gaps,
   Session.end_time session).

(** The gaps found by [_evaluate_exercise_consistency], final check
    included. *)
Definition find_gaps (max_gap_days : Z) (start_date end_date : datetime)
    (exercise_sessions : list Session.t) : list Gap :=
  let '(gaps, last_session_end) :=
    fold_left (gap_step max_gap_days) (sorted_sessions exercise_sessions)
              ([], start_date) in
  let final_gap_days := td_days (dt_sub end_date last_session_end) in
  if max_gap_days <? final_gap_days
  then gaps ++ [mkGap last_session_end end_date final_gap_days]
  else gaps.

(** [_evaluate_exercise_consistency] *)
Definition _evaluate_exercise_consistency (promise : Promise.t)
    (evidence : Evidence.t) : outcome Verdict.t :=
  let max_gap_days := get_default (Promise.max_gap_days promise) 7 in
  start_date <- fromisoformat_get (Promise.start_date promise) ;;
  end_date <- fromisoformat_get (Promise.end_date promise) ;;
  let exercise_sessions :=
    get_default (Evidence.exercise_sessions evidence) [] in
  let gaps := find_gaps max_gap_days start_date end_date exercise_sessions in
  let fulfilled := (List.length gaps =? 0)%nat in
  Ok (Verdict.mk fulfilled 1
        ("The promise required never going more than " ++
         str_of_Z max_gap_days ++ " days without exercise. " ++
         (if fulfilled then "No gaps were found."
          else "Found " ++ str_of_Z (Z.of_nat (List.length gaps)) ++
               " gaps exceeding " ++ str_of_Z max_gap_days ++ " days."))%string
        (PDict [("max_gap_days", PInt max_gap_days);
                ("gaps_found", PInt (Z.of_nat (List.length gaps)));
                ("gaps", PList (map gap_entry gaps))])).

Definition handler : Type := Promise.t -> Evidence.t -> outcome Verdict.t.

(** The evaluator object: its only attribute is [rule_handlers]. *)
Record t : Type := mk {
  rule_handlers : list (string * handler)
}.

Definition __init__ : t :=
  mk [("exercise_frequency", _evaluate_exercise_frequency);
      ("exercise_duration", _evaluate_exercise_duration);
      ("exercise_consistency", _evaluate_exercise_consistency)].

(** [self.rule_handlers[name]], [None] when [name not in self.rule_handlers]. *)
Fixpoint find_handler (name : string) (handlers : list (string * handler))
  : option handler :=
  match handlers with
  | [] => None
  | (k, h) :: rest => if String.eqb k name then Some h else find_handler name rest
  end.

(** [f"{promise_type}"] for the result of [promise.get("type")]. *)
Definition format_type (promise_type : option string) : string :=
  match promise_type with
  | Some name => name
  | None => "None"
  end.

Definition unknown_type_verdict (promise_type : option string) : Verdict.t :=
  Verdict.mk false 0
    ("Unknown promise type: " ++ format_type promise_type)%string
    (PDict []).

(** [evaluate] *)
Definition evaluate (self : t) (promise : Promise.t) (evidence : Evidence.t)
  : outcome Verdict.t :=
  let promise_type := Promise.type promise in
  match promise_type with
  | None => Ok (unknown_type_verdict promise_type)
  | Some name =>
      match find_handler name (rule_handlers self) with
      | None => Ok (unknown_type_verdict promise_type)
      | Some rule => rule promise evidence
      end
  end.

End RuleBasedEvaluator.

(** ** [LLMEvaluator] *)

Module LLMEvaluator.

(** The evaluator object: its only attribute is [model_name]. *)
Record t : Type := mk {
  model_name : pyval
}.

(** [__init__(self, model_name="mock_llm")] *)
Definition __init__ (model_name : option pyval) : t :=
  mk (get_default model_name (PStr "mock_llm")).

(** [_mock_llm_call]; the prompt is received and not read. *)
Definition _mock_llm_call (prompt : string) (promise : Promise.t)
    (evidence : Evidence.t) : Verdict.t :=
  let promise_type := get_default (Promise.type promise) "" in
  if String.eqb promise_type "exercise_frequency" then
    let frequency := get_default (Promise.frequency promise) 1 in
    let period := get_default (Promise.period promise) "week" in
    let exercise_sessions :=
      get_default (Evidence.exercise_sessions evidence) [] in
    let n := Z.of_nat (List.length exercise_sessions) in
    let fulfilled := frequency <=? n in
    Verdict.mk fulfilled (85 # 100)
      ("Based on the evidence, the user promised to exercise " ++
       str_of_Z frequency ++ " times per " ++ period ++ " " ++
       "and the data shows " ++ str_of_Z n ++ " exercise sessions. " ++
       (if fulfilled then "This meets the criteria."
        else "This does not meet the criteria."))%string
      (PDict [("sessions_found", PInt n);
              ("required_frequency", PInt frequency);
              ("period", PStr period)])
  else if String.eqb promise_type "exercise_duration" then
    let heart_rate_threshold :=
      get_default (Promise.heart_rate_threshold promise) 120 in
    let duration_minutes :=
      get_default (Promise.duration_minutes promise) 25 in
    let elevated_hr_periods :=
      get_default (Evidence.elevated_hr_periods evidence) [] in
    let qualifying_periods :=
      filter (RuleBasedEvaluator.qualifies heart_rate_threshold
                                           duration_minutes)
             elevated_hr_periods in
    let n := Z.of_nat (List.length qualifying_periods) in
    let fulfilled := 0 <? n in
    Verdict.mk fulfilled (9 # 10)
      ("The user promised to maintain a heart rate above " ++
       str_of_Z heart_rate_threshold ++ " bpm " ++
       "for at least " ++ str_of_Z duration_minutes ++ " minutes. " ++
       "The data shows " ++ str_of_Z n ++
       " periods meeting these criteria. " ++
       (if fulfilled then "This meets the criteria."
        else "This does not meet the criteria."))%string
      (PDict [("qualifying_periods", PInt n);
              ("heart_rate_threshold", PInt heart_rate_threshold);
              ("duration_minutes", PInt duration_minutes)])
  else
    Verdict.mk true (7 # 10)
      ("Based on the evidence provided, the user appears to have fulfilled their promise. " ++
       "The data shows consistent activity patterns that align with the promise criteria.")%string
      (PDict [("note",
               PStr "This is a mock LLM evaluation for demonstration purposes.")]).

End LLMEvaluator.

(** ** [EvaluatorRegistry] *)

Module EvaluatorRegistry.

(** The keyword arguments of a call, in the order given. *)
Definition kwargs : Type := list (string * pyval).

(** An instance of one of the two evaluator classes. *)
Inductive instance : Type :=
| RuleBasedInstance (self : RuleBasedEvaluator.t)
| LLMInstance (self : LLMEvaluator.t).

(** An evaluator class, as [get_evaluator] uses it: the result of calling
    it with keyword arguments. A class object is truthy, so the test
    [if evaluator_class:] passes for every registered class. *)
Definition evaluator_class : Type := kwargs -> outcome instance.

(** The class [RuleBasedEvaluator] called with keyword arguments:
    [__init__] takes none. *)
Definition RuleBasedEvaluator_class : evaluator_class :=
  fun kw =>
    match kw with
    | [] => Ok (RuleBasedInstance RuleBasedEvaluator.__init__)
    | _ :: _ => Raise TypeError
    end.

(** The class [LLMEvaluator] called with keyword arguments: [__init__]
    takes [model_name] only. *)
Definition LLMEvaluator_class : evaluator_class :=
  fun kw =>
    match kw with
    | [] => Ok (LLMInstance (LLMEvaluator.__init__ None))
    | [(key, value)] =>
        if String.eqb key "model_name"
        then Ok (LLMInstance (LLMEvaluator.__init__ (Some value)))
        else Raise TypeError
    | _ :: _ :: _ => Raise TypeError
    end.

(** The class attribute [_evaluators], a dict in insertion order. *)
Definition t : Type := list (string * evaluator_class).

(** [register]: [cls._evaluators[name] = evaluator_class]. *)
Fixpoint register (_evaluators : t) (name : string)
    (evaluator_class_ : evaluator_class) : t :=
  match _evaluators with
  | [] => [(name, evaluator_class_)]
  | (k, c) :: rest =>
      if String.eqb k name then (k, evaluator_class_) :: rest
      else (k, c) :: register rest name evaluator_class_
  end.

(** [cls._evaluators.get(name)] *)
Fixpoint lookup (_evaluators : t) (name : string) : option evaluator_class :=
  match _evaluators with
  | [] => None
  | (k, c) :: rest => if String.eqb k name then Some c else lookup rest name
  end.

(** [get_evaluator] *)
Definition get_evaluator (_evaluators : t) (name : string) (kw : kwargs)
  : outcome (option instance) :=
  match lookup _evaluators name with
  | Some evaluator_class_ =>
      evaluator <- evaluator_class_ kw ;; Ok (Some evaluator)
  | None => Ok None
  end.

(** [list_evaluators] *)
Definition list_evaluators (_evaluators : t) : list string :=
  map fst _evaluators.

(** The registrations made when [rule_based.py] and [llm_based.py] are
    imported, in that order, on top of the registry [_evaluators]. *)
Definition after_imports (_evaluators : t) : t :=
  register (register _evaluators "rule_based" RuleBasedEvaluator_class)
           "llm" LLMEvaluator_class.

End EvaluatorRegistry.

(** ** The object store *)

(** The dicts and lists of a Python program are objects with an identity:
    a variable, a dict slot or a list slot holds a reference to one, two
    references may name the same object, and an assignment to a slot or an
    [append] changes the object for everyone who holds a reference to it.
    Here the objects live in a store, and a function of the program takes
    the store it is called in to its result and the store it leaves. *)
Module PyStore.

(** A reference: the place of the object in the store. *)
Definition ref : Type := nat.

(** What a slot of a result dict or of a list holds. *)
Inductive value : Type :=
| VNone
| VBool (b : bool)
| VInt (z : Z)
| VFloat (q : Q)
| VStr (s : string)
| VRef (r : ref).

(** The bound methods that [__init__] puts into [rule_handlers]. *)
Inductive method : Type :=
| frequency_method
| duration_method
| consistency_method.

(** The entries of an evidence dict; the two lists that the evaluator
    reads are objects of their own, [heart_rate_data], which it never
    reads, is kept as a value. *)
Record evidence_entries : Type := mkEvidence {
  heart_rate_data : list Sample.t;
  exercise_sessions : option ref;
  elevated_hr_periods : option ref
}.

(** The objects. The dicts that the evaluator receives are typed as in
    [Promise], [Evidence], [Session] and [Interval]; [PeriodDict] is the
    dict [periods] of [_group_by_period], from a period start to its list
    of items; [PyDict] and [PyList] are the dicts and lists that a call
    builds, and the lists of the evidence. *)
Inductive object : Type :=
| Evaluator (rule_handlers : ref)
| Handlers (entries : list (string * method))
| PromiseDict (promise : Promise.t)
| EvidenceDict (evidence : evidence_entries)
| SessionDict (session : Session.t)
| IntervalDict (interval : Interval.t)
| PeriodDict (entries : list (datetime * ref))
| PyDict (entries : list (string * value))
| PyList (items : list value).

Arguments VRef r%_nat.
Arguments Evaluator rule_handlers%_nat.

Definition store : Type := list object.

(** A computation on the store: its outcome and the store it leaves, an
    exception leaving the store as it is when it is raised. [None] stands
    for a store that is not typed as the docstrings say: a reference that
    holds an object of another class than the statement expects. *)
Definition M (A : Type) : Type := store -> option (outcome A * store).

Definition ret {A : Type} (a : A) : M A := fun s => Some (Ok a, s).

(** A computation that does not touch the store. *)
Definition lift {A : Type} (o : outcome A) : M A := fun s => Some (o, s).

Definition untyped {A : Type} : M A := fun _ => None.

Definition mbind {A B : Type} (m : M A) (k : A -> M B) : M B :=
  fun s =>
    match m s with
    | Some (Ok a, s') => k a s'
    | Some (Raise e, s') => Some (Raise e, s')
    | Some (Diverge, s') => Some (Diverge, s')
    | None => None
    end.

Notation "x <~ m ;; k" := (mbind m (fun x => k))
  (at level 61, m at next level, right associativity).

(** The object behind a reference. *)
Definition deref (r : ref) : M object :=
  fun s =>
    match nth_error s r with
    | Some o => Some (Ok o, s)
    | None => None
    end.

(** A dict or list display, or a comprehension: a new object, at a
    reference that names no older object. *)
Definition new (o : object) : M ref :=
  fun s => Some (Ok (List.length s), s ++ [o]).

Fixpoint update (s : store) (r : ref) (o : object) : store :=
  match s with
  | [] => []
  | x :: s' =>
      match r with
      | O => o :: s'
      | S r' => x :: update s' r' o
      end
  end.

(** A change of the object behind a reference, in place. *)
Definition store_at (r : ref) (o : object) : M unit :=
  fun s =>
    match nth_error s r with
    | Some _ => Some (Ok tt, update s r o)
    | None => None
    end.

(** [promise.get(key)], for the key of [field]. *)
Definition promise_get {A : Type} (promise : ref)
    (field : Promise.t -> option A) : M (option A) :=
  o <~ deref promise ;;
  match o with
  | PromiseDict p => ret (field p)
  | _ => untyped
  end.

(** [evidence.get(key, default)], for the key of [field]. *)
Definition evidence_get (evidence : ref)
    (field : evidence_entries -> option ref) (default : ref) : M ref :=
  o <~ deref evidence ;;
  match o with
  | EvidenceDict e => ret (get_default (field e) default)
  | _ => untyped
  end.

(** [self.rule_handlers] *)
Definition get_rule_handlers (self : ref) : M ref :=
  o <~ deref self ;;
  match o with
  | Evaluator rule_handlers => ret rule_handlers
  | _ => untyped
  end.

Fixpoint find_method (name : string) (entries : list (string * method))
  : option method :=
  match entries with
  | [] => None
  | (k, m) :: rest =>
      if String.eqb k name then Some m else find_method name rest
  end.

(** [handlers[key]], [None] when [key not in handlers]; [key] is the
    result of [promise.get("type")]. *)
Definition handlers_find (handlers : ref) (key : option string)
  : M (option method) :=
  o <~ deref handlers ;;
  match o with
  | Handlers entries =>
      ret (match key with
           | Some name => find_method name entries
           | None => None
           end)
  | _ => untyped
  end.

(** [fromisoformat(item.get("start_time"))] and the like on an item of the
    evidence: a session dict or an interval dict. *)
Definition start_time_of (o : object) : option datetime :=
  match o with
  | SessionDict s => Some (Session.start_time s)
  | IntervalDict i => Some (Interval.start_time i)
  | _ => None
  end.

Definition end_time_of (o : object) : option datetime :=
  match o with
  | SessionDict s => Some (Session.end_time s)
  | IntervalDict i => Some (Interval.end_time i)
  | _ => None
  end.

(** [p.get("average_heart_rate", 0)] and [p.get("duration_minutes", 0)]
    on an interval dict. *)
Definition average_heart_rate_of (o : object) : option Q :=
  match o with
  | IntervalDict i => Some (get_default (Interval.average_heart_rate i) 0%Q)
  | _ => None
  end.

Definition duration_minutes_of (o : object) : option Q :=
  match o with
  | IntervalDict i => Some (get_default (Interval.duration_minutes i) 0%Q)
  | _ => None
  end.

(** [item.get(key)], for the key of [field]. *)
Definition item_get {A : Type} (field : object -> option A) (item : value)
  : M A :=
  match item with
  | VRef r =>
      o <~ deref r ;;
      match field o with
      | Some a => ret a
      | None => untyped
      end
  | _ => untyped
  end.

(** The items of a list, as a [for] loop or [sorted] goes through them. *)
Definition list_items (l : ref) : M (list value) :=
  o <~ deref l ;;
  match o with
  | PyList items => ret items
  | _ => untyped
  end.

(** [len(l)] *)
Definition len (l : ref) : M Z :=
  items <~ list_items l ;;
  ret (Z.of_nat (List.length items)).

(** [l.append(x)] *)
Definition append (l : ref) (x : value) : M unit :=
  items <~ list_items l ;;
  store_at l (PyList (items ++ [x])).

(** [target.append(x)] for what a dict slot holds. *)
Definition append_to (target : value) (x : value) : M unit :=
  match target with
  | VRef l => append l x
  | _ => untyped
  end.

Fixpoint assoc_find (key : string) (entries : list (string * value))
  : option value :=
  match entries with
  | [] => None
  | (k, v) :: rest => if String.eqb k key then Some v else assoc_find key rest
  end.

Fixpoint assoc_set (entries : list (string * value)) (key : string)
    (v : value) : list (string * value) :=
  match entries with
  | [] => [(key, v)]
  | (k, w) :: rest =>
      if String.eqb k key then (k, v) :: rest
      else (k, w) :: assoc_set rest key v
  end.

(** [d[key]] on a dict that the call has built with that key. *)
Definition dict_getitem (d : ref) (key : string) : M value :=
  o <~ deref d ;;
  match o with
  | PyDict entries =>
      match assoc_find key entries with
      | Some v => ret v
      | None => untyped
      end
  | _ => untyped
  end.

(** [d[key] = v] *)
Definition dict_setitem (d : ref) (key : string) (v : value) : M unit :=
  o <~ deref d ;;
  match o with
  | PyDict entries => store_at d (PyDict (assoc_set entries key v))
  | _ => untyped
  end.

Fixpoint period_find (key : datetime) (entries : list (datetime * ref))
  : option ref :=
  match entries with
  | [] => None
  | (k, b) :: rest => if dt_eqb k key then Some b else period_find key rest
  end.

Fixpoint period_set (entries : list (datetime * ref)) (key : datetime)
    (b : ref) : list (datetime * ref) :=
  match entries with
  | [] => [(key, b)]
  | (k, c) :: rest =>
      if dt_eqb k key then (k, b) :: rest
      else (k, c) :: period_set rest key b
  end.

(** [periods.items()], as the [for] loop goes through them. *)
Definition periods_items (periods : ref) : M (list (datetime * ref)) :=
  o <~ deref periods ;;
  match o with
  | PeriodDict entries => ret entries
  | _ => untyped
  end.

(** [len(periods)] *)
Definition periods_len (periods : ref) : M Z :=
  entries <~ periods_items periods ;;
  ret (Z.of_nat (List.length entries)).

(** [periods[key] = b] *)
Definition periods_setitem (periods : ref) (key : datetime) (b : ref)
  : M unit :=
  entries <~ periods_items periods ;;
  store_at periods (PeriodDict (period_set entries key b)).

(** [periods[key]], [None] when [key not in periods]. *)
Definition periods_find (periods : ref) (key : datetime) : M (option ref) :=
  entries <~ periods_items periods ;;
  ret (period_find key entries).

(** All of [ms], from left to right. *)
Fixpoint for_each {A B : Type} (f : A -> M B) (l : list A) : M (list B) :=
  match l with
  | [] => ret []
  | x :: rest =>
      y <~ f x ;;
      ys <~ for_each f rest ;;
      ret (y :: ys)
  end.

End PyStore.

(** ** [RuleBasedEvaluator] on the object store *)

(** The methods of [RuleBasedEvaluator] once more, statement by statement,
    with the dicts and lists they receive, build and change as objects of
    the store. A [for] loop goes through the items that its list or dict
    holds when the loop starts. *)
Module StoredEvaluator.

Import PyStore.
Import RuleBasedEvaluator.

(** [__init__]: the dict [rule_handlers] and the evaluator object. *)
Definition __init__ : M ref :=
  rule_handlers <~ new (Handlers
                          [("exercise_frequency", frequency_method);
                           ("exercise_duration", duration_method);
                           ("exercise_consistency", consistency_method)]) ;;
  new (Evaluator rule_handlers).

(** The [while current_date <= end_date] loop of [_group_by_period]. *)
Fixpoint generate_periods (fuel : nat) (period : string)
    (current_date end_date : datetime) (periods : ref) : M unit :=
  if dt_leb current_date end_date then
    match fuel with
    | O => lift Diverge
    | S fuel' =>
        period_start <~ lift (_get_period_start current_date period) ;;
        bucket <~ new (PyList []) ;;
        _ <~ periods_setitem periods period_start bucket ;;
        current_date' <~ lift (next_period period current_date) ;;
        generate_periods fuel' period current_date' end_date periods
    end
  else ret tt.

(** The [for item in items] loop of [_group_by_period]. *)
Fixpoint group_items (period : string)
    (timestamp_key : object -> option datetime) (items : list value)
    (periods : ref) : M unit :=
  match items with
  | [] => ret tt
  | item :: rest =>
      item_date <~ item_get timestamp_key item ;;
      period_start <~ lift (_get_period_start item_date period) ;;
      found <~ periods_find periods period_start ;;
      _ <~ match found with
           | Some bucket => append bucket item
           | None => ret tt
           end ;;
      group_items period timestamp_key rest periods
  end.

(** [_group_by_period] *)
Definition _group_by_period (items : ref) (period : string)
    (start_date end_date : datetime)
    (timestamp_key : object -> option datetime) : M ref :=
  periods <~ new (PeriodDict []) ;;
  _ <~ generate_periods (loop_budget start_date end_date) period
                        start_date end_date periods ;;
  items' <~ list_items items ;;
  _ <~ group_items period timestamp_key items' periods ;;
  ret periods.

(** The [for period_start, sessions in periods.items()] loop of the
    frequency and the duration handler; it returns [fulfilled_periods]. *)
Fixpoint check_periods (count_key period : string) (frequency : Z)
    (items : list (datetime * ref)) (fulfilled_periods : Z) (details : ref)
  : M Z :=
  match items with
  | [] => ret fulfilled_periods
  | (period_start, sessions) :: rest =>
      period_end <~ lift (_get_period_end period_start period) ;;
      n <~ len sessions ;;
      let period_fulfilled := frequency <=? n in
      let fulfilled_periods :=
        fulfilled_periods + (if period_fulfilled then 1 else 0) in
      target <~ dict_getitem details "periods" ;;
      count <~ len sessions ;;
      entry <~ new (PyDict [("period_start", VStr (isoformat period_start));
                            ("period_end", VStr (isoformat period_end));
                            (count_key, VInt count);
                            ("required_count", VInt frequency);
                            ("fulfilled", VBool period_fulfilled)]) ;;
      _ <~ append_to target (VRef entry) ;;
      check_periods count_key period frequency rest fulfilled_periods details
  end.

(** [_evaluate_exercise_frequency] *)
Definition _evaluate_exercise_frequency (promise evidence : ref) : M ref :=
  frequency <~ promise_get promise Promise.frequency ;;
  let frequency := get_default frequency 1 in
  period <~ promise_get promise Promise.period ;;
  let period := get_default period "week" in
  start_date <~ promise_get promise Promise.start_date ;;
  start_date <~ lift (fromisoformat_get start_date) ;;
  end_date <~ promise_get promise Promise.end_date ;;
  end_date <~ lift (fromisoformat_get end_date) ;;
  default <~ new (PyList []) ;;
  exercise_sessions <~ evidence_get evidence exercise_sessions default ;;
  periods <~ _group_by_period exercise_sessions period start_date end_date
                              start_time_of ;;
  total_periods <~ periods_len periods ;;
  entries <~ new (PyList []) ;;
  details <~ new (PyDict [("periods", VRef entries);
                          ("total_periods", VInt total_periods);
                          ("fulfilled_periods", VInt 0)]) ;;
  items <~ periods_items periods ;;
  fulfilled_periods <~ check_periods "sessions_count" period frequency
                                     items 0 details ;;
  _ <~ dict_setitem details "fulfilled_periods" (VInt fulfilled_periods) ;;
  fulfillment_percentage <~ lift (fulfillment fulfilled_periods
                                              total_periods) ;;
  let fulfilled := Qle_bool 1 fulfillment_percentage in
  new (PyDict
         [("fulfilled", VBool fulfilled);
          ("confidence", VFloat 1);
          ("reasoning",
           VStr ("The promise required exercising " ++ str_of_Z frequency ++
                 " times per " ++ period ++ ". " ++
                 "You met this requirement in " ++
                 str_of_Z fulfilled_periods ++
                 " out of " ++ str_of_Z total_periods ++ " " ++ period ++
                 "s " ++
                 "(" ++ format_percent fulfillment_percentage ++ ").")%string);
          ("details", VRef details)]).

(** The condition of the list comprehension of
    [_evaluate_exercise_duration]; [and] reads the duration only of an
    interval whose average passes. *)
Definition qualifies (heart_rate_threshold duration_minutes : Z) (p : value)
  : M bool :=
  average <~ item_get average_heart_rate_of p ;;
  if Qle_bool (inject_Z heart_rate_threshold) average then
    duration <~ item_get duration_minutes_of p ;;
    ret (Qle_bool (inject_Z duration_minutes) duration)
  else ret false.

(** [[p for p in items if ...]]: the items of the new list. *)
Fixpoint comprehension (condition : value -> M bool) (items : list value)
  : M (list value) :=
  match items with
  | [] => ret []
  | p :: rest =>
      keep <~ condition p ;;
      kept <~ comprehension condition rest ;;
      ret (if keep then p :: kept else kept)
  end.

(** [_evaluate_exercise_duration] *)
Definition _evaluate_exercise_duration (promise evidence : ref) : M ref :=
  heart_rate_threshold <~ promise_get promise Promise.heart_rate_threshold ;;
  let heart_rate_threshold := get_default heart_rate_threshold 120 in
  duration_minutes <~ promise_get promise Promise.duration_minutes ;;
  let duration_minutes := get_default duration_minutes 25 in
  frequency <~ promise_get promise Promise.frequency ;;
  let frequency := get_default frequency 1 in
  period <~ promise_get promise Promise.period ;;
  let period := get_default period "week" in
  start_date <~ promise_get promise Promise.start_date ;;
  start_date <~ lift (fromisoformat_get start_date) ;;
  end_date <~ promise_get promise Promise.end_date ;;
  end_date <~ lift (fromisoformat_get end_date) ;;
  default <~ new (PyList []) ;;
  elevated_hr_periods <~ evidence_get evidence elevated_hr_periods default ;;
  items <~ list_items elevated_hr_periods ;;
  kept <~ comprehension (qualifies heart_rate_threshold duration_minutes)
                        items ;;
  qualifying_periods <~ new (PyList kept) ;;
  periods <~ _group_by_period qualifying_periods period start_date end_date
                              start_time_of ;;
  total_periods <~ periods_len periods ;;
  entries <~ new (PyList []) ;;
  qualifying_sessions <~ len qualifying_periods ;;
  details <~ new (PyDict [("periods", VRef entries);
                          ("total_periods", VInt total_periods);
                          ("fulfilled_periods", VInt 0);
                          ("qualifying_sessions", VInt qualifying_sessions)]) ;;
  items <~ periods_items periods ;;
  fulfilled_periods <~ check_periods "qualifying_sessions" period frequency
                                     items 0 details ;;
  _ <~ dict_setitem details "fulfilled_periods" (VInt fulfilled_periods) ;;
  fulfillment_percentage <~ lift (fulfillment fulfilled_periods
                                              total_periods) ;;
  let fulfilled := Qle_bool 1 fulfillment_percentage in
  new (PyDict
         [("fulfilled", VBool fulfilled);
          ("confidence", VFloat 1);
          ("reasoning",
           VStr ("The promise required exercising with a heart rate above " ++
                 str_of_Z heart_rate_threshold ++ " bpm " ++
                 "for at least " ++ str_of_Z duration_minutes ++
                 " minutes, " ++
                 str_of_Z frequency ++ " times per " ++ period ++ ". " ++
                 "You met this requirement in " ++
                 str_of_Z fulfilled_periods ++
                 " out of " ++ str_of_Z total_periods ++ " " ++ period ++
                 "s " ++
                 "(" ++ format_percent fulfillment_percentage ++ ").")%string);
          ("details", VRef details)]).

(** [sorted(items, key=...)] once the keys are computed: a stable sort,
    by insertion as in [sorted_sessions]. *)
Fixpoint insert_keyed (x : datetime * value) (l : list (datetime * value))
  : list (datetime * value) :=
  match l with
  | [] => [x]
  | y :: l' =>
      if dt_leb (fst x) (fst y) then x :: l else y :: insert_keyed x l'
  end.

Definition sort_keyed (l : list (datetime * value))
  : list (datetime * value) :=
  fold_right insert_keyed [] l.

(** [sorted(exercise_sessions, key=lambda s: fromisoformat(s.get("start_time")))]:
    the key of every item first, then the new list. *)
Definition sorted_by_start_time (exercise_sessions : ref) : M ref :=
  items <~ list_items exercise_sessions ;;
  keyed <~ for_each (fun s => key <~ item_get start_time_of s ;;
                              ret (key, s)) items ;;
  new (PyList (map snd (sort_keyed keyed))).

(** [{"gap_start": ..., "gap_end": ..., "gap_days": ...}] *)
Definition gap_dict (gap_start gap_end : datetime) (gap_days : Z) : object :=
  PyDict [("gap_start", VStr (isoformat gap_start));
          ("gap_end", VStr (isoformat gap_end));
          ("gap_days", VInt gap_days)].

(** The [for session in sorted_sessions] loop; it returns
    [last_session_end]. *)
Fixpoint gaps_loop (max_gap_days : Z) (sessions : list value)
    (last_session_end : datetime) (gaps : ref) : M datetime :=
  match sessions with
  | [] => ret last_session_end
  | session :: rest =>
      session_start <~ item_get start_time_of session ;;
      let gap_days := td_days (dt_sub session_start last_session_end) in
      _ <~ (if max_gap_days <? gap_days then
              gap <~ new (gap_dict last_session_end session_start gap_days) ;;
              append gaps (VRef gap)
            else ret tt) ;;
      session_end <~ item_get end_time_of session ;;
      gaps_loop max_gap_days rest session_end gaps
  end.

(** [_evaluate_exercise_consistency] *)
Definition _evaluate_exercise_consistency (promise evidence : ref) : M ref :=
  max_gap_days <~ promise_get promise Promise.max_gap_days ;;
  let max_gap_days := get_default max_gap_days 7 in
  start_date <~ promise_get promise Promise.start_date ;;
  start_date <~ lift (fromisoformat_get start_date) ;;
  end_date <~ promise_get promise Promise.end_date ;;
  end_date <~ lift (fromisoformat_get end_date) ;;
  default <~ new (PyList []) ;;
  exercise_sessions <~ evidence_get evidence exercise_sessions default ;;
  sorted_sessions <~ sorted_by_start_time exercise_sessions ;;
  gaps <~ new (PyList []) ;;
  sessions <~ list_items sorted_sessions ;;
  last_session_end <~ gaps_loop max_gap_days sessions start_date gaps ;;
  let final_gap_days := td_days (dt_sub end_date last_session_end) in
  _ <~ (if max_gap_days <? final_gap_days then
          gap <~ new (gap_dict last_session_end end_date final_gap_days) ;;
          append gaps (VRef gap)
        else ret tt) ;;
  gaps_found <~ len gaps ;;
  let fulfilled := gaps_found =? 0 in
  gaps_found <~ len gaps ;;
  details <~ new (PyDict [("max_gap_days", VInt max_gap_days);
                          ("gaps_found", VInt gaps_found);
                          ("gaps", VRef gaps)]) ;;
  found <~ (if fulfilled then ret "No gaps were found."
            else
              gaps_count <~ len gaps ;;
              ret ("Found " ++ str_of_Z gaps_count ++
                   " gaps exceeding " ++ str_of_Z max_gap_days ++
                   " days.")%string) ;;
  new (PyDict
         [("fulfilled", VBool fulfilled);
          ("confidence", VFloat 1);
          ("reasoning",
           VStr ("The promise required never going more than " ++
                 str_of_Z max_gap_days ++ " days without exercise. " ++
                 found)%string);
          ("details", VRef details)]).

(** A call of a bound method of [rule_handlers]. *)
Definition call (m : method) (promise evidence : ref) : M ref :=
  match m with
  | frequency_method => _evaluate_exercise_frequency promise evidence
  | duration_method => _evaluate_exercise_duration promise evidence
  | consistency_method => _evaluate_exercise_consistency promise evidence
  end.

(** [evaluate]: the reference of the verdict dict. *)
Definition evaluate (self promise evidence : ref) : M ref :=
  promise_type <~ promise_get promise Promise.type ;;
  rule_handlers <~ get_rule_handlers self ;;
  found <~ handlers_find rule_handlers promise_type ;;
  match found with
  | None =>
      details <~ new (PyDict []) ;;
      new (PyDict [("fulfilled", VBool false);
                   ("confidence", VFloat 0);
                   ("reasoning",
                    VStr ("Unknown promise type: " ++
                          format_type promise_type)%string);
                   ("details", VRef details)])
  | Some rule => call rule promise evidence
  end.

End StoredEvaluator.

Import RuleBasedEvaluator.

(** ** Vocabulary of the statements *)

(** [needle] occurs in [hay]. *)
Definition contains (needle hay : string) : Prop :=
  exists pre post, hay = (pre ++ needle ++ post)%string.

(** The names under which [__init__] registers a rule. *)
Definition known_types : list string := map fst (rule_handlers __init__).

(** Whether [promise.get("type")] is a registered rule type. *)
Definition type_known (promise : Promise.t) : bool :=
  match Promise.type promise with
  | Some name => existsb (String.eqb name) known_types
  | None => false
  end.

(** The timestamps that the rules read from the evidence are valid
    datetimes. *)
Definition evidence_okb (evidence : Evidence.t) : bool :=
  forallb (fun s => dt_okb (Session.start_time s))
          (get_default (Evidence.exercise_sessions evidence) []) &&
  forallb (fun i => dt_okb (Interval.start_time i))
          (get_default (Evidence.elevated_hr_periods evidence) []).

Definition evidence_ok (evidence : Evidence.t) : Prop :=
  evidence_okb evidence = true.

Definition known_period (period : string) : Prop :=
  period = "day" \/ period = "week" \/ period = "month".

(** A key of [periods] from which [_get_period_end] can be computed. *)
Definition key_ok (k : datetime) : Prop := dt_ok k /\ year k <= 9998.

(** Whether a period holds at least [frequency] items. *)
Definition period_satisfied {A : Type} (frequency : Z)
    (entry : datetime * list A)
  : bool :=
  frequency <=? Z.of_nat (List.length (snd entry)).

(** Whole days from [a] to [b]: [(b - a).days]. *)
Definition whole_days (a b : datetime) : Z := td_days (dt_sub b a).

(** The stretches without exercise, in the words of the specification:
    from the promise start to the first session's start, from each
    session's end to the next session's start, and from the last session's
    end to the promise end. *)
Fixpoint stretches (previous_end : datetime) (sessions : list Session.t)
    (end_date : datetime) : list (datetime * datetime) :=
  match sessions with
  | [] => [(previous_end, end_date)]
  | s :: rest =>
      (previous_end, Session.start_time s)
        :: stretches (Session.end_time s) rest end_date
  end.

(** The stretches of more than [max_gap_days] whole days, as gaps. *)
Definition long_stretches (max_gap_days : Z)
    (l : list (datetime * datetime)) : list Gap :=
  map (fun ab => mkGap (fst ab) (snd ab) (whole_days (fst ab) (snd ab)))
      (filter (fun ab => max_gap_days <? whole_days (fst ab) (snd ab)) l).

(** Ascending by start time. *)
Definition starts_before (a b : Session.t) : Prop :=
  dt_leb (Session.start_time a) (Session.start_time b) = true.

(** ** Reading the store *)

(** What a reference of the store stands for: the promise, the evidence
    with the sessions and intervals that its lists refer to, the evaluator
    with its handlers, and the verdict with everything its [details]
    reach. Each is [None] when the store holds no such thing there. *)

Fixpoint all_some {A : Type} (l : list (option A)) : option (list A) :=
  match l with
  | [] => Some []
  | Some a :: rest => option_map (cons a) (all_some rest)
  | None :: _ => None
  end.

Definition read_promise (s : PyStore.store) (promise : PyStore.ref)
  : option Promise.t :=
  match nth_error s promise with
  | Some (PyStore.PromiseDict p) => Some p
  | _ => None
  end.

Definition session_of (o : PyStore.object) : option Session.t :=
  match o with
  | PyStore.SessionDict x => Some x
  | _ => None
  end.

Definition interval_of (o : PyStore.object) : option Interval.t :=
  match o with
  | PyStore.IntervalDict x => Some x
  | _ => None
  end.

(** The item that a slot of a list refers to. *)
Definition read_item {A : Type} (decode : PyStore.object -> option A)
    (s : PyStore.store) (item : PyStore.value) : option A :=
  match item with
  | PyStore.VRef r =>
      match nth_error s r with
      | Some o => decode o
      | None => None
      end
  | _ => None
  end.

Definition read_list {A : Type} (decode : PyStore.object -> option A)
    (s : PyStore.store) (l : PyStore.ref) : option (list A) :=
  match nth_error s l with
  | Some (PyStore.PyList items) => all_some (map (read_item decode s) items)
  | _ => None
  end.

(** An entry that may be absent. *)
Definition read_entry {A : Type} (decode : PyStore.object -> option A)
    (s : PyStore.store) (entry : option PyStore.ref)
  : option (option (list A)) :=
  match entry with
  | Some l => option_map Some (read_list decode s l)
  | None => Some None
  end.

Definition read_evidence (s : PyStore.store) (evidence : PyStore.ref)
  : option Evidence.t :=
  match nth_error s evidence with
  | Some (PyStore.EvidenceDict e) =>
      match read_entry session_of s (PyStore.exercise_sessions e),
            read_entry interval_of s (PyStore.elevated_hr_periods e) with
      | Some sessions, Some intervals =>
          Some (Evidence.mk (PyStore.heart_rate_data e) sessions intervals)
      | _, _ => None
      end
  | _ => None
  end.

(** The function behind a bound method. *)
Definition method_function (m : PyStore.method)
  : RuleBasedEvaluator.handler :=
  match m with
  | PyStore.frequency_method =>
      RuleBasedEvaluator._evaluate_exercise_frequency
  | PyStore.duration_method =>
      RuleBasedEvaluator._evaluate_exercise_duration
  | PyStore.consistency_method =>
      RuleBasedEvaluator._evaluate_exercise_consistency
  end.

Definition read_self (s : PyStore.store) (self : PyStore.ref)
  : option RuleBasedEvaluator.t :=
  match nth_error s self with
  | Some (PyStore.Evaluator rule_handlers) =>
      match nth_error s rule_handlers with
      | Some (PyStore.Handlers entries) =>
          Some (RuleBasedEvaluator.mk
                  (map (fun e => (fst e, method_function (snd e)))
                       entries))
      | _ => None
      end
  | _ => None
  end.

(** A value with the dicts and lists it refers to, down to [depth]
    references. *)
Fixpoint read_value (depth : nat) (s : PyStore.store) (v : PyStore.value)
  : option pyval :=
  match v with
  | PyStore.VNone => Some PNone
  | PyStore.VBool b => Some (PBool b)
  | PyStore.VInt z => Some (PInt z)
  | PyStore.VFloat q => Some (PFloat q)
  | PyStore.VStr x => Some (PStr x)
  | PyStore.VRef r =>
      match depth with
      | O => None
      | S depth' =>
          match nth_error s r with
          | Some (PyStore.PyList items) =>
              option_map PList (all_some (map (read_value depth' s) items))
          | Some (PyStore.PyDict entries) =>
              option_map PDict
                (all_some
                   (map (fun e => option_map (pair (fst e))
                                             (read_value depth' s (snd e)))
                        entries))
          | _ => None
          end
      end
  end.

(** The verdict dict: its four entries, in the order of the return
    statements, the details with the lists and dicts below them. *)
Definition read_verdict (s : PyStore.store) (verdict : PyStore.ref)
  : option Verdict.t :=
  match nth_error s verdict with
  | Some (PyStore.PyDict
            [("fulfilled", PyStore.VBool fulfilled);
             ("confidence", PyStore.VFloat confidence);
             ("reasoning", PyStore.VStr reasoning);
             ("details", details)]) =>
      option_map (Verdict.mk fulfilled confidence reasoning)
                 (read_value 3 s details)
  | _ => None
  end.

(** The objects of [s] are the first objects of [s'], unchanged. *)
Definition extends (s s' : PyStore.store) : Prop :=
  exists fresh, s' = s ++ fresh.

(** Whether two calls ended alike: in the same exception, or in verdict
    dicts that read the same in the stores the calls left, the first one
    also after the second call. *)
Definition same_result (first : outcome PyStore.ref) (s1 : PyStore.store)
    (second : outcome PyStore.ref) (s2 : PyStore.store) : Prop :=
  match first, second with
  | Ok v1, Ok v2 =>
      exists verdict,
        read_verdict s1 v1 = Some verdict /\
        read_verdict s2 v2 = Some verdict /\
        read_verdict s2 v1 = Some verdict
  | Raise e1, Raise e2 => e1 = e2
  | Diverge, Diverge => True
  | _, _ => False
  end.
(** *** Relating a call on the store to the call on values *)

(** The objects below [n] are as they were, and no object is gone. *)
Definition grows (n : nat) (s s' : PyStore.store) : Prop :=
  (List.length s <= List.length s')%nat /\
  forall r, (r < n)%nat -> nth_error s' r = nth_error s r.

(** No object but the one at [l] has changed, and no object is gone. *)
Definition same_except (l : PyStore.ref) (s s' : PyStore.store) : Prop :=
  (List.length s <= List.length s')%nat /\
  forall r, (r < List.length s)%nat -> r <> l ->
            nth_error s' r = nth_error s r.

(** The two outcomes are of one kind, and results are related by [R]. *)
Definition agree {A B : Type} (R : A -> B -> Prop) (r : outcome A)
    (o : outcome B) : Prop :=
  match r, o with
  | Ok a, Ok b => R a b
  | Raise e, Raise e' => e = e'
  | Diverge, Diverge => True
  | _, _ => False
  end.

(** The entry [e] of the dict [periods] at [p] has the key of the entry
    [q] and refers to a list of its own with as many items. *)
Definition bucket_rel {A : Type} (s : PyStore.store) (p : PyStore.ref)
    (e : datetime * PyStore.ref) (q : datetime * list A) : Prop :=
  fst e = fst q /\ (p < snd e)%nat /\
  exists items, nth_error s (snd e) = Some (PyStore.PyList items) /\
                List.length items = List.length (snd q).

Definition periods_rel {A : Type} (s : PyStore.store) (p : PyStore.ref)
    (periods : list (datetime * list A)) : Prop :=
  exists entries,
    nth_error s p = Some (PyStore.PeriodDict entries) /\
    Forall2 (bucket_rel s p) entries periods /\
    NoDup (map snd entries).

(** The slot [x] refers to an object below [p] that reads as [y]. *)
Definition item_rel {A : Type} (decode : PyStore.object -> option A)
    (s : PyStore.store) (p : PyStore.ref) (x : PyStore.value) (y : A)
  : Prop :=
  exists r o, x = PyStore.VRef r /\ (r < p)%nat /\
              nth_error s r = Some o /\ decode o = Some y.

(** The slot [v] refers to a dict at or above [m] that reads as [x]. *)
Definition entry_rel (s : PyStore.store) (m : nat) (v : PyStore.value)
    (x : pyval) : Prop :=
  exists r, v = PyStore.VRef r /\ (m <= r)%nat /\
            read_value 1 s v = Some x.

(** ** Sample inputs *)

Definition at_minute (m : Z) : datetime := mkDatetime 2023 1 2 7 m 0 0.

Definition midnight (y m d : Z) : datetime := mkDatetime y m d 0 0 0 0.

(** The series [100,100,130,130,130,100], one sample a minute. *)
Definition sample_series : list Sample.t :=
  [Sample.mk (at_minute 0) 100; Sample.mk (at_minute 1) 100;
   Sample.mk (at_minute 2) 130; Sample.mk (at_minute 3) 130;
   Sample.mk (at_minute 4) 130; Sample.mk (at_minute 5) 100].

Definition session_at (d : datetime) : Session.t :=
  Session.mk d d 30 130 "running".

Definition no_evidence : Evidence.t := Evidence.mk [] None None.

(** A promise of type [ty] over [start, end] with no parameter given. *)
Definition bare_promise (ty : string) (start_date end_date : datetime)
  : Promise.t :=
  Promise.mk (Some ty) None None None None None
             (Some start_date) (Some end_date).

Definition consistency_demo : Promise.t :=
  bare_promise "exercise_consistency" (midnight 2023 1 2) (midnight 2023 1 5).

Definition consistency_demo_verdict : Verdict.t :=
  Verdict.mk true 1
    "The promise required never going more than 7 days without exercise. No gaps were found."
    (PDict [("max_gap_days", PInt 7); ("gaps_found", PInt 0);
            ("gaps", PList [])]).

Definition duration_demo : Promise.t :=
  Promise.mk (Some "exercise_duration") None (Some "day") (Some 120) (Some 2)
             None (Some (midnight 2023 1 2)) (Some (midnight 2023 1 2)).

(** Two weeks from Monday 2023-01-02, three sessions in the first week
    and two in the second, three sessions a week promised. *)
Definition two_weeks : Promise.t :=
  Promise.mk (Some "exercise_frequency") (Some 3) (Some "week")
             None None None
             (Some (midnight 2023 1 2)) (Some (midnight 2023 1 15)).

Definition two_weeks_evidence : Evidence.t :=
  Evidence.mk []
    (Some [session_at (midnight 2023 1 2); session_at (midnight 2023 1 3);
           session_at (midnight 2023 1 4); session_at (midnight 2023 1 9);
           session_at (midnight 2023 1 10)])
    None.

(** A range that ends before it starts. *)
Definition backwards (ty : string) : Promise.t :=
  bare_promise ty (midnight 2023 1 15) (midnight 2023 1 2).

(** Sessions of one hour on day 0, day 5 and day 14 of a window of twenty
    days, given out of order. *)
Definition hour_session (y m d : Z) : Session.t :=
  Session.mk (mkDatetime y m d 7 0 0 0) (mkDatetime y m d 8 0 0 0)
             60 130 "running".

Definition three_sessions : Evidence.t :=
  Evidence.mk []
    (Some [hour_session 2023 1 16; hour_session 2023 1 2;
           hour_session 2023 1 7])
    None.

Definition twenty_days : Promise.t :=
  Promise.mk (Some "exercise_consistency") None None None None (Some 7)
             (Some (midnight 2023 1 2)) (Some (midnight 2023 1 22)).

(** Wednesday 2023-01-04, half past ten. *)
Definition wednesday_morning : datetime := mkDatetime 2023 1 4 10 30 0 0.

(** A store with an evaluator, the promise [two_weeks] and an evidence
    dict whose list names the second session twice. *)
Definition sample_store : PyStore.store :=
  [PyStore.Handlers [("exercise_frequency", PyStore.frequency_method);
                     ("exercise_duration", PyStore.duration_method);
                     ("exercise_consistency", PyStore.consistency_method)];
   PyStore.Evaluator 0;
   PyStore.PromiseDict two_weeks;
   PyStore.EvidenceDict (PyStore.mkEvidence [] (Some 4%nat) None);
   PyStore.PyList [PyStore.VRef 7; PyStore.VRef 6; PyStore.VRef 5;
                   PyStore.VRef 6];
   PyStore.SessionDict (session_at (mkDatetime 2023 1 3 8 0 0 0));
   PyStore.SessionDict (session_at (mkDatetime 2023 1 5 8 0 0 0));
   PyStore.SessionDict (session_at (mkDatetime 2023 1 10 8 0 0 0))].

(** What [sample_store] holds as evidence. *)
Definition sample_store_evidence : Evidence.t :=
  Evidence.mk []
    (Some [session_at (mkDatetime 2023 1 10 8 0 0 0);
           session_at (mkDatetime 2023 1 5 8 0 0 0);
           session_at (mkDatetime 2023 1 3 8 0 0 0);
           session_at (mkDatetime 2023 1 5 8 0 0 0)])
    None.

(** ** Vocabulary of the further properties *)

(** [periods[key]]: the bucket stored under [key], if any. *)
Fixpoint dict_get {A : Type} (periods : list (datetime * list A))
    (key : datetime) : option (list A) :=
  match periods with
  | [] => None
  | (k, v) :: rest => if dt_eqb k key then Some v else dict_get rest key
  end.

(** Whether [_get_period_start] maps the instant [d] to the key [k]. *)
Definition starts_period (period : string) (k d : datetime) : bool :=
  match _get_period_start d period with
  | Ok r => dt_eqb r k
  | _ => false
  end.

(** The last microsecond of the day of [d]. *)
Definition end_of_day (d : datetime) : datetime :=
  mkDatetime (year d) (month d) (day d) 23 59 59 999999.

(** Whether [d] is at midnight. *)
Definition at_midnight (d : datetime) : Prop :=
  hour d = 0 /\ minute d = 0 /\ second d = 0 /\ microsecond d = 0.

(** The number of items held by all buckets together. *)
Definition bucket_total {A : Type} (periods : list (datetime * list A))
  : nat :=
  fold_right (fun entry n => (List.length (snd entry) + n)%nat) O periods.

(** Whether the period start of the instant [d] is one of [keys]. *)
Definition in_some_period (period : string) (keys : list datetime)
    (d : datetime) : bool :=
  existsb (fun k => starts_period period k d) keys.

(** The sample of the week-start study, grouped by day. *)
Definition thursday_session : Session.t :=
  session_at (mkDatetime 2023 1 5 8 0 0 0).

(** Whether the sweep could have reported the interval [i] on the
    samples [hr_data]: it starts on a sample at or above the threshold,
    ends on a sample, and carries the duration and the average that the
    sweep computes for these two instants, the duration being at least
    the minimum. *)
Definition reported_interval (hr_data : list Sample.t)
    (threshold min_duration_minutes : Z) (i : Interval.t) : Prop :=
  (exists s, In s hr_data /\ Sample.timestamp s = Interval.start_time i /\
             threshold <= Sample.heart_rate s) /\
  (exists e, In e hr_data /\ Sample.timestamp e = Interval.end_time i) /\
  Interval.duration_minutes i =
    Some (Qred (td_minutes (dt_sub (Interval.end_time i)
                                   (Interval.start_time i)))) /\
  Qle_bool (inject_Z min_duration_minutes)
           (Qred (td_minutes (dt_sub (Interval.end_time i)
                                     (Interval.start_time i)))) = true /\
  Interval.average_heart_rate i =
    Some (TerraApiClient._calculate_average_hr hr_data
            (Interval.start_time i) (Interval.end_time i)).

(** The samples of [hr_data] with a timestamp in [start_time, end_time]. *)
Definition samples_between (hr_data : list Sample.t)
    (start_time end_time : datetime) : list Sample.t :=
  filter (fun d => dt_leb start_time (Sample.timestamp d) &&
                   dt_leb (Sample.timestamp d) end_time) hr_data.

(** The band of the mock heart rate of a sample taken at hour [h]. *)
Definition hr_band (h hr : Z) : Prop :=
  if (6 <=? h) && (h <? 9) then 100 <= hr <= 160
  else if (17 <=? h) && (h <? 20) then 100 <= hr <= 150
  else 55 <= hr <= 100.

(** What holds of every sample that the mock client generates. *)
Definition mock_sample_ok (s : MockSample.t) : Prop :=
  hr_band (hour (Sample.timestamp (MockSample.sample s)))
          (Sample.heart_rate (MockSample.sample s)) /\
  55 <= Sample.heart_rate (MockSample.sample s) <= 160 /\
  MockSample.source s = "mock_terra_api".

(** Each instant of the list is one minute after the one before. *)
Fixpoint minute_steps (l : list datetime) : Prop :=
  match l with
  | [] => True
  | a :: rest =>
      match rest with
      | [] => True
      | b :: _ => dt_sub b a = 60000000 /\ minute_steps rest
      end
  end.

(** What holds of every session that the mock client generates for the
    range from [start_date] to [end_date]. *)
Definition mock_session_ok (start_date end_date : datetime)
    (m : MockSession.t) : Prop :=
  let x := MockSession.session m in
  dt_leb start_date (Session.start_time x) = true /\
  dt_leb (Session.end_time x) end_date = true /\
  30 <= Session.duration_minutes x <= 90 /\
  dt_sub (Session.end_time x) (Session.start_time x) =
    Session.duration_minutes x * 60000000 /\
  In (hour (Session.start_time x)) [7; 8; 17; 18; 19] /\
  0 <= minute (Session.start_time x) <= 30 /\
  120 <= Session.average_heart_rate x <= 160 /\
  In (Session.activity_type x)
     ["running"; "cycling"; "walking"; "strength_training"] /\
  200 <= MockSession.calories_burned m <= 600 /\
  MockSession.source m = "mock_terra_api".

(** A raw stream for the examples. *)
Definition demo_generator : Random.state :=
  Random.mk (fun n => Z.of_nat n * 7919 + 13) O.

(** The timestamp of a generated sample. *)
Definition mock_timestamp (s : MockSample.t) : datetime :=
  Sample.timestamp (MockSample.sample s).

(** * Properties *)

(** ** Calendar facts *)

Ltac unbool :=
  repeat match goal with
  | H : (_ && _)%bool = true |- _ => apply andb_prop in H; destruct H
  | H : (_ || _)%bool = true |- _ => apply orb_prop in H
  | H : (_ || _)%bool = false |- _ => apply orb_false_elim in H; destruct H
  | H : negb _ = true |- _ => apply negb_true_iff in H
  | H : negb _ = false |- _ => apply negb_false_iff in H
  | H : (_ <=? _) = true |- _ => apply Z.leb_le in H
  | H : (_ <=? _) = false |- _ => apply Z.leb_gt in H
  | H : (_ <? _) = true |- _ => apply Z.ltb_lt in H
  | H : (_ <? _) = false |- _ => apply Z.ltb_ge in H
  | H : (_ =? _) = true |- _ => apply Z.eqb_eq in H
  | H : (_ =? _) = false |- _ => apply Z.eqb_neq in H
  end.

Ltac break_if :=
  match goal with
  | |- context [if ?c then _ else _] => let E := fresh "E" in destruct c eqn:E
  | H : context [if ?c then _ else _] |- _ =>
      let E := fresh "E" in destruct c eqn:E
  end.

Lemma days_in_month_bounds (y m : Z) : 28 <= days_in_month y m <= 31.
Proof. unfold days_in_month. repeat break_if; lia. Qed.

Lemma dt_ok_inv (d : datetime) :
  dt_ok d ->
  cal_ok d /\ 1 <= year d <= 9999 /\ 0 <= hour d < 24 /\ 0 <= minute d < 60 /\
  0 <= second d < 60 /\ 0 <= microsecond d < 1000000.
Proof.
  unfold dt_ok, dt_okb, cal_ok, MINYEAR, MAXYEAR. intros H. unbool. lia.
Qed.

Lemma dt_ok_intro (d : datetime) :
  cal_ok d -> 1 <= year d <= 9999 -> 0 <= hour d < 24 -> 0 <= minute d < 60 ->
  0 <= second d < 60 -> 0 <= microsecond d < 1000000 -> dt_ok d.
Proof.
  unfold dt_ok, dt_okb, cal_ok, MINYEAR, MAXYEAR. intros.
  repeat (apply andb_true_intro; split);
    first [apply Z.leb_le | apply Z.ltb_lt]; lia.
Qed.

Lemma next_day_cal (d : datetime) : cal_ok d -> cal_ok (next_day d).
Proof.
  unfold cal_ok, next_day. intros [Hm Hd].
  repeat break_if; unbool; cbn [year month day];
    pose proof (days_in_month_bounds (year d) (month d + 1));
    pose proof (days_in_month_bounds (year d + 1) 1); lia.
Qed.

Lemma next_day_year (d : datetime) :
  year (next_day d) = year d \/
  (year (next_day d) = year d + 1 /\ month (next_day d) = 1 /\
   day (next_day d) = 1).
Proof. unfold next_day. repeat break_if; cbn [year month day]; auto. Qed.

Lemma next_day_time (d : datetime) :
  hour (next_day d) = hour d /\ minute (next_day d) = minute d /\
  second (next_day d) = second d /\ microsecond (next_day d) = microsecond d.
Proof. unfold next_day. repeat break_if; cbn; auto. Qed.

Lemma next_day_rank (d : datetime) : cal_ok d -> rank d < rank (next_day d).
Proof.
  unfold cal_ok, next_day, rank. intros [Hm Hd].
  pose proof (days_in_month_bounds (year d) (month d)).
  repeat break_if; unbool; cbn [year month day]; lia.
Qed.

Lemma dt_leb_rank (a b : datetime) :
  cal_ok a -> cal_ok b -> dt_leb a b = true -> rank a <= rank b.
Proof.
  unfold cal_ok, rank, dt_leb, dt_ltb, dt_eqb. intros [Ha Ha'] [Hb Hb'] H.
  pose proof (days_in_month_bounds (year a) (month a)).
  pose proof (days_in_month_bounds (year b) (month b)).
  unbool.
  repeat match goal with
         | H : _ \/ _ |- _ => destruct H
         | _ => progress unbool
         end; try lia.
Qed.

Ltac bool_prop :=
  repeat rewrite ?orb_true_iff, ?andb_true_iff, ?orb_false_iff,
    ?andb_false_iff, ?negb_true_iff, ?negb_false_iff,
    ?Z.ltb_lt, ?Z.eqb_eq, ?Z.leb_le, ?Z.ltb_ge, ?Z.eqb_neq, ?Z.leb_gt in *.

Lemma dt_leb_total (a b : datetime) : dt_leb a b = false -> dt_leb b a = true.
Proof. unfold dt_leb, dt_ltb, dt_eqb. bool_prop. lia. Qed.

Lemma dt_leb_refl (a : datetime) : dt_leb a a = true.
Proof. unfold dt_leb, dt_ltb, dt_eqb. bool_prop. lia. Qed.

Lemma dt_leb_trans (a b c : datetime) :
  dt_leb a b = true -> dt_leb b c = true -> dt_leb a c = true.
Proof. unfold dt_leb, dt_ltb, dt_eqb. bool_prop. lia. Qed.

Lemma dt_ltb_leb (a b : datetime) : dt_ltb a b = negb (dt_leb b a).
Proof.
  destruct (dt_ltb a b) eqn:E1, (dt_leb b a) eqn:E2; try reflexivity;
    exfalso; revert E1 E2; unfold dt_leb, dt_ltb, dt_eqb; bool_prop; lia.
Qed.

Lemma dt_eqb_eq (a b : datetime) : dt_eqb a b = true <-> a = b.
Proof.
  split.
  - destruct a, b. unfold dt_eqb. cbn. bool_prop. intros. f_equal; lia.
  - intros ->. unfold dt_eqb. bool_prop. lia.
Qed.

Lemma is_leap_cases (y : Z) :
  (is_leap y = true /\ (y mod 4 = 0 /\ (y mod 100 <> 0 \/ y mod 400 = 0))) \/
  (is_leap y = false /\ (y mod 4 <> 0 \/ (y mod 100 = 0 /\ y mod 400 <> 0))).
Proof.
  unfold is_leap.
  destruct (y mod 4 =? 0) eqn:E4, (y mod 100 =? 0) eqn:E100,
    (y mod 400 =? 0) eqn:E400; cbn; unbool; intuition lia.
Qed.

Lemma days_before_year_succ (y : Z) :
  days_before_year (y + 1) =
  days_before_year y + 365 + (if is_leap y then 1 else 0).
Proof.
  unfold days_before_year. cbv zeta.
  replace (y + 1 - 1) with y by lia.
  destruct (is_leap_cases y) as [[-> H] | [-> H]];
    Z.to_euclidean_division_equations; lia.
Qed.

Lemma days_before_month_succ (y m : Z) :
  1 <= m < 12 ->
  days_before_month y (m + 1) = days_before_month y m + days_in_month y m.
Proof.
  intros Hm.
  assert (m = 1 \/ m = 2 \/ m = 3 \/ m = 4 \/ m = 5 \/ m = 6 \/ m = 7 \/
          m = 8 \/ m = 9 \/ m = 10 \/ m = 11) as C by lia.
  unfold days_before_month, days_in_month.
  repeat destruct C as [-> | C]; try subst m; cbn; destruct (is_leap y); reflexivity.
Qed.

Lemma days_before_month_range (y m : Z) :
  1 <= m <= 12 ->
  0 <= days_before_month y m /\
  days_before_month y m + days_in_month y m <=
    365 + (if is_leap y then 1 else 0).
Proof.
  intros Hm.
  assert (m = 1 \/ m = 2 \/ m = 3 \/ m = 4 \/ m = 5 \/ m = 6 \/ m = 7 \/
          m = 8 \/ m = 9 \/ m = 10 \/ m = 11 \/ m = 12) as C by lia.
  unfold days_before_month, days_in_month.
  repeat destruct C as [-> | C]; try subst m; cbn; destruct (is_leap y); lia.
Qed.

Lemma prev_day_cal (d : datetime) : cal_ok d -> cal_ok (prev_day d).
Proof.
  unfold cal_ok, prev_day. intros [Hm Hd].
  pose proof (days_in_month_bounds (year d) (month d - 1)).
  repeat break_if; unbool; cbn [year month day]; try lia.
  unfold days_in_month; cbn; lia.
Qed.

Lemma prev_day_ordinal (d : datetime) :
  cal_ok d -> toordinal (prev_day d) = toordinal d - 1.
Proof.
  unfold cal_ok, prev_day, toordinal. intros [Hm Hd].
  repeat break_if; unbool; cbn [year month day].
  - lia.
  - pose proof (days_before_month_succ (year d) (month d - 1)) as S.
    replace (month d - 1 + 1) with (month d) in S by lia. lia.
  - assert (month d = 1) as -> by lia. assert (day d = 1) as -> by lia.
    pose proof (days_before_year_succ (year d - 1)) as S.
    replace (year d - 1 + 1) with (year d) in S by lia.
    unfold days_before_month. cbn.
    destruct (is_leap (year d - 1)); lia.
Qed.

Lemma prev_day_year (d : datetime) : year (prev_day d) <= year d.
Proof. unfold prev_day. repeat break_if; cbn [year]; lia. Qed.

Lemma prev_day_time (d : datetime) :
  hour (prev_day d) = hour d /\ minute (prev_day d) = minute d /\
  second (prev_day d) = second d /\ microsecond (prev_day d) = microsecond d.
Proof. unfold prev_day. repeat break_if; cbn; auto. Qed.

Lemma days_before_year_sign (y : Z) :
  (1 <= y -> 0 <= days_before_year y) /\
  (y <= 0 -> days_before_year y <= -366).
Proof.
  unfold days_before_year. cbv zeta.
  split; intros; Z.to_euclidean_division_equations; lia.
Qed.

Lemma toordinal_year_pos (d : datetime) :
  cal_ok d -> (1 <= year d <-> 1 <= toordinal d).
Proof.
  unfold cal_ok, toordinal. intros [Hm Hd].
  pose proof (days_before_month_range (year d) (month d) Hm) as [R1 R2].
  pose proof (days_before_year_sign (year d)) as [S1 S2].
  destruct (is_leap (year d)); split; intros; lia.
Qed.

Lemma iter_prev_day (n : nat) (d : datetime) :
  cal_ok d ->
  let r := iter_day prev_day n d in
  cal_ok r /\ toordinal r = toordinal d - Z.of_nat n /\ year r <= year d /\
  hour r = hour d /\ minute r = minute d /\ second r = second d /\
  microsecond r = microsecond d.
Proof.
  revert d. induction n as [|n IH]; intros d Hd; cbn [iter_day].
  - split; [exact Hd|]. repeat split; lia.
  - specialize (IH (prev_day d) (prev_day_cal d Hd)). cbv zeta in IH.
    destruct IH as (C & O & Y & T1 & T2 & T3 & T4).
    pose proof (prev_day_ordinal d Hd). pose proof (prev_day_year d).
    destruct (prev_day_time d) as (U1 & U2 & U3 & U4).
    cbv zeta. split; [exact C|]. repeat split; try congruence; lia.
Qed.

Lemma weekday_range (d : datetime) : 0 <= weekday d < 7.
Proof. unfold weekday. apply Z.mod_pos_bound. lia. Qed.

(** The Monday on or before a valid date is itself a valid date: the
    subtraction in the week branch of [_get_period_start] cannot leave the
    calendar, because 0001-01-01 is a Monday. *)
Lemma week_start_ok (d : datetime) :
  dt_ok d ->
  exists r, add_days d (- weekday d) = Ok r /\ dt_ok r /\ weekday r = 0 /\
            year r <= year d /\
            hour r = hour d /\ minute r = minute d /\ second r = second d /\
            microsecond r = microsecond d.
Proof.
  intros Hd. destruct (dt_ok_inv d Hd) as (C & Y & T1 & T2 & T3 & T4).
  pose proof (weekday_range d) as W.
  assert (shift_days d (- weekday d) =
          iter_day prev_day (Z.to_nat (weekday d)) d) as E.
  { unfold shift_days. destruct (0 <=? - weekday d) eqn:E0.
    - unbool. assert (weekday d = 0) as -> by lia. reflexivity.
    - now rewrite Z.opp_involutive. }
  pose proof (iter_prev_day (Z.to_nat (weekday d)) d C) as I. cbv zeta in I.
  rewrite <- E in I. destruct I as (C' & O & Y' & U1 & U2 & U3 & U4).
  rewrite Z2Nat.id in O by lia.
  assert (1 <= toordinal (shift_days d (- weekday d))) as P.
  { rewrite O. assert (1 <= toordinal d) by (apply (toordinal_year_pos d C); lia).
    unfold weekday in *. Z.to_euclidean_division_equations. lia. }
  apply (toordinal_year_pos _ C') in P.
  exists (shift_days d (- weekday d)). unfold add_days. cbv zeta.
  replace ((MINYEAR <=? year (shift_days d (- weekday d))) &&
           (year (shift_days d (- weekday d)) <=? MAXYEAR))%bool with true.
  2:{ symmetry. unfold MINYEAR, MAXYEAR. bool_prop. lia. }
  repeat split; try congruence; try lia.
  - apply dt_ok_intro; auto; try lia.
  - unfold weekday at 1. rewrite O. unfold weekday.
    Z.to_euclidean_division_equations. lia.
Qed.

Lemma next_day_ordinal (d : datetime) :
  cal_ok d -> toordinal (next_day d) = toordinal d + 1.
Proof.
  unfold cal_ok, next_day, toordinal. intros [Hm Hd].
  repeat break_if; unbool; cbn [year month day].
  - lia.
  - pose proof (days_before_month_succ (year d) (month d)). lia.
  - assert (month d = 12) as M by lia. rewrite M in *.
    assert (day d = 31) as -> by (unfold days_in_month in *; cbn in *; lia).
    rewrite (days_before_year_succ (year d)).
    unfold days_before_month. cbn. destruct (is_leap (year d)); lia.
Qed.

Lemma iter_next_day_january (n : nat) (d : datetime) :
  month d = 1 -> day d + Z.of_nat n <= 31 -> 1 <= day d ->
  let r := iter_day next_day n d in
  year r = year d /\ month r = 1 /\ day r = day d + Z.of_nat n.
Proof.
  revert d. induction n as [|n IH]; intros d M D D1; cbn [iter_day]; cbv zeta.
  - repeat split; auto; lia.
  - assert (next_day d = mkDatetime (year d) 1 (day d + 1) (hour d) (minute d)
                                    (second d) (microsecond d)) as E.
    { unfold next_day. rewrite M. unfold days_in_month. cbn.
      destruct (day d <? 31) eqn:E; unbool; [reflexivity | lia]. }
    rewrite E.
    destruct (IH (mkDatetime (year d) 1 (day d + 1) (hour d) (minute d)
                             (second d) (microsecond d)))
      as (Y & M' & D'); cbn [year month day] in *; try lia.
Qed.

Lemma iter_next_day (n : nat) (d : datetime) :
  cal_ok d -> (n <= 28)%nat ->
  let r := iter_day next_day n d in
  cal_ok r /\ toordinal r = toordinal d + Z.of_nat n /\
  rank d + Z.of_nat n <= rank r /\
  year d <= year r <= year d + 1 /\
  hour r = hour d /\ minute r = minute d /\ second r = second d /\
  microsecond r = microsecond d.
Proof.
  revert d. induction n as [|n IH]; intros d C N; cbn [iter_day]; cbv zeta.
  - split; [exact C|]. repeat split; lia.
  - pose proof (next_day_cal d C) as C1.
    pose proof (next_day_ordinal d C) as O1.
    pose proof (next_day_rank d C) as R1.
    destruct (next_day_time d) as (U1 & U2 & U3 & U4).
    destruct (IH (next_day d) C1 ltac:(lia)) as (C' & O & R & Y & T).
    split; [exact C'|].
    split; [lia|]. split; [lia|].
    split.
    + destruct (next_day_year d) as [Y1 | (Y1 & M1 & D1)]; [lia|].
      destruct (iter_next_day_january n (next_day d) M1 ltac:(lia) ltac:(lia))
        as (Y2 & _). lia.
    + destruct T as (T1 & T2 & T3 & T4). repeat split; congruence.
Qed.

(** Stepping forward by at most four weeks from a valid date before year
    9999 stays on the calendar. *)
Lemma add_days_forward (d : datetime) (n : Z) :
  dt_ok d -> year d <= 9998 -> 0 <= n <= 28 ->
  exists r, add_days d n = Ok r /\ dt_ok r /\
            toordinal r = toordinal d + n /\ rank d + n <= rank r /\
            hour r = hour d /\ minute r = minute d /\ second r = second d /\
            microsecond r = microsecond d.
Proof.
  intros Hd Y N. destruct (dt_ok_inv d Hd) as (C & Y0 & T1 & T2 & T3 & T4).
  pose proof (iter_next_day (Z.to_nat n) d C ltac:(lia)) as I. cbv zeta in I.
  rewrite Z2Nat.id in I by lia.
  assert (shift_days d n = iter_day next_day (Z.to_nat n) d) as E.
  { unfold shift_days. destruct (0 <=? n) eqn:E; unbool; [reflexivity | lia]. }
  rewrite <- E in I. destruct I as (C' & O & R & Y' & U1 & U2 & U3 & U4).
  exists (shift_days d n). unfold add_days. cbv zeta.
  replace ((MINYEAR <=? year (shift_days d n)) &&
           (year (shift_days d n) <=? MAXYEAR))%bool with true.
  2:{ symmetry. unfold MINYEAR, MAXYEAR. bool_prop. lia. }
  split; [reflexivity|]. split; [apply dt_ok_intro; auto; lia|].
  repeat split; auto.
Qed.

(** Taking one microsecond off any moment after the first day of the
    calendar succeeds. *)
Lemma sub_microsecond_ok (d : datetime) :
  dt_ok d -> 2 <= toordinal d -> exists r, sub_microsecond d = Ok r.
Proof.
  intros Hd O. destruct (dt_ok_inv d Hd) as (C & _).
  unfold sub_microsecond. repeat break_if; eauto.
  exfalso. unfold MINYEAR in *. unbool.
  pose proof (prev_day_ordinal d C). pose proof (prev_day_cal d C) as C'.
  pose proof (toordinal_year_pos _ C'). lia.
Qed.

Lemma append_nil_r_local (s : string) : (s ++ "")%string = s.
Proof. induction s as [|c s IH]; cbn; [reflexivity | now rewrite IH]. Qed.

Lemma bind_Ok {A B : Type} (m : outcome A) (k : A -> outcome B) (b : B) :
  bind m k = Ok b -> exists a, m = Ok a /\ k a = Ok b.
Proof. destruct m as [a| |]; cbn; intros H; try discriminate. eauto. Qed.

Ltac bind_inv H :=
  let a := fresh "a" in
  let E := fresh "E" in
  apply bind_Ok in H; destruct H as (a & E & H).

(** ** The elevated heart-rate sweep on the sample series *)

(** C1, as the claim states it, fails: the sweep on the sample series does
    not return one interval that ends on the last 130 sample with a
    duration of 2 minutes and an average of 130. *)
Lemma C1_counterexample :
  ~ (exists i d a,
       TerraApiClient.check_continuous_elevated_heart_rate sample_series 120 2
         = [i] /\
       Interval.start_time i = at_minute 2 /\
       Interval.end_time i = at_minute 4 /\
       Interval.duration_minutes i = Some d /\ (d == 2)%Q /\
       Interval.average_heart_rate i = Some a /\ (a == 130)%Q).
Proof.
  intros (i & d & a & H & _ & He & _).
  vm_compute in H. injection H as <-. discriminate He.
Qed.

(** C1 (amended): on the sample series with threshold 120 and a minimum of
    2 minutes the sweep returns exactly one interval; it starts on the
    first 130 sample and is closed by the 100 sample that follows the
    last 130 sample, so it ends at that sample's timestamp, lasts
    3 minutes (3 >= 2) and averages all four samples in the closed range,
    (130+130+130+100)/4 = 122.5. *)
Theorem C1_sample_series_interval :
  TerraApiClient.check_continuous_elevated_heart_rate sample_series 120 2 =
  [Interval.mk (at_minute 2) (at_minute 5) (Some 3%Q) (Some (245 # 2)%Q)].
Proof. vm_compute. reflexivity. Qed.

(** The minimum-duration comparison is inclusive: with a minimum of
    exactly 3 minutes the same interval is still reported, and with
    4 minutes it is not. *)
Lemma sample_series_inclusive_boundary :
  TerraApiClient.check_continuous_elevated_heart_rate sample_series 120 3 =
    [Interval.mk (at_minute 2) (at_minute 5) (Some 3%Q) (Some (245 # 2)%Q)] /\
  TerraApiClient.check_continuous_elevated_heart_rate sample_series 120 4 = [].
Proof. split; vm_compute; reflexivity. Qed.

(** ** Unknown promise types *)

Lemma find_handler_unknown (name : string) :
  ~ In name known_types -> find_handler name (rule_handlers __init__) = None.
Proof.
  unfold known_types, __init__. cbn [rule_handlers map fst In find_handler].
  intros H.
  repeat match goal with
         | |- context [String.eqb ?a name] =>
             destruct (String.eqb_spec a name); [exfalso; tauto|]
         end.
  reflexivity.
Qed.

(** C5: a promise whose type is not one of the registered rule types
    (an absent type included) is answered with a verdict, not an
    exception: fulfilled is false, confidence is 0.0 and the reasoning
    contains the type as [f"{promise_type}"] prints it. *)
Theorem C5_unknown_type_verdict (promise : Promise.t) (evidence : Evidence.t) :
  (forall name, Promise.type promise = Some name -> ~ In name known_types) ->
  exists v,
    evaluate __init__ promise evidence = Ok v /\
    Verdict.fulfilled v = false /\
    Verdict.confidence v = 0%Q /\
    contains (format_type (Promise.type promise)) (Verdict.reasoning v).
Proof.
  intros H. unfold evaluate.
  exists (unknown_type_verdict (Promise.type promise)).
  split.
  - destruct (Promise.type promise) as [name|] eqn:E; [|reflexivity].
    rewrite (find_handler_unknown name (H name eq_refl)). reflexivity.
  - cbn. repeat split.
    exists "Unknown promise type: ", "". now rewrite append_nil_r_local.
Qed.

Lemma C5_unknown_type_witness :
  exists v,
    evaluate __init__ (bare_promise "foo" (midnight 2023 1 2)
                                    (midnight 2023 1 15)) no_evidence = Ok v /\
    Verdict.fulfilled v = false /\
    Verdict.confidence v = 0%Q /\
    contains "foo" (Verdict.reasoning v).
Proof.
  apply (C5_unknown_type_verdict
           (bare_promise "foo" (midnight 2023 1 2) (midnight 2023 1 15))
           no_evidence).
  intros name H. injection H as <-. vm_compute.
  intros [H | [H | [H | []]]]; discriminate H.
Defined.

(** ** Confidence *)

Lemma frequency_confidence (promise : Promise.t) (evidence : Evidence.t)
    (v : Verdict.t) :
  _evaluate_exercise_frequency promise evidence = Ok v ->
  Verdict.confidence v = 1%Q.
Proof.
  unfold _evaluate_exercise_frequency. intros H.
  do 4 bind_inv H. destruct a2 as [fp entries]. bind_inv H.
  injection H as <-. reflexivity.
Qed.

Lemma duration_confidence (promise : Promise.t) (evidence : Evidence.t)
    (v : Verdict.t) :
  _evaluate_exercise_duration promise evidence = Ok v ->
  Verdict.confidence v = 1%Q.
Proof.
  unfold _evaluate_exercise_duration. intros H.
  do 4 bind_inv H. destruct a2 as [fp entries]. bind_inv H.
  injection H as <-. reflexivity.
Qed.

Lemma consistency_confidence (promise : Promise.t) (evidence : Evidence.t)
    (v : Verdict.t) :
  _evaluate_exercise_consistency promise evidence = Ok v ->
  Verdict.confidence v = 1%Q.
Proof.
  unfold _evaluate_exercise_consistency. intros H.
  do 2 bind_inv H. injection H as <-. reflexivity.
Qed.

(** The dispatch of [evaluate], one case per registered name. *)
Lemma evaluate_cases (promise : Promise.t) (evidence : Evidence.t) :
  (type_known promise = false /\
   evaluate __init__ promise evidence =
     Ok (unknown_type_verdict (Promise.type promise))) \/
  (type_known promise = true /\
   ((Promise.type promise = Some "exercise_frequency" /\
     evaluate __init__ promise evidence =
       _evaluate_exercise_frequency promise evidence) \/
    (Promise.type promise = Some "exercise_duration" /\
     evaluate __init__ promise evidence =
       _evaluate_exercise_duration promise evidence) \/
    (Promise.type promise = Some "exercise_consistency" /\
     evaluate __init__ promise evidence =
       _evaluate_exercise_consistency promise evidence))).
Proof.
  unfold evaluate, type_known, known_types, __init__.
  cbn [rule_handlers map fst existsb find_handler].
  destruct (Promise.type promise) as [name|]; [|left; auto].
  destruct (String.eqb_spec "exercise_frequency" name) as [<-|N1].
  { right. split; [reflexivity|]. left. auto. }
  destruct (String.eqb_spec "exercise_duration" name) as [<-|N2].
  { right. split; [reflexivity|]. right. left. auto. }
  destruct (String.eqb_spec "exercise_consistency" name) as [<-|N3].
  { right. split; [reflexivity|]. right. right. auto. }
  left. split; [|reflexivity].
  rewrite !orb_false_r.
  destruct (String.eqb_spec name "exercise_frequency"); [congruence|].
  destruct (String.eqb_spec name "exercise_duration"); [congruence|].
  destruct (String.eqb_spec name "exercise_consistency"); [congruence|].
  reflexivity.
Qed.

(** C7, as the claim states it, fails: a rule-based evaluation can return
    a verdict whose confidence is not 1.0. *)
Lemma C7_counterexample :
  ~ (forall promise evidence v,
       evaluate __init__ promise evidence = Ok v ->
       Verdict.confidence v = 1%Q).
Proof.
  intros H.
  specialize (H (bare_promise "foo" (midnight 2023 1 2) (midnight 2023 1 15))
                no_evidence _ eq_refl).
  discriminate H.
Qed.

(** C7 (amended): a verdict returned by the rule-based evaluator reports
    confidence 1.0 when the promise type is one of the registered rule
    types and 0.0 when it is not; every verdict of the interpretive
    evaluator reports a confidence below 1.0. *)
Theorem C7_confidence (promise : Promise.t) (evidence : Evidence.t)
    (v : Verdict.t) (prompt : string) :
  (evaluate __init__ promise evidence = Ok v ->
   Verdict.confidence v = if type_known promise then 1%Q else 0%Q) /\
  (Verdict.confidence (LLMEvaluator._mock_llm_call prompt promise evidence)
   < 1)%Q.
Proof.
  split.
  - intros H.
    destruct (evaluate_cases promise evidence)
      as [[K E] | [K [[_ E] | [[_ E] | [_ E]]]]];
      rewrite K; rewrite E in H.
    + injection H as <-. reflexivity.
    + eapply frequency_confidence; eassumption.
    + eapply duration_confidence; eassumption.
    + eapply consistency_confidence; eassumption.
  - unfold LLMEvaluator._mock_llm_call.
    repeat match goal with
           | |- context [if String.eqb ?a ?b then _ else _] =>
               destruct (String.eqb a b)
           end; cbn [Verdict.confidence]; reflexivity.
Qed.

Lemma C7_confidence_witness :
  Verdict.confidence consistency_demo_verdict = 1%Q /\
  (Verdict.confidence
     (LLMEvaluator._mock_llm_call "" consistency_demo no_evidence) < 1)%Q.
Proof.
  destruct (C7_confidence consistency_demo no_evidence
                          consistency_demo_verdict "") as [H1 H2].
  split; [apply H1; vm_compute; reflexivity | exact H2].
Defined.

(** ** Defaults of absent parameters *)

(** C8: a promise from which a parameter is absent is evaluated exactly as
    the same promise with the parameter set to its default (frequency 1,
    period "week", heart_rate_threshold 120, duration_minutes 25,
    max_gap_days 7): the two calls have the same outcome, be it a verdict
    or not, so the absence of a parameter is never what makes a call
    fail. *)
Theorem C8_absent_parameter_is_default
    (ty : option string) (frequency : option Z) (period : option string)
    (heart_rate_threshold duration_minutes max_gap_days : option Z)
    (start_date end_date : option datetime) (evidence : Evidence.t) :
  evaluate __init__
    (Promise.mk ty None period heart_rate_threshold duration_minutes
                max_gap_days start_date end_date) evidence =
  evaluate __init__
    (Promise.mk ty (Some 1) period heart_rate_threshold duration_minutes
                max_gap_days start_date end_date) evidence /\
  evaluate __init__
    (Promise.mk ty frequency None heart_rate_threshold duration_minutes
                max_gap_days start_date end_date) evidence =
  evaluate __init__
    (Promise.mk ty frequency (Some "week") heart_rate_threshold
                duration_minutes max_gap_days start_date end_date) evidence /\
  evaluate __init__
    (Promise.mk ty frequency period None duration_minutes
                max_gap_days start_date end_date) evidence =
  evaluate __init__
    (Promise.mk ty frequency period (Some 120) duration_minutes
                max_gap_days start_date end_date) evidence /\
  evaluate __init__
    (Promise.mk ty frequency period heart_rate_threshold None
                max_gap_days start_date end_date) evidence =
  evaluate __init__
    (Promise.mk ty frequency period heart_rate_threshold (Some 25)
                max_gap_days start_date end_date) evidence /\
  evaluate __init__
    (Promise.mk ty frequency period heart_rate_threshold duration_minutes
                None start_date end_date) evidence =
  evaluate __init__
    (Promise.mk ty frequency period heart_rate_threshold duration_minutes
                (Some 7) start_date end_date) evidence.
Proof.
  unfold evaluate. cbn [Promise.type].
  destruct ty as [name|]; [|repeat split].
  destruct (find_handler name (rule_handlers __init__)) eqn:F;
    [|repeat split].
  unfold __init__ in F. cbn [rule_handlers find_handler] in F.
  repeat match type of F with
         | (if ?c then _ else _) = _ =>
             destruct c; [injection F as <-; repeat split|]
         end.
  discriminate F.
Qed.

(** With every parameter absent the three rules still return a verdict,
    computed from the defaults. *)
Lemma all_parameters_absent_examples :
  (exists v, evaluate __init__
               (bare_promise "exercise_frequency" (midnight 2023 1 2)
                             (midnight 2023 1 15)) no_evidence = Ok v) /\
  (exists v, evaluate __init__
               (bare_promise "exercise_duration" (midnight 2023 1 2)
                             (midnight 2023 1 15)) no_evidence = Ok v) /\
  (exists v, evaluate __init__
               (bare_promise "exercise_consistency" (midnight 2023 1 2)
                             (midnight 2023 1 15)) no_evidence = Ok v).
Proof. repeat split; eexists; vm_compute; reflexivity. Qed.

(** ** Determinism *)

(** The evaluator on the object store, against the evaluator on values. *)

Section EvaluatorOnStore.

Import PyStore.


(** *** The store *)

Lemma update_length (s : store) (r : ref) (o : object) :
  List.length (update s r o) = List.length s.
Proof.
  revert r. induction s as [|x s IH]; intros [|r]; cbn; auto.
Qed.

Lemma nth_error_update_eq (s : store) (r : ref) (o : object) :
  (r < List.length s)%nat -> nth_error (update s r o) r = Some o.
Proof.
  revert r. induction s as [|x s IH]; intros [|r] L; cbn in *;
    try lia; auto. apply IH. lia.
Qed.

Lemma nth_error_update_neq (s : store) (r r' : ref) (o : object) :
  r <> r' -> nth_error (update s r o) r' = nth_error s r'.
Proof.
  revert r r'. induction s as [|x s IH]; intros [|r] [|r'] N; cbn;
    try reflexivity; try congruence. apply IH. congruence.
Qed.

Lemma nth_error_new_old (s : store) (o : object) (r : ref) :
  (r < List.length s)%nat -> nth_error (s ++ [o]) r = nth_error s r.
Proof. intros L. now apply nth_error_app1. Qed.

Lemma nth_error_new (s : store) (o : object) :
  nth_error (s ++ [o]) (List.length s) = Some o.
Proof.
  rewrite nth_error_app2 by lia. now rewrite Nat.sub_diag.
Qed.

Lemma nth_error_bound (s : store) (r : ref) (o : object) :
  nth_error s r = Some o -> (r < List.length s)%nat.
Proof. intros H. apply nth_error_Some. congruence. Qed.

Lemma grows_refl (n : nat) (s : store) : grows n s s.
Proof. split; auto. Qed.

Lemma grows_trans (n : nat) (s1 s2 s3 : store) :
  grows n s1 s2 -> grows n s2 s3 -> grows n s1 s3.
Proof.
  intros [L1 H1] [L2 H2]. split; [lia|].
  intros r L. now rewrite H2, H1.
Qed.

Lemma grows_le (n m : nat) (s s' : store) :
  (m <= n)%nat -> grows n s s' -> grows m s s'.
Proof. intros L [L1 H1]. split; [exact L1|]. intros r Lr. apply H1. lia. Qed.

Lemma grows_new (n : nat) (s : store) (o : object) :
  (n <= List.length s)%nat -> grows n s (s ++ [o]).
Proof.
  intros L. split; [rewrite length_app; lia|].
  intros r Lr. apply nth_error_new_old. lia.
Qed.

Lemma grows_update (n : nat) (s : store) (r : ref) (o : object) :
  (n <= r)%nat -> grows n s (update s r o).
Proof.
  intros L. split; [rewrite update_length; lia|].
  intros r' Lr. apply nth_error_update_neq. lia.
Qed.

Lemma same_except_refl (l : ref) (s : store) : same_except l s s.
Proof. split; auto. Qed.

Lemma same_except_trans (l : ref) (s1 s2 s3 : store) :
  same_except l s1 s2 -> same_except l s2 s3 -> same_except l s1 s3.
Proof.
  intros [L1 H1] [L2 H2]. split; [lia|].
  intros r L N. rewrite H2, H1; auto. lia.
Qed.

Lemma same_except_new (l : ref) (s : store) (o : object) :
  same_except l s (s ++ [o]).
Proof.
  split; [rewrite length_app; lia|].
  intros r L _. now apply nth_error_new_old.
Qed.

Lemma same_except_update (l : ref) (s : store) (o : object) :
  same_except l s (update s l o).
Proof.
  split; [rewrite update_length; lia|].
  intros r _ N. apply nth_error_update_neq. congruence.
Qed.

Lemma same_except_grows (l : ref) (n : nat) (s s' : store) :
  (n <= l)%nat -> (n <= List.length s)%nat ->
  same_except l s s' -> grows n s s'.
Proof.
  intros L Ls [L1 H1]. split; [exact L1|].
  intros r Lr. apply H1; lia.
Qed.

Lemma grows_extends (s s' : store) :
  grows (List.length s) s s' -> extends s s'.
Proof.
  intros [L H]. exists (skipn (List.length s) s').
  rewrite <- (firstn_skipn (List.length s) s') at 1. f_equal.
  apply nth_error_ext. intros r.
  destruct (Nat.lt_ge_cases r (List.length s)) as [Lr|Lr].
  - rewrite nth_error_firstn.
    destruct (Nat.ltb_spec r (List.length s)); [|lia]. now apply H.
  - rewrite nth_error_firstn.
    destruct (Nat.ltb_spec r (List.length s)); [lia|].
    symmetry. now apply nth_error_None.
Qed.

Lemma extends_grows (s s' : store) :
  extends s s' -> grows (List.length s) s s'.
Proof.
  intros [fresh ->]. split; [rewrite length_app; lia|].
  intros r L. now apply nth_error_app1.
Qed.

(** *** Reading is stable *)

Lemma all_some_Forall2 {A B : Type} (f : A -> option B) (l : list A)
    (l' : list B) :
  all_some (map f l) = Some l' <-> Forall2 (fun x y => f x = Some y) l l'.
Proof.
  revert l'. induction l as [|x l IH]; intros l'; cbn.
  - split; [intros [= <-]; constructor | intros H; inversion H; reflexivity].
  - destruct (f x) as [y|] eqn:E.
    + destruct (all_some (map f l)) as [ys|] eqn:E'; cbn.
      * split.
        -- intros [= <-]. constructor; [exact E|]. now apply IH.
        -- intros H. inversion H; subst.
           assert (Some ys = Some l'0) as [= ->] by now apply IH.
           congruence.
      * split; [discriminate|]. intros H. inversion H; subst.
        assert (None = Some l'0) by now apply IH. discriminate.
    + split; [discriminate|]. intros H. inversion H; congruence.
Qed.

Lemma all_some_ext {A B : Type} (f g : A -> option B) (l : list A)
    (l' : list B) :
  (forall x y, In x l -> f x = Some y -> g x = Some y) ->
  all_some (map f l) = Some l' -> all_some (map g l) = Some l'.
Proof.
  intros H E. apply all_some_Forall2. apply all_some_Forall2 in E.
  induction E as [|x y l l' Hx _ IH]; constructor.
  - apply H; [now left | exact Hx].
  - apply IH. intros x' y' I. apply H. now right.
Qed.

Lemma read_item_grows {A : Type} (decode : object -> option A)
    (n : nat) (s s' : store) (item : value) (a : A) :
  grows n s s' -> (List.length s <= n)%nat ->
  read_item decode s item = Some a -> read_item decode s' item = Some a.
Proof.
  intros [_ G] L. destruct item; cbn; try discriminate.
  destruct (nth_error s r) as [o|] eqn:E; [|discriminate].
  rewrite G, E; [auto|]. apply nth_error_bound in E. lia.
Qed.

Lemma read_list_grows {A : Type} (decode : object -> option A)
    (n : nat) (s s' : store) (l : ref) (items : list A) :
  grows n s s' -> (List.length s <= n)%nat ->
  read_list decode s l = Some items -> read_list decode s' l = Some items.
Proof.
  intros G L. unfold read_list.
  destruct (nth_error s l) as [o|] eqn:E; [|discriminate].
  destruct G as [G1 G2]. rewrite G2, E by (apply nth_error_bound in E; lia).
  destruct o; try discriminate.
  apply all_some_ext. intros x y _. apply (read_item_grows decode n s s').
  - now split.
  - exact L.
Qed.

Lemma read_entry_grows {A : Type} (decode : object -> option A)
    (n : nat) (s s' : store) (entry : option ref) (items : option (list A)) :
  grows n s s' -> (List.length s <= n)%nat ->
  read_entry decode s entry = Some items ->
  read_entry decode s' entry = Some items.
Proof.
  intros G L. destruct entry as [l|]; cbn; [|auto].
  destruct (read_list decode s l) as [xs|] eqn:E; [|discriminate].
  now rewrite (read_list_grows decode n s s' l xs G L E).
Qed.

Lemma read_promise_grows (n : nat) (s s' : store) (promise : ref)
    (p : Promise.t) :
  grows n s s' -> (List.length s <= n)%nat ->
  read_promise s promise = Some p -> read_promise s' promise = Some p.
Proof.
  intros [_ G] L. unfold read_promise.
  destruct (nth_error s promise) as [o|] eqn:E; [|discriminate].
  rewrite G, E; [auto|]. apply nth_error_bound in E. lia.
Qed.

Lemma read_evidence_grows (n : nat) (s s' : store) (evidence : ref)
    (e : Evidence.t) :
  grows n s s' -> (List.length s <= n)%nat ->
  read_evidence s evidence = Some e -> read_evidence s' evidence = Some e.
Proof.
  intros G L. unfold read_evidence.
  destruct (nth_error s evidence) as [o|] eqn:E; [|discriminate].
  destruct G as [G1 G2]. rewrite G2, E by (apply nth_error_bound in E; lia).
  destruct o; try discriminate.
  destruct (read_entry session_of s _) as [ss|] eqn:E1; [|discriminate].
  destruct (read_entry interval_of s _) as [ii|] eqn:E2; [|discriminate].
  rewrite (read_entry_grows session_of n s s' _ ss (conj G1 G2) L E1).
  now rewrite (read_entry_grows interval_of n s s' _ ii (conj G1 G2) L E2).
Qed.

Lemma read_self_grows (n : nat) (s s' : store) (self : ref) (e : t) :
  grows n s s' -> (List.length s <= n)%nat ->
  read_self s self = Some e -> read_self s' self = Some e.
Proof.
  intros [_ G] L. unfold read_self.
  destruct (nth_error s self) as [o|] eqn:E; [|discriminate].
  rewrite G, E by (apply nth_error_bound in E; lia).
  destruct o as [h|?|?|?|?|?|?|?|?]; try discriminate.
  destruct (nth_error s h) as [o|] eqn:E'; [|discriminate].
  rewrite G, E' by (apply nth_error_bound in E'; lia). auto.
Qed.

Lemma read_value_grows (depth : nat) (n : nat) (s s' : store) :
  grows n s s' -> (List.length s <= n)%nat ->
  forall (v : value) (x : pyval),
    read_value depth s v = Some x -> read_value depth s' v = Some x.
Proof.
  intros [G1 G2] L. induction depth as [|depth IH]; intros v x;
    destruct v; cbn; auto.
  destruct (nth_error s r) as [o|] eqn:E; [|discriminate].
  rewrite G2, E by (apply nth_error_bound in E; lia).
  destruct o; try discriminate.
  - destruct (all_some (map _ entries)) as [l|] eqn:E'; [|discriminate].
    intros H. erewrite all_some_ext; [exact H | | exact E'].
    intros [k w] [k' y] _. cbn.
    destruct (read_value depth s w) as [z|] eqn:Ez; [|discriminate].
    now rewrite (IH w z Ez).
  - destruct (all_some (map _ items)) as [l|] eqn:E'; [|discriminate].
    intros H. erewrite all_some_ext; [exact H | | exact E'].
    intros w y _. apply IH.
Qed.

Lemma read_verdict_grows (n : nat) (s s' : store) (verdict : ref)
    (v : Verdict.t) :
  grows n s s' -> (List.length s <= n)%nat ->
  read_verdict s verdict = Some v -> read_verdict s' verdict = Some v.
Proof.
  intros G L. unfold read_verdict.
  destruct (nth_error s verdict) as [o|] eqn:E; [|discriminate].
  destruct G as [G1 G2]. rewrite G2, E by (apply nth_error_bound in E; lia).
  destruct o; try discriminate.
  repeat match goal with
         | |- match ?x with _ => _ end = _ -> _ =>
             destruct x; try discriminate
         end.
  destruct (read_value 3 s v0) as [d|] eqn:Ed; [|discriminate].
  now rewrite (read_value_grows 3 n s s' (conj G1 G2) L v0 d Ed).
Qed.

(** *** Running a statement *)

Ltac run :=
  cbv beta iota delta
    [mbind ret lift untyped deref new store_at promise_get evidence_get
     get_rule_handlers handlers_find item_get list_items len append
     append_to dict_getitem dict_setitem periods_items periods_setitem
     periods_find periods_len].

(** *** [_group_by_period] *)

Section GroupOnStore.

Context {A : Type}.
Variable decode : object -> option A.
Variable timestamp_key : A -> datetime.
Variable timestamp_of : object -> option datetime.
Hypothesis timestamp_decoded :
  forall o a, decode o = Some a -> timestamp_of o = Some (timestamp_key a).

Lemma bucket_rel_mono (s s' : store) (p : ref)
    (entries : list (datetime * ref)) (periods : list (datetime * list A)) :
  (forall r, In r (map snd entries) -> nth_error s' r = nth_error s r) ->
  Forall2 (bucket_rel s p) entries periods ->
  Forall2 (bucket_rel s' p) entries periods.
Proof.
  intros H F. induction F as [|e q es qs (K & L & items & E & N) _ IH];
    constructor.
  - split; [exact K|]. split; [exact L|]. exists items. split; [|exact N].
    rewrite H; [exact E | now left].
  - apply IH. intros r I. apply H. now right.
Qed.

Lemma bucket_rel_bound (s : store) (p : ref)
    (entries : list (datetime * ref)) (periods : list (datetime * list A)) :
  Forall2 (bucket_rel s p) entries periods ->
  Forall (fun b => (p < b < List.length s)%nat) (map snd entries).
Proof.
  induction 1 as [|e q es qs (K & L & items & E & N) _ IH]; cbn;
    constructor; [|exact IH].
  apply nth_error_bound in E. lia.
Qed.

Lemma period_set_rel (s : store) (p : ref) (k : datetime)
    (entries : list (datetime * ref)) (periods : list (datetime * list A))
    (s' : store) :
  (p < List.length s)%nat ->
  nth_error s' (List.length s) = Some (PyList []) ->
  (forall r, (p < r)%nat -> (r < List.length s)%nat ->
             nth_error s' r = nth_error s r) ->
  Forall2 (bucket_rel s p) entries periods ->
  Forall2 (bucket_rel s' p) (period_set entries k (List.length s))
          (dict_set periods k []).
Proof.
  intros Lp New Old F.
  assert (bucket_rel s' p (k, List.length s) (k, @nil A)) as Hnew.
  { split; [reflexivity|]. split; [exact Lp|]. exists []. auto. }
  induction F as [|[k0 b0] [k0' l0] es qs (K & L & items & E & N) F IH];
    cbn [period_set dict_set].
  - constructor; [exact Hnew | constructor].
  - cbn in K. subst k0'. destruct (dt_eqb k0 k) eqn:Ek.
    + constructor.
      * destruct Hnew as (_ & H2 & H3). split; [reflexivity|]. now split.
      * apply (bucket_rel_mono s); [|exact F].
        intros r I. pose proof (bucket_rel_bound _ _ _ _ F) as B.
        rewrite Forall_forall in B. specialize (B _ I). apply Old; lia.
    + constructor; [|exact IH].
      split; [reflexivity|]. split; [exact L|]. exists items.
      split; [|exact N]. cbn in *.
      rewrite Old; [exact E | exact L | now apply nth_error_bound in E].
Qed.

Lemma period_set_NoDup (k : datetime) (b : ref)
    (entries : list (datetime * ref)) :
  ~ In b (map snd entries) -> NoDup (map snd entries) ->
  NoDup (map snd (period_set entries k b)).
Proof.
  induction entries as [|[k0 b0] es IH]; cbn [period_set map snd];
    intros NI ND.
  - constructor; [auto | constructor].
  - inversion ND as [|? ? N0 ND']; subst.
    destruct (dt_eqb k0 k); cbn [map snd].
    + constructor; [|exact ND']. intros I. apply NI. now right.
    + constructor.
      * intros I. clear IH ND ND'.
        assert (forall es, In b0 (map snd (period_set es k b)) ->
                           b0 = b \/ In b0 (map snd es)) as H.
        { clear. induction es as [|[k1 b1] es IH]; cbn [period_set map snd].
          - intros [<-|[]]. now left.
          - destruct (dt_eqb k1 k); cbn [map snd In].
            + intros [<-|I]; [now left | right; now right].
            + intros [<-|I]; [right; now left|].
              destruct (IH I); [now left | right; now right]. }
        destruct (H _ I) as [->|I']; [apply NI; now left | now apply N0].
      * apply IH; [|exact ND']. intros I. apply NI. now right.
Qed.

Lemma generate_periods_on_store (fuel : nat) (period : string)
    (end_date : datetime) (p : ref) :
  forall (current_date : datetime) (s : store)
         (periods : list (datetime * list A)),
    periods_rel s p periods ->
    exists r s',
      StoredEvaluator.generate_periods fuel period current_date end_date p s
        = Some (r, s') /\
      grows p s s' /\
      agree (fun _ periods' => periods_rel s' p periods') r
            (generate_periods fuel period current_date end_date periods).
Proof.
  induction fuel as [|fuel IH]; intros current_date s periods P;
    cbn [StoredEvaluator.generate_periods generate_periods];
    destruct (dt_leb current_date end_date).
  - exists Diverge, s. run. split; [reflexivity|]. split; [apply grows_refl|].
    exact I.
  - exists (Ok tt), s. run. split; [reflexivity|].
    split; [apply grows_refl | exact P].
  - run. destruct (_get_period_start current_date period) as [k|e|];
      cbn [bind].
    + destruct P as (entries & Ep & F & ND).
      pose proof (nth_error_bound _ _ _ Ep) as Lp.
      rewrite (nth_error_new_old s _ p Lp), Ep. cbv beta iota.
      rewrite (nth_error_new_old s _ p Lp), Ep. cbv beta iota.
      set (s2 := update (s ++ [PyList []]) p
                   (PeriodDict (period_set entries k (List.length s)))).
      assert (grows p s s2) as G.
      { eapply grows_trans; [apply grows_new; lia | apply grows_update; lia]. }
      assert (periods_rel s2 p (dict_set periods k [])) as P2.
      { exists (period_set entries k (List.length s)).
        split; [|split].
        - apply nth_error_update_eq. rewrite length_app. lia.
        - apply period_set_rel; [exact Lp | | | exact F].
          + unfold s2. rewrite nth_error_update_neq by lia.
            apply nth_error_new.
          + intros r L1 L2. unfold s2. rewrite nth_error_update_neq by lia.
            now apply nth_error_new_old.
        - apply period_set_NoDup; [|exact ND].
          intros I. pose proof (bucket_rel_bound _ _ _ _ F) as B.
          rewrite Forall_forall in B. specialize (B _ I). lia. }
      destruct (next_period period current_date) as [d|e|].
      * destruct (IH d s2 _ P2) as (r & s' & E & G' & Ag).
        exists r, s'. split; [exact E|].
        split; [eapply grows_trans; eassumption | exact Ag].
      * exists (Raise e), s2. split; [reflexivity|]. split; [exact G|].
        reflexivity.
      * exists Diverge, s2. split; [reflexivity|]. split; [exact G|].
        exact I.
    + exists (Raise e), s. split; [reflexivity|].
      split; [apply grows_refl | reflexivity].
    + exists Diverge, s. split; [reflexivity|].
      split; [apply grows_refl | exact I].
  - exists (Ok tt), s. run. split; [reflexivity|].
    split; [apply grows_refl | exact P].
Qed.

Lemma period_find_mem (s : store) (p : ref) (k : datetime)
    (entries : list (datetime * ref)) (periods : list (datetime * list A)) :
  Forall2 (bucket_rel s p) entries periods ->
  dict_mem k periods = match period_find k entries with
                       | Some _ => true
                       | None => false
                       end.
Proof.
  induction 1 as [|[k0 b0] [k0' l0] es qs (K & _) _ IH];
    cbn [dict_mem period_find]; [reflexivity|].
  cbn in K. subst k0'. destruct (dt_eqb k0 k); [reflexivity | exact IH].
Qed.

Lemma period_append_rel (s : store) (p : ref) (k : datetime) (b : ref)
    (x : value) (y : A)
    (entries : list (datetime * ref)) (periods : list (datetime * list A)) :
  Forall2 (bucket_rel s p) entries periods ->
  NoDup (map snd entries) ->
  period_find k entries = Some b ->
  exists items,
    nth_error s b = Some (PyList items) /\ (p < b)%nat /\
    Forall2 (bucket_rel (update s b (PyList (items ++ [x]))) p) entries
            (dict_append periods k y).
Proof.
  induction 1 as [|[k0 b0] [k0' l0] es qs (K & L & items & E & N) F IH];
    cbn [period_find dict_append map snd]; [discriminate|].
  cbn in K, L, E, N. subst k0'. intros ND Fd.
  inversion ND as [|? ? N0 ND']; subst.
  destruct (dt_eqb k0 k).
  - injection Fd as <-. exists items. split; [exact E|]. split; [exact L|].
    constructor.
    + split; [reflexivity|]. split; [exact L|]. exists (items ++ [x]).
      cbn. split.
      * apply nth_error_update_eq. now apply nth_error_bound in E.
      * rewrite !length_app. cbn. lia.
    + apply (bucket_rel_mono s); [|exact F].
      intros r I. apply nth_error_update_neq. intros <-. now apply N0.
  - destruct (IH ND' Fd) as (items' & E' & L' & F').
    exists items'. split; [exact E'|]. split; [exact L'|].
    constructor; [|exact F'].
    split; [reflexivity|]. split; [exact L|]. exists items. cbn.
    split; [|exact N]. rewrite nth_error_update_neq; [exact E|].
    intros <-. apply N0.
    clear - Fd. induction es as [|[k1 b1] es IH]; cbn in *; [discriminate|].
    destruct (dt_eqb k1 k); [injection Fd as <-; now left | right; auto].
Qed.

Lemma item_rel_grows (s s' : store) (p : ref) (xs : list value)
    (ys : list A) :
  grows p s s' ->
  Forall2 (item_rel decode s p) xs ys -> Forall2 (item_rel decode s' p) xs ys.
Proof.
  intros [_ G]. induction 1 as [|x y xs ys (r & o & -> & L & E & D) _ IH];
    constructor; [|exact IH].
  exists r, o. rewrite G by exact L. auto.
Qed.

Lemma group_items_on_store (period : string) (p : ref) :
  forall (xs : list value) (ys : list A) (s : store)
         (periods : list (datetime * list A)),
    Forall2 (item_rel decode s p) xs ys ->
    periods_rel s p periods ->
    exists r s',
      StoredEvaluator.group_items period timestamp_of xs p s = Some (r, s') /\
      grows p s s' /\
      agree (fun _ periods' => periods_rel s' p periods') r
            (group_items period timestamp_key ys periods).
Proof.
  induction xs as [|x xs IH]; intros ys s periods F P;
    inversion F as [|? y ? ys' (r & o & -> & L & E & D) F']; subst;
    cbn [StoredEvaluator.group_items group_items].
  - exists (Ok tt), s. split; [reflexivity|].
    split; [apply grows_refl | exact P].
  - run. rewrite E. cbv beta iota. rewrite (timestamp_decoded _ _ D).
    cbv beta iota.
    destruct (_get_period_start (timestamp_key y) period) as [k|e|];
      cbn [bind].
    + destruct P as (entries & Ep & Fb & ND). rewrite Ep. cbv beta iota.
      rewrite (period_find_mem _ _ k _ _ Fb).
      destruct (period_find k entries) as [b|] eqn:Fd.
      * destruct (period_append_rel s p k b (VRef r) y _ _ Fb ND Fd)
          as (items & Eb & Lb & Fb').
        rewrite Eb. cbv beta iota. rewrite Eb. cbv beta iota.
        set (s2 := update s b (PyList (items ++ [VRef r]))).
        assert (grows p s s2) as G by (apply grows_update; lia).
        assert (periods_rel s2 p (dict_append periods k y)) as P2.
        { exists entries. split; [|split; [exact Fb' | exact ND]].
          unfold s2. rewrite nth_error_update_neq by lia. exact Ep. }
        destruct (IH ys' s2 _ (item_rel_grows _ _ _ _ _ G F') P2)
          as (r' & s' & E' & G' & Ag).
        exists r', s'. split; [exact E'|].
        split; [eapply grows_trans; eassumption | exact Ag].
      * assert (periods_rel s p periods) as P2
            by (exists entries; auto).
        destruct (IH ys' s _ F' P2) as (r' & s' & E' & G' & Ag).
        exists r', s'. auto.
    + exists (Raise e), s. split; [reflexivity|].
      split; [apply grows_refl | reflexivity].
    + exists Diverge, s. split; [reflexivity|].
      split; [apply grows_refl | exact I].
Qed.

Lemma group_by_period_on_store (items : ref) (period : string)
    (start_date end_date : datetime) (s : store) (xs : list value)
    (ys : list A) :
  nth_error s items = Some (PyList xs) ->
  Forall2 (item_rel decode s (List.length s)) xs ys ->
  exists r s',
    StoredEvaluator._group_by_period items period start_date end_date
                                     timestamp_of s = Some (r, s') /\
    grows (List.length s) s s' /\
    agree (fun p periods => p = List.length s /\ periods_rel s' p periods) r
          (_group_by_period ys period start_date end_date timestamp_key).
Proof.
  intros Ei F. unfold StoredEvaluator._group_by_period, _group_by_period.
  set (p := List.length s).
  assert (periods_rel (s ++ [PeriodDict []]) p (@nil (datetime * list A)))
    as P0.
  { exists []. split; [apply nth_error_new|]. split; constructor. }
  assert (grows p s (s ++ [PeriodDict []])) as G0
      by (apply grows_new; unfold p; lia).
  destruct (generate_periods_on_store (loop_budget start_date end_date)
              period end_date p start_date _ _ P0)
    as (r1 & s1 & E1 & G1 & Ag1).
  run. fold p. rewrite E1.
  destruct r1 as [[]|e|],
    (generate_periods (loop_budget start_date end_date) period start_date
                      end_date []) as [periods|e'|]; try contradiction;
    cbn [bind].
  - destruct G1 as [G1a G1b]. destruct G0 as [G0a G0b].
    pose proof (nth_error_bound _ _ _ Ei) as Li.
    rewrite G1b, G0b, Ei by (unfold p; lia). cbv beta iota.
    assert (grows p s s1) as G by (eapply grows_trans; split; eassumption).
    destruct (group_items_on_store period p xs ys s1 periods
                (item_rel_grows _ _ _ _ _ G F) Ag1)
      as (r2 & s2 & E2 & G2 & Ag2).
    rewrite E2.
    destruct r2 as [[]|e|],
      (group_items period timestamp_key ys periods) as [periods'|e'|];
      try contradiction.
    + exists (Ok p), s2. split; [reflexivity|].
      split; [eapply grows_trans; eassumption|]. split; [reflexivity|].
      exact Ag2.
    + exists (Raise e), s2. split; [reflexivity|].
      split; [eapply grows_trans; eassumption | exact Ag2].
    + exists Diverge, s2. split; [reflexivity|].
      split; [eapply grows_trans; eassumption | exact I].
  - exists (Raise e), s1. split; [reflexivity|].
    split; [eapply grows_trans; eassumption | exact Ag1].
  - exists Diverge, s1. split; [reflexivity|].
    split; [eapply grows_trans; eassumption | exact I].
Qed.

End GroupOnStore.

(** *** The entries of [details] *)

Lemma read_value_0 (s s' : store) (v : value) :
  read_value 0 s' v = read_value 0 s v.
Proof. destruct v; reflexivity. Qed.

Lemma read_value_1 (s s' : store) (r : ref) :
  nth_error s' r = nth_error s r ->
  read_value 1 s' (VRef r) = read_value 1 s (VRef r).
Proof.
  intros E. cbn [read_value]. rewrite E.
  destruct (nth_error s r) as [[]|]; reflexivity.
Qed.

Lemma entry_rel_keep (s s' : store) (m : nat) (acc : list value)
    (acc' : list pyval) :
  (forall r, (m <= r)%nat -> (r < List.length s)%nat ->
             nth_error s' r = nth_error s r) ->
  Forall2 (entry_rel s m) acc acc' -> Forall2 (entry_rel s' m) acc acc'.
Proof.
  intros H. induction 1 as [|v x acc acc' (r & -> & L & E) _ IH];
    constructor; [|exact IH].
  exists r. split; [reflexivity|]. split; [exact L|].
  rewrite (read_value_1 s s'); [exact E|]. apply H; [exact L|].
  cbn [read_value] in E.
  destruct (nth_error s r) eqn:En; [|discriminate].
  now apply nth_error_bound in En.
Qed.

Lemma entry_rel_read (s : store) (m : nat) (acc : list value)
    (acc' : list pyval) :
  Forall2 (entry_rel s m) acc acc' ->
  all_some (map (read_value 1 s) acc) = Some acc'.
Proof.
  intros F. apply all_some_Forall2.
  induction F as [|v x acc acc' (r & -> & L & E) _ IH]; constructor; auto.
Qed.

(** *** The loop over [periods.items()] *)

Section CheckOnStore.

Context {A : Type}.

Lemma check_periods_on_store (count_key period : string) (frequency : Z)
    (p l d : ref) (m : nat) (dd : list (string * value)) :
  assoc_find "periods" dd = Some (VRef l) -> d <> l -> (l < m)%nat ->
  forall (items : list (datetime * ref))
         (periods : list (datetime * list A)) (s : store)
         (fulfilled_periods : Z) (acc : list value) (acc' : list pyval),
    (m <= List.length s)%nat ->
    nth_error s d = Some (PyDict dd) ->
    nth_error s l = Some (PyList acc) ->
    Forall2 (bucket_rel s p) items periods ->
    Forall (fun b => (b < l)%nat) (map snd items) ->
    Forall2 (entry_rel s m) acc acc' ->
    exists r s',
      StoredEvaluator.check_periods count_key period frequency items
                                    fulfilled_periods d s = Some (r, s') /\
      same_except l s s' /\
      agree (fun n res =>
               n = fst res /\
               exists acc2, nth_error s' l = Some (PyList acc2) /\
                            Forall2 (entry_rel s' m) acc2 (snd res))
            r (check_periods count_key period frequency periods
                             fulfilled_periods acc').
Proof.
  intros Hdd Ndl Llm.
  induction items as [|[k b] items IH];
    intros periods s fulfilled_periods acc acc' Lm Ed El F B Facc;
    inversion F as [|? [k' sessions] ? periods' (K & Lb & vs & Eb & N) F'];
    subst; cbn [StoredEvaluator.check_periods check_periods].
  - exists (Ok fulfilled_periods), s. split; [reflexivity|].
    split; [apply same_except_refl|]. split; [reflexivity|].
    exists acc. auto.
  - cbn in K, Lb, Eb, N. subst k'. cbn [map snd] in B.
    inversion B as [|? ? Bb B']; subst.
    run. destruct (_get_period_end k period) as [period_end|e|];
      cbn [bind].
    + rewrite Eb. cbv beta iota. rewrite Ed. cbv beta iota.
      rewrite Hdd. cbv beta iota. rewrite Eb. cbv beta iota.
      pose proof (nth_error_bound _ _ _ El) as Ll.
      rewrite (nth_error_new_old s _ l Ll), El. cbv beta iota.
      rewrite (nth_error_new_old s _ l Ll), El. cbv beta iota.
      rewrite N.
      set (n := Z.of_nat (List.length sessions)).
      set (entry := PyDict [("period_start", VStr (isoformat k));
                            ("period_end", VStr (isoformat period_end));
                            (count_key, VInt n);
                            ("required_count", VInt frequency);
                            ("fulfilled", VBool (frequency <=? n))]).
      set (s2 := update (s ++ [entry]) l
                   (PyList (acc ++ [VRef (List.length s)]))).
      assert (same_except l s s2) as G.
      { eapply same_except_trans;
          [apply same_except_new | apply same_except_update]. }
      assert (forall r, (r < List.length s)%nat -> r <> l ->
                        nth_error s2 r = nth_error s r) as Keep
          by apply G.
      assert (nth_error s2 (List.length s) = Some entry) as Enew.
      { unfold s2. rewrite nth_error_update_neq by lia. apply nth_error_new. }
      destruct (IH periods' s2
                  (fulfilled_periods + (if frequency <=? n then 1 else 0))
                  (acc ++ [VRef (List.length s)])
                  (acc' ++ [PDict [("period_start", PStr (isoformat k));
                                   ("period_end",
                                    PStr (isoformat period_end));
                                   (count_key, PInt n);
                                   ("required_count", PInt frequency);
                                   ("fulfilled",
                                    PBool (frequency <=? n))]]))
        as (r & s' & E & G' & Ag).
      * unfold s2. rewrite update_length, length_app. lia.
      * rewrite Keep; [exact Ed | now apply nth_error_bound in Ed | exact Ndl].
      * unfold s2. apply nth_error_update_eq. rewrite length_app. lia.
      * apply (bucket_rel_mono s); [|exact F'].
        intros r I. rewrite Forall_forall in B'. specialize (B' _ I).
        apply Keep; lia.
      * exact B'.
      * apply Forall2_app.
        -- apply (entry_rel_keep s); [|exact Facc].
           intros r L1 L2. apply Keep; lia.
        -- constructor; [|constructor]. exists (List.length s).
           split; [reflexivity|]. split; [exact Lm|].
           cbn [read_value]. rewrite Enew. reflexivity.
      * exists r, s'. split; [exact E|].
        split; [eapply same_except_trans; eassumption | exact Ag].
    + exists (Raise e), s. split; [reflexivity|].
      split; [apply same_except_refl | reflexivity].
    + exists Diverge, s. split; [reflexivity|].
      split; [apply same_except_refl | exact I].
Qed.

End CheckOnStore.

(** *** The lists of the evidence *)

Lemma evidence_list_on_store {A : Type} (decode : object -> option A)
    (s : store) (entry : option ref) (items : option (list A)) :
  read_entry decode s entry = Some items ->
  exists xs,
    nth_error (s ++ [PyList []]) (get_default entry (List.length s))
      = Some (PyList xs) /\
    Forall2 (item_rel decode (s ++ [PyList []])
                      (List.length (s ++ [PyList []]))) xs
            (get_default items []).
Proof.
  destruct entry as [l|]; cbn [read_entry get_default].
  - unfold read_list.
    destruct (nth_error s l) as [[]|] eqn:El; try discriminate.
    destruct (all_some (map (read_item decode s) items0)) as [ys|] eqn:Ey;
      [|discriminate].
    intros [= <-]. exists items0.
    split; [rewrite nth_error_new_old; [exact El|];
            now apply nth_error_bound in El|].
    cbn [get_default]. apply all_some_Forall2 in Ey.
    clear El. induction Ey as [|x y xs ys Hx _ IH]; [constructor|].
    constructor; [|exact IH].
    destruct x; try discriminate. cbn in Hx.
    destruct (nth_error s r) as [o|] eqn:Er; [|discriminate].
    pose proof (nth_error_bound _ _ _ Er).
    exists r, o. rewrite nth_error_new_old, length_app by lia.
    repeat split; auto. lia.
  - intros [= <-]. exists []. split; [apply nth_error_new | constructor].
Qed.

Lemma session_timestamp (o : object) (a : Session.t) :
  session_of o = Some a -> start_time_of o = Some (Session.start_time a).
Proof. destruct o; try discriminate. now intros [= ->]. Qed.

Lemma interval_timestamp (o : object) (a : Interval.t) :
  interval_of o = Some a -> start_time_of o = Some (Interval.start_time a).
Proof. destruct o; try discriminate. now intros [= ->]. Qed.

Lemma read_promise_inv (s : store) (promise : ref) (p : Promise.t) :
  read_promise s promise = Some p ->
  nth_error s promise = Some (PromiseDict p).
Proof.
  unfold read_promise. destruct (nth_error s promise) as [[]|];
    try discriminate. now intros [= ->].
Qed.

Lemma read_evidence_inv (s : store) (evidence : ref) (e : Evidence.t) :
  read_evidence s evidence = Some e ->
  exists entries,
    nth_error s evidence = Some (EvidenceDict entries) /\
    read_entry session_of s (exercise_sessions entries)
      = Some (Evidence.exercise_sessions e) /\
    read_entry interval_of s (elevated_hr_periods entries)
      = Some (Evidence.elevated_hr_periods e).
Proof.
  unfold read_evidence. destruct (nth_error s evidence) as [[]|];
    try discriminate.
  destruct (read_entry session_of s _) as [ss|] eqn:E1; [|discriminate].
  destruct (read_entry interval_of s _) as [ii|] eqn:E2; [|discriminate].
  intros [= <-]. eexists. split; [reflexivity|]. split; assumption.
Qed.

(** *** The frequency handler *)

Lemma read_entries_list (s : store) (m : nat) (l : ref) (acc : list value)
    (acc' : list pyval) :
  nth_error s l = Some (PyList acc) ->
  Forall2 (entry_rel s m) acc acc' ->
  read_value 2 s (VRef l) = Some (PList acc').
Proof.
  intros E F. cbn [read_value]. rewrite E.
  change (fun v => _) with (read_value 1 s).
  now rewrite (entry_rel_read _ _ _ _ F).
Qed.

Lemma frequency_on_store (s : store) (promise evidence : ref)
    (P : Promise.t) (E : Evidence.t) :
  read_promise s promise = Some P ->
  read_evidence s evidence = Some E ->
  exists r s',
    StoredEvaluator._evaluate_exercise_frequency promise evidence s
      = Some (r, s') /\
    grows (List.length s) s s' /\
    agree (fun v V => read_verdict s' v = Some V) r
          (_evaluate_exercise_frequency P E).
Proof.
  intros HP HE. apply read_promise_inv in HP.
  destruct (read_evidence_inv _ _ _ HE) as (entries & Ee & Es & _).
  pose proof (nth_error_bound _ _ _ Ee) as Le.
  unfold StoredEvaluator._evaluate_exercise_frequency,
    _evaluate_exercise_frequency.
  run. repeat (rewrite HP; cbv beta iota).
  destruct (fromisoformat_get (Promise.start_date P)) as [start_date|e|];
    cbn [bind];
    [|exists (Raise e), s; split; [reflexivity|];
      split; [apply grows_refl | reflexivity]
     |exists Diverge, s; split; [reflexivity|];
      split; [apply grows_refl | exact I]].
  repeat (rewrite HP; cbv beta iota).
  destruct (fromisoformat_get (Promise.end_date P)) as [end_date|e|];
    cbn [bind];
    [|exists (Raise e), s; split; [reflexivity|];
      split; [apply grows_refl | reflexivity]
     |exists Diverge, s; split; [reflexivity|];
      split; [apply grows_refl | exact I]].
  rewrite (nth_error_new_old s _ evidence Le), Ee. cbv beta iota.
  set (s1 := s ++ [PyList []]).
  assert (grows (List.length s) s s1) as G1 by (apply grows_new; lia).
  destruct (evidence_list_on_store session_of s _ _ Es) as (xs & Ex & Fx).
  fold s1 in Ex, Fx.
  destruct (group_by_period_on_store session_of Session.start_time
              start_time_of session_timestamp _
              (get_default (Promise.period P) "week") start_date end_date
              s1 xs _ Ex Fx) as (r2 & s2 & E2 & G2 & Ag2).
  rewrite E2.
  assert (grows (List.length s) s s2) as G12.
  { eapply grows_trans; [exact G1|]. eapply grows_le; [|exact G2].
    unfold s1. rewrite length_app. lia. }
  destruct r2 as [p|e|],
    (_group_by_period (get_default (Evidence.exercise_sessions E) [])
       (get_default (Promise.period P) "week") start_date end_date
       Session.start_time) as [periods|e'|]; try contradiction; cbn [bind];
    [|exists (Raise e), s2; split; [reflexivity|];
      split; [exact G12 | exact Ag2]
     |exists Diverge, s2; split; [reflexivity|];
      split; [exact G12 | exact I]].
  destruct Ag2 as (-> & items & Ep & Fb & ND).
  pose proof (nth_error_bound _ _ _ Ep) as Lp.
  rewrite Ep. cbv beta iota.
  set (l := List.length s2).
  set (d := List.length (s2 ++ [PyList []])).
  set (dd := [("periods", VRef l);
              ("total_periods", VInt (Z.of_nat (List.length items)));
              ("fulfilled_periods", VInt 0)]).
  set (s3 := (s2 ++ [PyList []]) ++ [PyDict dd]).
  assert (d = S l) as Hd by (unfold d, l; rewrite length_app; cbn; lia).
  assert (List.length s3 = S (S l)) as L3
      by (unfold s3, l; rewrite !length_app; cbn; lia).
  assert (forall r, (r < l)%nat -> nth_error s3 r = nth_error s2 r) as Old3.
  { intros r L. unfold s3. rewrite !nth_error_new_old; auto.
    rewrite length_app. lia. }
  rewrite (Old3 _ Lp), Ep. cbv beta iota.
  assert (nth_error s3 d = Some (PyDict dd)) as Ed by apply nth_error_new.
  assert (nth_error s3 l = Some (PyList [])) as El.
  { unfold s3. rewrite nth_error_new_old by (rewrite length_app; cbn; lia).
    apply nth_error_new. }
  destruct (check_periods_on_store "sessions_count"
              (get_default (Promise.period P) "week")
              (get_default (Promise.frequency P) 1)
              (List.length s1) l d (List.length s3) dd eq_refl
              ltac:(lia) ltac:(lia) items periods s3 0 [] []
              ltac:(lia) Ed El)
    as (r4 & s4 & E4 & G4 & Ag4).
  { apply (bucket_rel_mono s2); [|exact Fb].
    intros r I. pose proof (bucket_rel_bound _ _ _ _ Fb) as B.
    rewrite Forall_forall in B. specialize (B _ I). apply Old3. lia. }
  { pose proof (bucket_rel_bound _ _ _ _ Fb) as B.
    eapply Forall_impl; [|exact B]. cbn. intros. lia. }
  { constructor. }
  rewrite E4.
  assert (List.length s <= l)%nat as Lsl by (unfold l; apply G12).
  assert (grows (List.length s) s s4) as G14.
  { eapply grows_trans; [exact G12|]. apply (grows_trans _ _ s3).
    - split; [fold l; lia|]. intros r L. apply Old3. lia.
    - apply (same_except_grows l); [lia|lia|exact G4]. }
  destruct r4 as [fulfilled_periods|e|],
    (check_periods "sessions_count" (get_default (Promise.period P) "week")
       (get_default (Promise.frequency P) 1) periods 0 [])
    as [[fulfilled_periods' entries']|e'|]; try contradiction; cbn [bind];
    [|exists (Raise e), s4; split; [reflexivity|];
      split; [exact G14 | exact Ag4]
     |exists Diverge, s4; split; [reflexivity|];
      split; [exact G14 | exact I]].
  destruct Ag4 as (Ef & acc & Eacc & Facc). cbn [fst snd] in Ef, Facc.
  subst fulfilled_periods'.
  assert (nth_error s4 d = Some (PyDict dd)) as Ed4.
  { destruct G4 as [_ G4]. rewrite G4; [exact Ed | lia | lia]. }
  rewrite Ed4. cbv beta iota. rewrite Ed4. cbv beta iota.
  rewrite (Forall2_length Fb).
  set (s5 := update s4 d _).
  assert (List.length s3 <= List.length s4)%nat as L34 by apply G4.
  assert (grows (List.length s) s s5) as G15.
  { eapply grows_trans; [exact G14|]. apply grows_update. lia. }
  destruct (fulfillment fulfilled_periods
              (Z.of_nat (List.length periods)))
    as [fulfillment_percentage|e|];
    [|exists (Raise e), s5; split; [reflexivity|];
      split; [exact G15 | reflexivity]
     |exists Diverge, s5; split; [reflexivity|];
      split; [exact G15 | exact I]].
  eexists. eexists. split; [reflexivity|]. split.
  { eapply grows_trans; [exact G15|]. apply grows_new.
    destruct G15 as [G _]. exact G. }
  cbn [agree]. unfold read_verdict.
  match goal with
  | |- context [nth_error (s5 ++ [?v]) _] => set (verdict := v)
  end.
  set (s6 := s5 ++ [verdict]).
  assert (forall r, (r < List.length s4)%nat -> r <> d ->
                    nth_error s6 r = nth_error s4 r) as Old6.
  { intros r L N. unfold s6. rewrite nth_error_new_old
      by (unfold s5; rewrite update_length; exact L).
    unfold s5. apply nth_error_update_neq. congruence. }
  unfold s6 at 1. rewrite nth_error_new. unfold verdict at 1.
  cbv beta iota.
  assert (read_value 2 s6 (VRef l) = Some (PList entries')) as Rl.
  { apply (read_entries_list s6 (List.length s3) l acc).
    - rewrite Old6; [exact Eacc | | lia].
      now apply nth_error_bound in Eacc.
    - apply (entry_rel_keep s4); [|exact Facc].
      intros r L1 L2. apply Old6; lia. }
  assert (nth_error s6 d = Some (PyDict [("periods", VRef l);
              ("total_periods", VInt (Z.of_nat (List.length periods)));
              ("fulfilled_periods", VInt fulfilled_periods)])) as Ed6.
  { unfold s6. rewrite nth_error_new_old
      by (unfold s5; rewrite update_length; lia).
    unfold s5. rewrite nth_error_update_eq by lia. unfold dd.
    rewrite (Forall2_length Fb). reflexivity. }
  cbn [read_value]. rewrite Ed6.
  cbn [map fst snd all_some option_map]. 
  change (match nth_error s6 l with
          | Some (PyList items0) => _
          | Some (PyDict entries0) => _
          | _ => None
          end) with (read_value 2 s6 (VRef l)).
  rewrite Rl. reflexivity.
Qed.

(** *** The duration handler *)

Lemma item_rel_le {A : Type} (decode : object -> option A) (s : store)
    (p p' : nat) (xs : list value) (ys : list A) :
  (p <= p')%nat ->
  Forall2 (item_rel decode s p) xs ys -> Forall2 (item_rel decode s p') xs ys.
Proof.
  intros L. induction 1 as [|x y xs ys (r & o & -> & Lr & E & D) _ IH];
    constructor; [|exact IH].
  exists r, o. repeat split; auto. lia.
Qed.

Lemma comprehension_on_store (heart_rate_threshold duration_minutes : Z)
    (s : store) (p : nat) (xs : list value) (ys : list Interval.t) :
  Forall2 (item_rel interval_of s p) xs ys ->
  exists kept,
    StoredEvaluator.comprehension
      (StoredEvaluator.qualifies heart_rate_threshold duration_minutes) xs s
      = Some (Ok kept, s) /\
    Forall2 (item_rel interval_of s p) kept
            (filter (qualifies heart_rate_threshold duration_minutes) ys).
Proof.
  induction 1 as [|x y xs ys (r & o & -> & Lr & E & D) _ (kept & Ek & Fk)];
    cbn [StoredEvaluator.comprehension filter].
  - exists []. split; [reflexivity | constructor].
  - destruct o; try discriminate. injection D as ->.
    unfold StoredEvaluator.qualifies, qualifies. run. rewrite E.
    cbv beta iota delta [average_heart_rate_of duration_minutes_of].
    destruct (Qle_bool (inject_Z heart_rate_threshold)
                (get_default (Interval.average_heart_rate y) 0%Q));
      cbn [andb].
    + rewrite E. cbv beta iota. 
      change (StoredEvaluator.comprehension _ xs s)
        with (StoredEvaluator.comprehension
                (StoredEvaluator.qualifies heart_rate_threshold
                                           duration_minutes) xs s).
      rewrite Ek.
      destruct (Qle_bool (inject_Z duration_minutes)
                  (get_default (Interval.duration_minutes y) 0%Q)).
      * exists (VRef r :: kept). split; [reflexivity|].
        constructor; [|exact Fk]. exists r, (IntervalDict y). auto.
      * exists kept. auto.
    + change (StoredEvaluator.comprehension _ xs s)
        with (StoredEvaluator.comprehension
                (StoredEvaluator.qualifies heart_rate_threshold
                                           duration_minutes) xs s).
      rewrite Ek. exists kept. auto.
Qed.
Lemma duration_on_store (s : store) (promise evidence : ref)
    (P : Promise.t) (E : Evidence.t) :
  read_promise s promise = Some P ->
  read_evidence s evidence = Some E ->
  exists r s',
    StoredEvaluator._evaluate_exercise_duration promise evidence s
      = Some (r, s') /\
    grows (List.length s) s s' /\
    agree (fun v V => read_verdict s' v = Some V) r
          (_evaluate_exercise_duration P E).
Proof.
  intros HP HE. apply read_promise_inv in HP.
  destruct (read_evidence_inv _ _ _ HE) as (entries & Ee & _ & Ei).
  pose proof (nth_error_bound _ _ _ Ee) as Le.
  unfold StoredEvaluator._evaluate_exercise_duration,
    _evaluate_exercise_duration.
  run. repeat (rewrite HP; cbv beta iota).
  destruct (fromisoformat_get (Promise.start_date P)) as [start_date|e|];
    cbn [bind];
    [|exists (Raise e), s; split; [reflexivity|];
      split; [apply grows_refl | reflexivity]
     |exists Diverge, s; split; [reflexivity|];
      split; [apply grows_refl | exact I]].
  repeat (rewrite HP; cbv beta iota).
  destruct (fromisoformat_get (Promise.end_date P)) as [end_date|e|];
    cbn [bind];
    [|exists (Raise e), s; split; [reflexivity|];
      split; [apply grows_refl | reflexivity]
     |exists Diverge, s; split; [reflexivity|];
      split; [apply grows_refl | exact I]].
  rewrite (nth_error_new_old s _ evidence Le), Ee. cbv beta iota.
  set (s1 := s ++ [PyList []]).
  assert (grows (List.length s) s s1) as G1 by (apply grows_new; lia).
  destruct (evidence_list_on_store interval_of s _ _ Ei) as (xs & Ex & Fx).
  fold s1 in Ex, Fx. rewrite Ex. cbv beta iota.
  set (heart_rate_threshold :=
         get_default (Promise.heart_rate_threshold P) 120).
  set (duration_minutes := get_default (Promise.duration_minutes P) 25).
  destruct (comprehension_on_store heart_rate_threshold duration_minutes
              s1 _ xs _ Fx) as (kept & Ek & Fk).
  change (StoredEvaluator.comprehension _ xs s1)
    with (StoredEvaluator.comprehension
            (StoredEvaluator.qualifies heart_rate_threshold
                                       duration_minutes) xs s1).
  rewrite Ek. cbv beta iota.
  set (q := List.length s1).
  set (s1' := s1 ++ [PyList kept]).
  set (qualifying :=
         filter (qualifies heart_rate_threshold duration_minutes)
                (get_default (Evidence.elevated_hr_periods E) [])) in *.
  assert (grows q s1 s1') as G1' by (apply grows_new; unfold q; lia).
  assert (List.length s1' = S q) as L1'
      by (unfold s1', q; rewrite length_app; cbn; lia).
  assert (nth_error s1' q = Some (PyList kept)) as Eq by apply nth_error_new.
  destruct (group_by_period_on_store interval_of Interval.start_time
              start_time_of interval_timestamp q
              (get_default (Promise.period P) "week") start_date end_date
              s1' kept qualifying Eq)
    as (r2 & s2 & E2 & G2 & Ag2).
  { apply (item_rel_le _ _ q); [lia|].
    apply (item_rel_grows interval_of s1); [exact G1' | exact Fk]. }
  rewrite E2.
  assert (List.length s < q)%nat as Lsq
      by (unfold q, s1; rewrite length_app; cbn; lia).
  assert (grows (List.length s) s s2) as G12.
  { eapply grows_trans; [exact G1|]. apply (grows_trans _ _ s1').
    - eapply grows_le; [|exact G1']. lia.
    - eapply grows_le; [|exact G2]. lia. }
  destruct r2 as [p|e|],
    (_group_by_period qualifying
       (get_default (Promise.period P) "week") start_date end_date
       Interval.start_time) as [periods|e'|]; try contradiction; cbn [bind];
    [|exists (Raise e), s2; split; [reflexivity|];
      split; [exact G12 | exact Ag2]
     |exists Diverge, s2; split; [reflexivity|];
      split; [exact G12 | exact I]].
  destruct Ag2 as (-> & items & Ep & Fb & ND).
  pose proof (nth_error_bound _ _ _ Ep) as Lp.
  rewrite Ep. cbv beta iota.
  set (l := List.length s2).
  assert (nth_error (s2 ++ [PyList []]) q = Some (PyList kept)) as Eq2.
  { rewrite nth_error_new_old by lia. destruct G2 as [_ G2].
    rewrite G2 by lia. exact Eq. }
  rewrite Eq2. cbv beta iota.
  set (d := List.length (s2 ++ [PyList []])).
  set (dd := [("periods", VRef l);
              ("total_periods", VInt (Z.of_nat (List.length items)));
              ("fulfilled_periods", VInt 0);
              ("qualifying_sessions",
               VInt (Z.of_nat (List.length kept)))]).
  set (s3 := (s2 ++ [PyList []]) ++ [PyDict dd]).
  assert (d = S l) as Hd by (unfold d, l; rewrite length_app; cbn; lia).
  assert (List.length s3 = S (S l)) as L3
      by (unfold s3, l; rewrite !length_app; cbn; lia).
  assert (forall r, (r < l)%nat -> nth_error s3 r = nth_error s2 r) as Old3.
  { intros r L. unfold s3. rewrite !nth_error_new_old; auto.
    rewrite length_app. lia. }
  rewrite (Old3 _ Lp), Ep. cbv beta iota.
  assert (nth_error s3 d = Some (PyDict dd)) as Ed by apply nth_error_new.
  assert (nth_error s3 l = Some (PyList [])) as El.
  { unfold s3. rewrite nth_error_new_old by (rewrite length_app; cbn; lia).
    apply nth_error_new. }
  destruct (check_periods_on_store "qualifying_sessions"
              (get_default (Promise.period P) "week")
              (get_default (Promise.frequency P) 1)
              (List.length s1') l d (List.length s3) dd eq_refl
              ltac:(lia) ltac:(lia) items periods s3 0 [] []
              ltac:(lia) Ed El)
    as (r4 & s4 & E4 & G4 & Ag4).
  { apply (bucket_rel_mono s2); [|exact Fb].
    intros r I. pose proof (bucket_rel_bound _ _ _ _ Fb) as B.
    rewrite Forall_forall in B. specialize (B _ I). apply Old3. lia. }
  { pose proof (bucket_rel_bound _ _ _ _ Fb) as B.
    eapply Forall_impl; [|exact B]. cbn. intros. lia. }
  { constructor. }
  rewrite E4.
  assert (List.length s <= l)%nat as Lsl by (unfold l; apply G12).
  assert (grows (List.length s) s s4) as G14.
  { eapply grows_trans; [exact G12|]. apply (grows_trans _ _ s3).
    - split; [fold l; lia|]. intros r L. apply Old3. lia.
    - apply (same_except_grows l); [lia|lia|exact G4]. }
  destruct r4 as [fulfilled_periods|e|],
    (check_periods "qualifying_sessions"
       (get_default (Promise.period P) "week")
       (get_default (Promise.frequency P) 1) periods 0 [])
    as [[fulfilled_periods' entries']|e'|]; try contradiction; cbn [bind];
    [|exists (Raise e), s4; split; [reflexivity|];
      split; [exact G14 | exact Ag4]
     |exists Diverge, s4; split; [reflexivity|];
      split; [exact G14 | exact I]].
  destruct Ag4 as (Ef & acc & Eacc & Facc). cbn [fst snd] in Ef, Facc.
  subst fulfilled_periods'.
  assert (nth_error s4 d = Some (PyDict dd)) as Ed4.
  { destruct G4 as [_ G4]. rewrite G4; [exact Ed | lia | lia]. }
  rewrite Ed4. cbv beta iota. rewrite Ed4. cbv beta iota.
  rewrite (Forall2_length Fb).
  set (s5 := update s4 d _).
  assert (List.length s3 <= List.length s4)%nat as L34 by apply G4.
  assert (grows (List.length s) s s5) as G15.
  { eapply grows_trans; [exact G14|]. apply grows_update. lia. }
  destruct (fulfillment fulfilled_periods
              (Z.of_nat (List.length periods)))
    as [fulfillment_percentage|e|];
    [|exists (Raise e), s5; split; [reflexivity|];
      split; [exact G15 | reflexivity]
     |exists Diverge, s5; split; [reflexivity|];
      split; [exact G15 | exact I]].
  eexists. eexists. split; [reflexivity|]. split.
  { eapply grows_trans; [exact G15|]. apply grows_new.
    destruct G15 as [G _]. exact G. }
  cbn [agree]. unfold read_verdict.
  match goal with
  | |- context [nth_error (s5 ++ [?v]) _] => set (verdict := v)
  end.
  set (s6 := s5 ++ [verdict]).
  assert (forall r, (r < List.length s4)%nat -> r <> d ->
                    nth_error s6 r = nth_error s4 r) as Old6.
  { intros r L N. unfold s6. rewrite nth_error_new_old
      by (unfold s5; rewrite update_length; exact L).
    unfold s5. apply nth_error_update_neq. congruence. }
  unfold s6 at 1. rewrite nth_error_new. unfold verdict at 1.
  cbv beta iota.
  assert (read_value 2 s6 (VRef l) = Some (PList entries')) as Rl.
  { apply (read_entries_list s6 (List.length s3) l acc).
    - rewrite Old6; [exact Eacc | | lia].
      now apply nth_error_bound in Eacc.
    - apply (entry_rel_keep s4); [|exact Facc].
      intros r L1 L2. apply Old6; lia. }
  assert (nth_error s6 d = Some (PyDict [("periods", VRef l);
              ("total_periods", VInt (Z.of_nat (List.length periods)));
              ("fulfilled_periods", VInt fulfilled_periods);
              ("qualifying_sessions",
               VInt (Z.of_nat (List.length qualifying)))])) as Ed6.
  { unfold s6. rewrite nth_error_new_old
      by (unfold s5; rewrite update_length; lia).
    unfold s5. rewrite nth_error_update_eq by lia. unfold dd.
    rewrite (Forall2_length Fb), (Forall2_length Fk). reflexivity. }
  cbn [read_value]. rewrite Ed6.
  cbn [map fst snd all_some option_map].
  change (match nth_error s6 l with
          | Some (PyList items0) => _
          | Some (PyDict entries0) => _
          | _ => None
          end) with (read_value 2 s6 (VRef l)).
  rewrite Rl. reflexivity.
Qed.

(** *** The consistency handler *)

Lemma session_of_inv (o : object) (y : Session.t) :
  session_of o = Some y -> o = SessionDict y.
Proof. destruct o; try discriminate. now intros [= ->]. Qed.

Lemma keys_on_store (s : store) (p : nat) (xs : list value)
    (ys : list Session.t) :
  Forall2 (item_rel session_of s p) xs ys ->
  exists keyed,
    for_each (fun x => key <~ item_get start_time_of x ;; ret (key, x)) xs s
      = Some (Ok keyed, s) /\
    Forall2 (fun kv y => fst kv = Session.start_time y /\
                         item_rel session_of s p (snd kv) y) keyed ys.
Proof.
  induction 1 as [|x y xs ys Hx _ (keyed & Ek & Fk)]; cbn [for_each].
  - exists []. split; [reflexivity | constructor].
  - pose proof Hx as (r & o & -> & Lr & E & D).
    apply session_of_inv in D. subst o.
    exists ((Session.start_time y, VRef r) :: keyed). split.
    + run. rewrite E. cbv beta iota delta [start_time_of].
      change (for_each _ xs s)
        with (for_each (fun x => key <~ item_get start_time_of x ;;
                                 ret (key, x)) xs s).
      rewrite Ek. reflexivity.
    + constructor; [|exact Fk]. split; [reflexivity | exact Hx].
Qed.

Lemma sort_keyed_sessions (Q : value -> Session.t -> Prop)
    (keyed : list (datetime * value)) (ys : list Session.t) :
  Forall2 (fun kv y => fst kv = Session.start_time y /\ Q (snd kv) y)
          keyed ys ->
  Forall2 Q (map snd (StoredEvaluator.sort_keyed keyed)) (sorted_sessions ys).
Proof.
  set (R := fun (kv : datetime * value) (y : Session.t) =>
              fst kv = Session.start_time y /\ Q (snd kv) y).
  assert (forall x y l l', R x y -> Forall2 R l l' ->
            Forall2 R (StoredEvaluator.insert_keyed x l)
                    (insert_session y l')) as Hins.
  { intros x y l l' Hxy F. induction F as [|a b l l' Hab F IH];
      cbn [StoredEvaluator.insert_keyed insert_session].
    - constructor; [exact Hxy | constructor].
    - destruct Hxy as [Kx Qx], Hab as [Ka Qa]. rewrite Kx, Ka.
      destruct (dt_leb (Session.start_time y) (Session.start_time b)).
      + constructor; [now split|]. constructor; [now split | exact F].
      + constructor; [now split | exact IH]. }
  intros F.
  assert (Forall2 R (StoredEvaluator.sort_keyed keyed) (sorted_sessions ys))
    as Fs.
  { induction F as [|x y l l' Hxy F IH];
      cbn [StoredEvaluator.sort_keyed sorted_sessions fold_right];
      [constructor|].
    apply Hins; [exact Hxy | exact IH]. }
  clear F. induction Fs as [|x y l l' [_ Hq] _ IH]; cbn [map];
    constructor; auto.
Qed.

Lemma gap_loop_on_store (max_gap_days : Z) (g : ref) (m : nat) :
  (g < m)%nat ->
  forall (xs : list value) (ys : list Session.t)
         (last_session_end : datetime) (s : store) (acc : list value)
         (gaps : list Gap),
    (m <= List.length s)%nat ->
    Forall2 (item_rel session_of s g) xs ys ->
    nth_error s g = Some (PyList acc) ->
    Forall2 (entry_rel s m) acc (map gap_entry gaps) ->
    exists s' acc',
      StoredEvaluator.gaps_loop max_gap_days xs last_session_end g s
        = Some (Ok (snd (fold_left (gap_step max_gap_days) ys
                                   (gaps, last_session_end))), s') /\
      same_except g s s' /\
      nth_error s' g = Some (PyList acc') /\
      Forall2 (entry_rel s' m) acc'
              (map gap_entry
                   (fst (fold_left (gap_step max_gap_days) ys
                                   (gaps, last_session_end)))).
Proof.
  intros Lgm. induction xs as [|x xs IH];
    intros ys last_session_end s acc gaps Lm F Eg Facc;
    inversion F as [|? y ? ys' Hx F']; subst;
    cbn [StoredEvaluator.gaps_loop fold_left].
  - exists s, acc. split; [reflexivity|].
    split; [apply same_except_refl|]. auto.
  - destruct Hx as (r & o & -> & Lr & E & D).
    apply session_of_inv in D. subst o.
    pose proof (nth_error_bound _ _ _ E) as Lrs.
    pose proof (nth_error_bound _ _ _ Eg) as Lg.
    run. rewrite E. cbv beta iota delta [start_time_of].
    cbn [gap_step].
    set (gap_days := td_days (dt_sub (Session.start_time y)
                                     last_session_end)).
    destruct (max_gap_days <? gap_days).
    + rewrite (nth_error_new_old s _ g Lg), Eg. cbv beta iota.
      rewrite (nth_error_new_old s _ g Lg), Eg. cbv beta iota.
      set (entry := StoredEvaluator.gap_dict last_session_end
                      (Session.start_time y) gap_days).
      set (s2 := update (s ++ [entry]) g
                   (PyList (acc ++ [VRef (List.length s)]))).
      assert (same_except g s s2) as G.
      { eapply same_except_trans;
          [apply same_except_new | apply same_except_update]. }
      assert (forall r, (r < List.length s)%nat -> r <> g ->
                        nth_error s2 r = nth_error s r) as Keep
          by apply G.
      rewrite (Keep r Lrs ltac:(lia)), E.
      cbv beta iota delta [end_time_of].
      destruct (IH ys' (Session.end_time y) s2
                  (acc ++ [VRef (List.length s)])
                  (gaps ++ [mkGap last_session_end (Session.start_time y)
                                  gap_days]))
        as (s' & acc' & E' & G' & Eg' & Facc').
      * unfold s2. rewrite update_length, length_app. lia.
      * clear - F' Keep.
        induction F' as [|x0 y0 xs0 ys0 (r0 & o & -> & L & E0 & D) F' IH];
          constructor; [|exact IH].
        exists r0, o. rewrite Keep; [auto | | lia].
        now apply nth_error_bound in E0.
      * unfold s2. apply nth_error_update_eq. rewrite length_app. lia.
      * rewrite map_app. apply Forall2_app.
        -- apply (entry_rel_keep s); [|exact Facc].
           intros r' L1 L2. apply Keep; lia.
        -- constructor; [|constructor]. exists (List.length s).
           split; [reflexivity|]. split; [exact Lm|].
           cbn [read_value]. unfold s2.
           rewrite nth_error_update_neq by lia. rewrite nth_error_new.
           reflexivity.
      * exists s', acc'. split; [exact E'|].
        split; [eapply same_except_trans; eassumption | auto].
    + rewrite E. cbv beta iota delta [end_time_of].
      destruct (IH ys' (Session.end_time y) s acc gaps Lm F' Eg Facc)
        as (s' & acc' & E' & G' & Eg' & Facc').
      exists s', acc'. auto.
Qed.

Lemma of_nat_eqb_0 (n : nat) : (Z.of_nat n =? 0) = (n =? 0)%nat.
Proof. destruct n; reflexivity. Qed.

Lemma consistency_report_on_store (max_gap_days : Z) (g : ref) (m : nat)
    (s : store) (acc : list value) (gaps : list Gap) :
  nth_error s g = Some (PyList acc) ->
  Forall2 (entry_rel s m) acc (map gap_entry gaps) ->
  exists v s',
    (gaps_found <~ len g ;;
     let fulfilled := gaps_found =? 0 in
     gaps_found <~ len g ;;
     details <~ new (PyDict [("max_gap_days", VInt max_gap_days);
                             ("gaps_found", VInt gaps_found);
                             ("gaps", VRef g)]) ;;
     found <~ (if fulfilled then ret "No gaps were found."
               else
                 gaps_count <~ len g ;;
                 ret ("Found " ++ str_of_Z gaps_count ++
                      " gaps exceeding " ++ str_of_Z max_gap_days ++
                      " days.")%string) ;;
     new (PyDict
            [("fulfilled", VBool fulfilled);
             ("confidence", VFloat 1);
             ("reasoning",
              VStr ("The promise required never going more than " ++
                    str_of_Z max_gap_days ++ " days without exercise. " ++
                    found)%string);
             ("details", VRef details)])) s = Some (Ok v, s') /\
    grows (List.length s) s s' /\
    read_verdict s' v =
      Some (Verdict.mk (List.length gaps =? 0)%nat 1
              ("The promise required never going more than " ++
               str_of_Z max_gap_days ++ " days without exercise. " ++
               (if (List.length gaps =? 0)%nat then "No gaps were found."
                else "Found " ++ str_of_Z (Z.of_nat (List.length gaps)) ++
                     " gaps exceeding " ++ str_of_Z max_gap_days ++
                     " days."))%string
              (PDict [("max_gap_days", PInt max_gap_days);
                      ("gaps_found", PInt (Z.of_nat (List.length gaps)));
                      ("gaps", PList (map gap_entry gaps))])).
Proof.
  intros Eg Facc. pose proof (nth_error_bound _ _ _ Eg) as Lg.
  assert (List.length acc = List.length gaps) as Hlen
      by (rewrite (Forall2_length Facc); apply length_map).
  run. rewrite Eg. cbv beta iota zeta. rewrite Eg. cbv beta iota.
  rewrite Hlen, of_nat_eqb_0.
  set (details := PyDict [("max_gap_days", VInt max_gap_days);
                          ("gaps_found", VInt (Z.of_nat (List.length gaps)));
                          ("gaps", VRef g)]).
  assert (exists found,
            found = (if (List.length gaps =? 0)%nat
                     then "No gaps were found."
                     else "Found " ++ str_of_Z (Z.of_nat (List.length gaps)) ++
                          " gaps exceeding " ++ str_of_Z max_gap_days ++
                          " days.")%string) as (found & Ef) by eauto.
  rewrite <- Ef.
  set (verdict := PyDict
         [("fulfilled", VBool (List.length gaps =? 0)%nat);
          ("confidence", VFloat 1);
          ("reasoning",
           VStr ("The promise required never going more than " ++
                 str_of_Z max_gap_days ++ " days without exercise. " ++
                 found)%string);
          ("details", VRef (List.length s))]).
  exists (List.length (s ++ [details])), ((s ++ [details]) ++ [verdict]).
  assert (grows (List.length s) s ((s ++ [details]) ++ [verdict])) as G.
  { eapply grows_trans; apply grows_new; rewrite ?length_app; lia. }
  split; [|split; [exact G|]].
  - unfold verdict. rewrite Ef. destruct (List.length gaps =? 0)%nat.
    + reflexivity.
    + rewrite (nth_error_new_old s _ g Lg), Eg. cbv beta iota.
      rewrite Hlen. reflexivity.
  - unfold read_verdict. rewrite nth_error_new.
    unfold verdict at 1. cbv beta iota.
    assert (read_value 2 ((s ++ [details]) ++ [verdict]) (VRef g)
            = Some (PList (map gap_entry gaps))) as Rg.
    { apply (read_value_grows 2 (List.length s) s _ G (Nat.le_refl _)).
      now apply (read_entries_list s m g acc). }
    cbn [read_value].
    rewrite nth_error_new_old by (rewrite length_app; cbn; lia).
    rewrite nth_error_new. unfold details at 1.
    cbn [map fst snd all_some option_map].
    change (match nth_error ((s ++ [details]) ++ [verdict]) g with
            | Some (PyList items0) => _
            | Some (PyDict entries0) => _
            | _ => None
            end) with (read_value 2 ((s ++ [details]) ++ [verdict]) (VRef g)).
    rewrite Rg. reflexivity.
Qed.

Lemma consistency_on_store (s : store) (promise evidence : ref)
    (P : Promise.t) (E : Evidence.t) :
  read_promise s promise = Some P ->
  read_evidence s evidence = Some E ->
  exists r s',
    StoredEvaluator._evaluate_exercise_consistency promise evidence s
      = Some (r, s') /\
    grows (List.length s) s s' /\
    agree (fun v V => read_verdict s' v = Some V) r
          (_evaluate_exercise_consistency P E).
Proof.
  intros HP HE. apply read_promise_inv in HP.
  destruct (read_evidence_inv _ _ _ HE) as (entries & Ee & Es & _).
  pose proof (nth_error_bound _ _ _ Ee) as Le.
  unfold StoredEvaluator._evaluate_exercise_consistency,
    _evaluate_exercise_consistency, StoredEvaluator.sorted_by_start_time.
  run. repeat (rewrite HP; cbv beta iota).
  destruct (fromisoformat_get (Promise.start_date P)) as [start_date|e|];
    cbn [bind];
    [|exists (Raise e), s; split; [reflexivity|];
      split; [apply grows_refl | reflexivity]
     |exists Diverge, s; split; [reflexivity|];
      split; [apply grows_refl | exact I]].
  repeat (rewrite HP; cbv beta iota).
  destruct (fromisoformat_get (Promise.end_date P)) as [end_date|e|];
    cbn [bind];
    [|exists (Raise e), s; split; [reflexivity|];
      split; [apply grows_refl | reflexivity]
     |exists Diverge, s; split; [reflexivity|];
      split; [apply grows_refl | exact I]].
  rewrite (nth_error_new_old s _ evidence Le), Ee. cbv beta iota.
  set (s1 := s ++ [PyList []]).
  assert (grows (List.length s) s s1) as G1 by (apply grows_new; lia).
  destruct (evidence_list_on_store session_of s _ _ Es) as (xs & Ex & Fx).
  fold s1 in Ex, Fx. rewrite Ex. cbv beta iota.
  destruct (keys_on_store s1 _ xs _ Fx) as (keyed & Ek & Fk).
  change (for_each _ xs s1)
    with (for_each (fun x => key <~ item_get start_time_of x ;;
                             ret (key, x)) xs s1).
  rewrite Ek. cbv beta iota.
  set (sessions := get_default (Evidence.exercise_sessions E) []) in *.
  set (max_gap_days := get_default (Promise.max_gap_days P) 7).
  set (sorted := map snd (StoredEvaluator.sort_keyed keyed)).
  set (q := List.length s1).
  set (s2 := s1 ++ [PyList sorted]).
  set (g := List.length s2).
  set (s3 := s2 ++ [PyList []]).
  assert (List.length s1 = S (List.length s)) as L1
      by (unfold s1; rewrite length_app; cbn; lia).
  assert (g = S q) as Hg by (unfold g, s2, q; rewrite length_app; cbn; lia).
  assert (List.length s3 = S g) as L3
      by (unfold s3, g; rewrite length_app; cbn; lia).
  assert (grows q s1 s3) as G13.
  { eapply grows_trans; apply grows_new; [unfold q; lia | fold g; lia]. }
  assert (nth_error s3 q = Some (PyList sorted)) as Eq.
  { unfold s3. rewrite nth_error_new_old by (fold g; lia). apply nth_error_new. }
  rewrite Eq. cbv beta iota.
  assert (nth_error s3 g = Some (PyList [])) as Eg by apply nth_error_new.
  destruct (gap_loop_on_store max_gap_days g (List.length s3) ltac:(lia)
              sorted (sorted_sessions sessions) start_date s3 [] []
              ltac:(lia))
    as (s4 & acc & E4 & G4 & Eg4 & Facc); [| exact Eg | constructor |].
  { apply (item_rel_le _ _ q); [lia|].
    apply (item_rel_grows session_of s1); [exact G13|].
    apply sort_keyed_sessions. exact Fk. }
  rewrite E4. cbv beta iota. unfold find_gaps. fold sessions max_gap_days.
  destruct (fold_left (gap_step max_gap_days) (sorted_sessions sessions)
                      ([], start_date)) as [gaps last_session_end].
  cbn [fst snd] in *.
  set (final_gap_days := td_days (dt_sub end_date last_session_end)).
  set (all_gaps := if max_gap_days <? final_gap_days
                   then gaps ++ [mkGap last_session_end end_date
                                       final_gap_days]
                   else gaps).
  assert (List.length s3 <= List.length s4)%nat as L34 by apply G4.
  assert (List.length s <= g)%nat as Lsg by lia.
  assert (grows (List.length s) s s4) as G14.
  { eapply grows_trans; [exact G1|]. apply (grows_trans _ _ s3).
    - eapply grows_le; [|exact G13]. lia.
    - apply (same_except_grows g); [lia | lia | exact G4]. }
  pose proof (nth_error_bound _ _ _ Eg4) as Lg4.
  set (gap := StoredEvaluator.gap_dict last_session_end end_date
                final_gap_days).
  set (s5 := if max_gap_days <? final_gap_days
             then update (s4 ++ [gap]) g
                         (PyList (acc ++ [VRef (List.length s4)]))
             else s4).
  set (acc5 := if max_gap_days <? final_gap_days
               then acc ++ [VRef (List.length s4)] else acc).
  assert (same_except g s4 s5 /\
          nth_error s5 g = Some (PyList acc5) /\
          Forall2 (entry_rel s5 (List.length s3)) acc5
                  (map gap_entry all_gaps)) as (G5 & Eg5 & Facc5).
  { unfold all_gaps, s5, acc5. destruct (max_gap_days <? final_gap_days).
    - assert (same_except g s4
                (update (s4 ++ [gap]) g
                        (PyList (acc ++ [VRef (List.length s4)])))) as G.
      { eapply same_except_trans;
          [apply same_except_new | apply same_except_update]. }
      split; [exact G|]. split.
      + apply nth_error_update_eq. rewrite length_app. lia.
      + rewrite map_app. apply Forall2_app.
        * apply (entry_rel_keep s4); [|exact Facc].
          intros r L1' L2'. apply G; lia.
        * constructor; [|constructor]. exists (List.length s4).
          split; [reflexivity|]. split; [lia|].
          cbn [read_value].
          rewrite nth_error_update_neq by lia. rewrite nth_error_new.
          reflexivity.
    - split; [apply same_except_refl|]. split; [exact Eg4 | exact Facc]. }
  destruct (consistency_report_on_store max_gap_days g (List.length s3)
              s5 acc5 all_gaps Eg5 Facc5) as (v & s' & Et & Gt & Rt).
  exists (Ok v), s'. split; [|split].
  - unfold s5 in Et. destruct (max_gap_days <? final_gap_days).
    + rewrite (nth_error_new_old s4 _ g Lg4), Eg4. cbv beta iota.
      rewrite (nth_error_new_old s4 _ g Lg4), Eg4. cbv beta iota.
      exact Et.
    + exact Et.
  - eapply grows_trans; [exact G14|]. apply (grows_trans _ _ s5).
    + apply (same_except_grows g); [lia | | exact G5].
      destruct G14 as [G _]. exact G.
    + eapply grows_le; [|exact Gt]. destruct G14 as [G _], G5 as [G' _]. lia.
  - exact Rt.
Qed.

(** *** [evaluate] *)

Lemma find_handler_methods (name : string)
    (entries : list (string * method)) :
  find_handler name (map (fun e => (fst e, method_function (snd e))) entries)
  = option_map method_function (find_method name entries).
Proof.
  induction entries as [|[k m] entries IH]; cbn; [reflexivity|].
  destruct (String.eqb k name); [reflexivity | exact IH].
Qed.

Lemma read_self_inv (s : store) (self : ref) (T : t) :
  read_self s self = Some T ->
  exists h entries,
    nth_error s self = Some (Evaluator h) /\
    nth_error s h = Some (Handlers entries) /\
    T = mk (map (fun e => (fst e, method_function (snd e))) entries).
Proof.
  unfold read_self.
  destruct (nth_error s self) as [[h|?|?|?|?|?|?|?|?]|]; try discriminate.
  destruct (nth_error s h) as [[?|entries|?|?|?|?|?|?|?]|] eqn:Eh;
    try discriminate.
  intros [= <-]. eauto.
Qed.

Lemma unknown_type_on_store (s : store) (promise_type : option string) :
  read_verdict
    ((s ++ [PyDict []]) ++
     [PyDict [("fulfilled", VBool false);
              ("confidence", VFloat 0);
              ("reasoning",
               VStr ("Unknown promise type: " ++ format_type promise_type));
              ("details", VRef (List.length s))]])
    (List.length (s ++ [PyDict []]))
  = Some (unknown_type_verdict promise_type).
Proof.
  unfold read_verdict. rewrite nth_error_new. cbv beta iota.
  cbn [read_value].
  rewrite nth_error_new_old by (rewrite length_app; cbn; lia).
  rewrite nth_error_new. reflexivity.
Qed.

(** A call of [evaluate] on a store that holds an evaluator at [self], a
    promise at [promise] and evidence at [evidence] ends as [evaluate] on
    what the three references stand for: in the same exception, or in a
    verdict dict that reads as the verdict; and the store it leaves is the
    store it was called in with new objects behind it. *)
Lemma evaluate_on_store (s : store) (self promise evidence : ref)
    (T : t) (P : Promise.t) (E : Evidence.t) :
  read_self s self = Some T ->
  read_promise s promise = Some P ->
  read_evidence s evidence = Some E ->
  exists r s',
    StoredEvaluator.evaluate self promise evidence s = Some (r, s') /\
    grows (List.length s) s s' /\
    agree (fun v V => read_verdict s' v = Some V) r (evaluate T P E).
Proof.
  intros HT HP HE.
  destruct (read_self_inv _ _ _ HT) as (h & entries & Es & Eh & ->).
  pose proof (read_promise_inv _ _ _ HP) as HP'.
  unfold StoredEvaluator.evaluate, evaluate. run.
  rewrite HP'. cbv beta iota. rewrite Es. cbv beta iota.
  rewrite Eh. cbv beta iota. cbn [rule_handlers].
  assert (forall promise_type,
             exists r s',
               Some (Ok (List.length (s ++ [PyDict []])),
                     (s ++ [PyDict []]) ++
                     [PyDict [("fulfilled", VBool false);
                              ("confidence", VFloat 0);
                              ("reasoning",
                               VStr ("Unknown promise type: " ++
                                     format_type promise_type));
                              ("details", VRef (List.length s))]])
                 = Some (r, s') /\
               grows (List.length s) s s' /\
               agree (fun v V => read_verdict s' v = Some V) r
                     (Ok (unknown_type_verdict promise_type))) as Unknown.
  { intros promise_type. eexists. eexists. split; [reflexivity|]. split.
    - eapply grows_trans; apply grows_new; rewrite ?length_app; lia.
    - apply unknown_type_on_store. }
  destruct (Promise.type P) as [name|]; [|apply Unknown].
  rewrite find_handler_methods.
  destruct (find_method name entries) as [[]|]; cbn [option_map];
    [| | |apply Unknown]; cbn [StoredEvaluator.call method_function].
  - now apply frequency_on_store.
  - now apply duration_on_store.
  - now apply consistency_on_store.
Qed.

(** [__init__] leaves an evaluator that reads as the evaluator on
    values. *)
Lemma init_on_store (s : store) :
  exists self s',
    StoredEvaluator.__init__ s = Some (Ok self, s') /\
    extends s s' /\
    read_self s' self = Some __init__.
Proof.
  unfold StoredEvaluator.__init__. run. eexists. eexists.
  split; [reflexivity|]. split.
  - exists [Handlers [("exercise_frequency", frequency_method);
                      ("exercise_duration", duration_method);
                      ("exercise_consistency", consistency_method)];
            Evaluator (List.length s)].
    now rewrite <- app_assoc.
  - unfold read_self. rewrite nth_error_new.
    rewrite nth_error_new_old by (rewrite length_app; cbn; lia).
    rewrite nth_error_new. reflexivity.
Qed.

End EvaluatorOnStore.

(** C9: on every store that holds an evaluator, a promise and evidence,
    two calls of [evaluate] with the same three references, the second in
    the store that the first has left, end alike: in the same exception,
    or in two verdict dicts that read as the same verdict, with the same
    fulfilled, confidence, reasoning and details; the first verdict still
    reads so after the second call. Every object that was in the store
    before a call is in it unchanged after the call: a call only adds
    objects. *)
Theorem C9_evaluate_twice (s : PyStore.store)
    (self promise evidence : PyStore.ref)
    (T : RuleBasedEvaluator.t) (P : Promise.t) (E : Evidence.t) :
  read_self s self = Some T ->
  read_promise s promise = Some P ->
  read_evidence s evidence = Some E ->
  exists first s1 second s2,
    StoredEvaluator.evaluate self promise evidence s = Some (first, s1) /\
    StoredEvaluator.evaluate self promise evidence s1 = Some (second, s2) /\
    same_result first s1 second s2 /\
    extends s s1 /\ extends s1 s2.
Proof.
  intros HT HP HE.
  destruct (evaluate_on_store s self promise evidence T P E HT HP HE)
    as (first & s1 & E1 & G1 & A1).
  destruct (evaluate_on_store s1 self promise evidence T P E)
    as (second & s2 & E2 & G2 & A2).
  - exact (read_self_grows _ _ _ _ _ G1 (Nat.le_refl _) HT).
  - exact (read_promise_grows _ _ _ _ _ G1 (Nat.le_refl _) HP).
  - exact (read_evidence_grows _ _ _ _ _ G1 (Nat.le_refl _) HE).
  - exists first, s1, second, s2. split; [exact E1|]. split; [exact E2|].
    split; [|split; now apply grows_extends].
    unfold same_result.
    destruct first as [v1|e1|], second as [v2|e2|],
      (evaluate T P E) as [V|e|]; cbn [agree] in A1, A2;
      try contradiction; try congruence; try exact I.
    exists V. split; [exact A1|]. split; [exact A2|].
    exact (read_verdict_grows _ _ _ _ _ G2 (Nat.le_refl _) A1).
Qed.

Lemma C9_evaluate_twice_witness :
  exists first s1 second s2,
    StoredEvaluator.evaluate 1%nat 2%nat 3%nat sample_store
      = Some (first, s1) /\
    StoredEvaluator.evaluate 1%nat 2%nat 3%nat s1 = Some (second, s2) /\
    same_result first s1 second s2 /\
    extends sample_store s1 /\ extends s1 s2.
Proof.
  apply (C9_evaluate_twice sample_store 1%nat 2%nat 3%nat __init__
           two_weeks sample_store_evidence); reflexivity.
Defined.

(** On [sample_store] both calls return: two verdict dicts at two
    references, which read as the verdict of [evaluate] on the values. *)
Lemma sample_store_two_calls :
  exists v1 s1 v2 s2 verdict,
    StoredEvaluator.evaluate 1%nat 2%nat 3%nat sample_store
      = Some (Ok v1, s1) /\
    StoredEvaluator.evaluate 1%nat 2%nat 3%nat s1 = Some (Ok v2, s2) /\
    v1 <> v2 /\
    read_verdict s2 v1 = Some verdict /\
    read_verdict s2 v2 = Some verdict /\
    evaluate __init__ two_weeks sample_store_evidence = Ok verdict.
Proof.
  do 5 eexists. split; [vm_compute; reflexivity|].
  split; [vm_compute; reflexivity|]. split; [discriminate|].
  split; [vm_compute; reflexivity|]. split; vm_compute; reflexivity.
Qed.

(** ** The duration rule and absent [elevated_hr_periods] *)

(** C2, as the claim states it, fails: with [heart_rate_data] present and
    [elevated_hr_periods] absent the duration rule does not return what it
    returns on the intervals that the sweep finds in [heart_rate_data]. *)
Lemma C2_counterexample :
  ~ (forall promise hr_data sessions,
       Promise.type promise = Some "exercise_duration" ->
       evaluate __init__ promise (Evidence.mk hr_data sessions None) =
       evaluate __init__ promise
         (Evidence.mk hr_data sessions
            (Some (TerraApiClient.check_continuous_elevated_heart_rate
                     hr_data
                     (get_default (Promise.heart_rate_threshold promise) 120)
                     (get_default (Promise.duration_minutes promise) 25))))).
Proof.
  intros H. specialize (H duration_demo sample_series None eq_refl).
  vm_compute in H. discriminate H.
Qed.

(** C2 (amended): for a promise of the duration type and evidence without
    an [elevated_hr_periods] key, the duration rule reads the absent key as
    the empty list and never looks at [heart_rate_data]: the outcome is the
    one for an empty interval list, whatever the samples are. *)
Theorem C2_absent_intervals_are_empty (promise : Promise.t)
    (hr_data : list Sample.t) (sessions : option (list Session.t)) :
  Promise.type promise = Some "exercise_duration" ->
  evaluate __init__ promise (Evidence.mk hr_data sessions None) =
  evaluate __init__ promise (Evidence.mk [] sessions (Some [])).
Proof.
  intros T. unfold evaluate. rewrite T. reflexivity.
Qed.

Lemma C2_absent_intervals_witness :
  evaluate __init__ duration_demo (Evidence.mk sample_series None None) =
  evaluate __init__ duration_demo (Evidence.mk [] None (Some [])).
Proof.
  apply (C2_absent_intervals_are_empty duration_demo sample_series None).
  reflexivity.
Defined.

(** ** Grouping by period *)

Lemma datetime_new_ok (y m d : Z) :
  dt_ok (mkDatetime y m d 0 0 0 0) ->
  datetime_new y m d = Ok (mkDatetime y m d 0 0 0 0).
Proof. unfold datetime_new, dt_ok. cbv zeta. now intros ->. Qed.

Lemma midnight_ok (d : datetime) :
  dt_ok d -> dt_ok (mkDatetime (year d) (month d) (day d) 0 0 0 0).
Proof.
  intros H. destruct (dt_ok_inv d H) as ([M D] & Y & _).
  apply dt_ok_intro; unfold cal_ok; cbn; try lia.
Qed.

Lemma first_of_month_ok (d : datetime) :
  dt_ok d -> dt_ok (mkDatetime (year d) (month d) 1 0 0 0 0).
Proof.
  intros H. destruct (dt_ok_inv d H) as ([M D] & Y & _).
  pose proof (days_in_month_bounds (year d) (month d)).
  apply dt_ok_intro; unfold cal_ok; cbn; try lia.
Qed.

(** [_get_period_start] returns on every valid datetime, whatever the
    period string, and its result is a valid datetime of the same or an
    earlier year. *)
Lemma get_period_start_ok (d : datetime) (period : string) :
  dt_ok d ->
  exists r, _get_period_start d period = Ok r /\ dt_ok r /\ year r <= year d.
Proof.
  intros H. unfold _get_period_start.
  destruct (String.eqb period "day").
  { rewrite (datetime_new_ok _ _ _ (midnight_ok d H)).
    eexists; split; [reflexivity|]. split; [apply midnight_ok, H | cbn; lia]. }
  destruct (String.eqb period "week").
  { destruct (week_start_ok d H) as (r & E & O & _ & Y & _).
    exists r. auto. }
  destruct (String.eqb period "month").
  { rewrite (datetime_new_ok _ _ _ (first_of_month_ok d H)).
    eexists; split; [reflexivity|].
    split; [apply first_of_month_ok, H | cbn; lia]. }
  exists d. repeat split; [assumption | lia].
Qed.

Section GroupingFacts.

Context {A : Type}.
Implicit Types (periods : @period_dict A) (items : list A).

Lemma dict_append_keys periods key item :
  map fst (dict_append periods key item) = map fst periods.
Proof.
  induction periods as [|[k v] rest IH]; cbn; [reflexivity|].
  destruct (dt_eqb k key); cbn; [reflexivity | now rewrite IH].
Qed.

Lemma dict_set_keys periods key value :
  map fst (dict_set periods key value) =
  if dict_mem key periods then map fst periods else map fst periods ++ [key].
Proof.
  induction periods as [|[k v] rest IH]; cbn; [reflexivity|].
  destruct (dt_eqb k key); cbn; [reflexivity|].
  rewrite IH. now destruct (dict_mem key rest).
Qed.

Lemma dict_set_nonempty periods key value : dict_set periods key value <> [].
Proof.
  destruct periods as [|[k v] rest]; cbn; [discriminate|].
  destruct (dt_eqb k key); discriminate.
Qed.

(** The item loop returns when the item timestamps are valid, and it
    neither adds nor removes a period. *)
Lemma group_items_ok period (timestamp_key : A -> datetime) items periods :
  Forall (fun x => dt_ok (timestamp_key x)) items ->
  exists periods',
    group_items period timestamp_key items periods = Ok periods' /\
    map fst periods' = map fst periods.
Proof.
  intros F. revert periods.
  induction F as [|item rest Hitem _ IH]; intros periods; cbn.
  - eauto.
  - destruct (get_period_start_ok _ period Hitem) as (r & -> & _).
    cbn [bind].
    destruct (IH (if dict_mem r periods then dict_append periods r item
                  else periods)) as (ps & E & K).
    exists ps. split; [exact E|]. rewrite K.
    destruct (dict_mem r periods); [apply dict_append_keys | reflexivity].
Qed.

(** When the range is empty the [while] loop is not entered. *)
Lemma generate_periods_empty_range fuel period current_date end_date periods :
  dt_leb current_date end_date = false ->
  generate_periods fuel period current_date end_date periods = Ok periods.
Proof. intros H. destruct fuel; cbn; now rewrite H. Qed.

Lemma group_by_period_empty_range items period start_date end_date
    (timestamp_key : A -> datetime) :
  dt_ltb end_date start_date = true ->
  Forall (fun x => dt_ok (timestamp_key x)) items ->
  _group_by_period items period start_date end_date timestamp_key = Ok [].
Proof.
  intros L F. unfold _group_by_period.
  rewrite generate_periods_empty_range.
  2:{ rewrite dt_ltb_leb in L. now apply negb_true_iff in L. }
  cbn [bind].
  destruct (group_items_ok period timestamp_key items [] F) as (ps & -> & K).
  destruct ps; [reflexivity | discriminate K].
Qed.

End GroupingFacts.

Lemma evidence_ok_sessions (evidence : Evidence.t) :
  evidence_ok evidence ->
  Forall (fun s => dt_ok (Session.start_time s))
         (get_default (Evidence.exercise_sessions evidence) []).
Proof.
  unfold evidence_ok, evidence_okb. intros H.
  apply andb_prop in H as [H _]. rewrite forallb_forall in H.
  apply Forall_forall. exact H.
Qed.

Lemma evidence_ok_intervals (evidence : Evidence.t) (keep : Interval.t -> bool) :
  evidence_ok evidence ->
  Forall (fun i => dt_ok (Interval.start_time i))
         (filter keep (get_default (Evidence.elevated_hr_periods evidence) [])).
Proof.
  unfold evidence_ok, evidence_okb. intros H.
  apply andb_prop in H as [_ H]. rewrite forallb_forall in H.
  apply Forall_forall. intros i Hi. apply filter_In in Hi as [Hi _].
  apply H, Hi.
Qed.

(** ** Empty date ranges *)

(** C10: for a frequency or duration promise whose start date is after its
    end date no period is generated, and the evaluator still returns a
    verdict: fulfilled is false, confidence is 1.0 and the details report
    total_periods = 0; the percentage is taken as 0 without a division, so
    no [ZeroDivisionError] is raised. *)
Theorem C10_empty_range_verdict (promise : Promise.t) (evidence : Evidence.t)
    (start_date end_date : datetime) :
  Promise.type promise = Some "exercise_frequency" \/
  Promise.type promise = Some "exercise_duration" ->
  Promise.start_date promise = Some start_date ->
  Promise.end_date promise = Some end_date ->
  dt_ltb end_date start_date = true ->
  evidence_ok evidence ->
  exists v,
    evaluate __init__ promise evidence = Ok v /\
    Verdict.fulfilled v = false /\
    Verdict.confidence v = 1%Q /\
    py_get "total_periods" (Verdict.details v) = Some (PInt 0) /\
    py_get "fulfilled_periods" (Verdict.details v) = Some (PInt 0).
Proof.
  intros T S E L V. unfold evaluate.
  destruct T as [T | T]; rewrite T; cbn [__init__ rule_handlers find_handler];
    cbv beta iota delta [String.eqb Ascii.eqb Bool.eqb].
  - unfold _evaluate_exercise_frequency. rewrite S, E.
    cbn [fromisoformat_get bind].
    rewrite (group_by_period_empty_range _ _ _ _ _ L
               (evidence_ok_sessions evidence V)).
    cbn [bind check_periods List.length Z.of_nat fulfillment Z.ltb Z.compare].
    eexists. split; [reflexivity|]. repeat split.
  - unfold _evaluate_exercise_duration. rewrite S, E.
    cbn [fromisoformat_get bind].
    rewrite (group_by_period_empty_range _ _ _ _ _ L
               (evidence_ok_intervals evidence _ V)).
    cbn [bind check_periods List.length Z.of_nat fulfillment Z.ltb Z.compare].
    eexists. split; [reflexivity|]. repeat split.
Qed.

(** ** The period loop on a non-empty range *)

Lemma dt_leb_year (a b : datetime) : dt_leb a b = true -> year a <= year b.
Proof. unfold dt_leb, dt_ltb, dt_eqb. bool_prop. lia. Qed.

Ltac string_eqb := cbv beta iota delta [String.eqb Ascii.eqb Bool.eqb].

Lemma first_of_next_month_ok (d : datetime) :
  dt_ok d -> year d <= 9998 ->
  exists r, first_of_next_month d = Ok r /\ dt_ok r /\ rank d < rank r /\
            2 <= toordinal r.
Proof.
  intros H Y. destruct (dt_ok_inv d H) as ([M D] & Y0 & _).
  pose proof (days_in_month_bounds (year d) (month d)) as B.
  unfold first_of_next_month. destruct (month d =? 12) eqn:E; unbool.
  - assert (dt_ok (mkDatetime (year d + 1) 1 1 0 0 0 0)) as O.
    { apply dt_ok_intro; unfold cal_ok; cbn; lia. }
    rewrite (datetime_new_ok _ _ _ O). eexists. split; [reflexivity|].
    split; [exact O|]. unfold rank, toordinal. cbn [year month day].
    rewrite (days_before_year_succ (year d)).
    pose proof (days_before_year_sign (year d)) as [P _].
    unfold days_before_month. cbn. destruct (is_leap (year d)); lia.
  - assert (dt_ok (mkDatetime (year d) (month d + 1) 1 0 0 0 0)) as O.
    { pose proof (days_in_month_bounds (year d) (month d + 1)).
      apply dt_ok_intro; unfold cal_ok; cbn; lia. }
    rewrite (datetime_new_ok _ _ _ O). eexists. split; [reflexivity|].
    split; [exact O|]. unfold rank, toordinal. cbn [year month day].
    rewrite (days_before_month_succ (year d) (month d)) by lia.
    pose proof (days_before_year_sign (year d)) as [P _].
    pose proof (days_before_month_range (year d) (month d)) as [R _]; lia.
Qed.

Lemma next_period_ok (period : string) (current_date : datetime) :
  known_period period -> dt_ok current_date -> year current_date <= 9998 ->
  exists r, next_period period current_date = Ok r /\ dt_ok r /\
            rank current_date < rank r.
Proof.
  intros [-> | [-> | ->]] H Y; unfold next_period; string_eqb.
  - destruct (add_days_forward current_date 1 H Y ltac:(lia))
      as (r & E & O & _ & R & _).
    exists r. repeat split; auto; lia.
  - destruct (add_days_forward current_date 7 H Y ltac:(lia))
      as (r & E & O & _ & R & _).
    exists r. repeat split; auto; lia.
  - destruct (first_of_next_month_ok current_date H Y) as (r & E & O & R & _).
    exists r. auto.
Qed.

(** [_get_period_end] returns on every key that the period loop makes. *)
Lemma get_period_end_ok (period : string) (k : datetime) :
  known_period period -> key_ok k ->
  exists r, _get_period_end k period = Ok r.
Proof.
  intros P [H Y]. destruct (dt_ok_inv k H) as (C & Y0 & _).
  assert (1 <= toordinal k) as T by (apply (toordinal_year_pos k C); lia).
  destruct P as [-> | [-> | ->]]; unfold _get_period_end; string_eqb.
  - destruct (add_days_forward k 1 H Y ltac:(lia)) as (r & -> & O & T' & _).
    cbn [bind]. apply sub_microsecond_ok; [exact O | lia].
  - destruct (add_days_forward k 7 H Y ltac:(lia)) as (r & -> & O & T' & _).
    cbn [bind]. apply sub_microsecond_ok; [exact O | lia].
  - destruct (first_of_next_month_ok k H Y) as (r & -> & O & _ & T').
    cbn [bind]. apply sub_microsecond_ok; assumption.
Qed.

Section PeriodLoop.

Context {A : Type}.
Implicit Types (periods : @period_dict A).

Lemma dict_set_key_ok periods key value :
  Forall key_ok (map fst periods) -> key_ok key ->
  Forall key_ok (map fst (dict_set periods key value)).
Proof.
  intros F K. rewrite dict_set_keys. destruct (dict_mem key periods); auto.
  apply Forall_app. auto.
Qed.

(** On a known period and a range that ends before year 9999 the [while]
    loop ends within its budget, raises nothing, and leaves at least one
    period whenever it is entered. *)
Lemma generate_periods_ok (fuel : nat) (period : string)
    (current_date end_date : datetime) periods :
  known_period period -> dt_ok current_date -> dt_ok end_date ->
  year end_date <= 9998 ->
  rank end_date - rank current_date + 1 <= Z.of_nat fuel ->
  Forall key_ok (map fst periods) ->
  exists periods',
    generate_periods fuel period current_date end_date periods = Ok periods' /\
    Forall key_ok (map fst periods') /\
    (dt_leb current_date end_date = true \/ periods <> [] -> periods' <> []).
Proof.
  intros P. revert current_date periods.
  induction fuel as [|fuel IH]; intros cur periods Hc He Y B F;
    destruct (dt_ok_inv cur Hc) as (Cc & _);
    destruct (dt_ok_inv end_date He) as (Ce & _);
    cbn [generate_periods]; destruct (dt_leb cur end_date) eqn:L.
  - pose proof (dt_leb_rank _ _ Cc Ce L). lia.
  - exists periods. repeat split; auto. intros [D | D]; [discriminate | exact D].
  - pose proof (dt_leb_year _ _ L) as Yc.
    destruct (get_period_start_ok cur period Hc) as (ps & -> & Ops & Yps).
    destruct (next_period_ok period cur P Hc ltac:(lia)) as (cur' & -> & Oc & R).
    cbn [bind].
    destruct (IH cur' (dict_set periods ps []) Oc He Y ltac:(lia))
      as (periods' & E & F' & N).
    { apply dict_set_key_ok; [exact F|]. split; [exact Ops | lia]. }
    exists periods'. repeat split; auto.
    intros _. apply N. right. apply dict_set_nonempty.
  - exists periods. repeat split; auto. intros [D | D]; [discriminate | exact D].
Qed.

(** The loop over the periods counts the satisfied periods. *)
Lemma check_periods_ok (count_key period : string) (frequency : Z) periods
    (fulfilled_periods : Z) (entries : list pyval) :
  known_period period -> Forall key_ok (map fst periods) ->
  exists entries',
    check_periods count_key period frequency periods fulfilled_periods entries
    = Ok (fulfilled_periods +
          Z.of_nat (List.length (filter (period_satisfied frequency) periods)),
          entries').
Proof.
  intros P. revert fulfilled_periods entries.
  induction periods as [|[k sessions] rest IH]; intros fp entries F.
  - cbn. exists entries. now rewrite Z.add_0_r.
  - cbn [map fst] in F. inversion F as [|? ? K F']; subst.
    cbn [check_periods].
    destruct (get_period_end_ok period k P K) as (r & ->). cbn [bind].
    match goal with
    | |- context [check_periods _ _ _ rest ?fp' ?en'] =>
        destruct (IH fp' en' F') as (entries' & ->)
    end.
    exists entries'. f_equal. f_equal.
    cbn [filter]. unfold period_satisfied at 2. cbn [snd].
    destruct (frequency <=? Z.of_nat (List.length sessions));
      cbn [List.length]; lia.
Qed.

Lemma satisfied_le_total (frequency : Z) periods :
  (List.length (filter (period_satisfied frequency) periods)
   <= List.length periods)%nat.
Proof. apply filter_length_le. Qed.

End PeriodLoop.

(** [fulfillment_percentage >= 1.0] holds exactly when every period is
    satisfied. *)
Lemma fulfillment_all (satisfied total : Z) :
  0 <= satisfied <= total -> 1 <= total ->
  exists pct, fulfillment satisfied total = Ok pct /\
              (Qle_bool 1 pct = true <-> satisfied = total).
Proof.
  intros S T. unfold fulfillment, py_div.
  destruct (0 <? total) eqn:E; unbool; [|lia].
  destruct (total =? 0) eqn:E0; unbool; [lia|].
  eexists. split; [reflexivity|].
  rewrite Qle_bool_iff. unfold true_div. rewrite Qred_correct.
  destruct total as [|tp|tp]; try lia.
  unfold Qle, Qdiv, Qmult, Qinv, inject_Z. cbn. split; intros; nia.
Qed.

Lemma group_by_period_ok {A : Type} (items : list A) (period : string)
    (start_date end_date : datetime) (timestamp_key : A -> datetime) :
  known_period period -> dt_ok start_date -> dt_ok end_date ->
  year end_date <= 9998 ->
  Forall (fun x => dt_ok (timestamp_key x)) items ->
  exists periods,
    _group_by_period items period start_date end_date timestamp_key
      = Ok periods /\
    Forall key_ok (map fst periods) /\
    (dt_leb start_date end_date = true -> periods <> []).
Proof.
  intros P Hs He Y F. unfold _group_by_period.
  destruct (generate_periods_ok (loop_budget start_date end_date) period
              start_date end_date (@nil (datetime * list A)) P Hs He Y)
    as (ps0 & -> & K0 & N0).
  { unfold loop_budget. lia. }
  { constructor. }
  cbn [bind].
  destruct (group_items_ok period timestamp_key items ps0 F) as (ps & -> & K).
  exists ps. split; [reflexivity|]. rewrite K. split; [exact K0|].
  intros L Eq. subst ps. destruct ps0; [|discriminate K].
  apply N0; auto.
Qed.

(** A period string other than day, week and month leaves
    [current_date] where it is: on a non-empty range the [while] loop
    never ends, whatever the number of turns allowed. *)
Lemma unknown_period_never_returns {A : Type} (fuel : nat) (period : string)
    (start_date end_date : datetime) (periods : @period_dict A) :
  period <> "day" -> period <> "week" -> period <> "month" ->
  dt_leb start_date end_date = true ->
  generate_periods fuel period start_date end_date periods = Diverge.
Proof.
  intros N1 N2 N3 L. revert periods.
  induction fuel as [|fuel IH]; intros periods; cbn [generate_periods];
    rewrite L; [reflexivity|].
  unfold _get_period_start, next_period.
  destruct (String.eqb_spec period "day"); [contradiction|].
  destruct (String.eqb_spec period "week"); [contradiction|].
  destruct (String.eqb_spec period "month"); [contradiction|].
  cbn [bind]. apply IH.
Qed.

(** On the last day of year 9999 the step to the next day leaves the
    calendar and the evaluation raises [OverflowError]. *)
Lemma last_day_overflows :
  evaluate __init__
    (Promise.mk (Some "exercise_frequency") None (Some "day") None None None
                (Some (midnight 9999 12 31)) (Some (midnight 9999 12 31)))
    no_evidence = Raise OverflowError.
Proof. vm_compute. reflexivity. Qed.

(** ** The frequency rule *)

(** C4: for a frequency promise over a non-empty range (start <= end, a
    period of day, week or month, the range ending before year 9999) the
    evaluator returns a verdict; at least one period is generated; the
    verdict is fulfilled exactly when the number of periods holding at
    least [frequency] sessions equals the number of generated periods; and
    the details report both numbers, whether or not it is fulfilled. *)
Theorem C4_frequency_all_periods (promise : Promise.t) (evidence : Evidence.t)
    (start_date end_date : datetime) :
  Promise.type promise = Some "exercise_frequency" ->
  Promise.start_date promise = Some start_date ->
  Promise.end_date promise = Some end_date ->
  known_period (get_default (Promise.period promise) "week") ->
  dt_ok start_date -> dt_ok end_date -> year end_date <= 9998 ->
  evidence_ok evidence ->
  dt_leb start_date end_date = true ->
  exists periods v,
    _group_by_period (get_default (Evidence.exercise_sessions evidence) [])
      (get_default (Promise.period promise) "week") start_date end_date
      Session.start_time = Ok periods /\
    evaluate __init__ promise evidence = Ok v /\
    let total_periods := Z.of_nat (List.length periods) in
    let satisfied_periods :=
      Z.of_nat (List.length
                  (filter (period_satisfied
                             (get_default (Promise.frequency promise) 1))
                          periods)) in
    1 <= total_periods /\
    (Verdict.fulfilled v = true <-> satisfied_periods = total_periods) /\
    py_get "fulfilled_periods" (Verdict.details v)
      = Some (PInt satisfied_periods) /\
    py_get "total_periods" (Verdict.details v) = Some (PInt total_periods).
Proof.
  intros T S E P Hs He Y V L.
  destruct (group_by_period_ok
              (get_default (Evidence.exercise_sessions evidence) [])
              _ start_date end_date Session.start_time P Hs He Y
              (evidence_ok_sessions evidence V)) as (periods & G & K & N).
  specialize (N L).
  destruct (check_periods_ok "sessions_count"
              (get_default (Promise.period promise) "week")
              (get_default (Promise.frequency promise) 1) periods 0 [] P K)
    as (entries & C).
  pose proof (satisfied_le_total (get_default (Promise.frequency promise) 1)
                                 periods) as LE.
  assert (1 <= Z.of_nat (List.length periods)) as T1.
  { destruct periods; [congruence | cbn [List.length]; lia]. }
  destruct (fulfillment_all
              (Z.of_nat (List.length
                 (filter (period_satisfied
                            (get_default (Promise.frequency promise) 1))
                         periods)))
              (Z.of_nat (List.length periods)) ltac:(lia) T1)
    as (pct & Fm & Iff).
  exists periods. eexists. split; [exact G|]. split.
  - unfold evaluate. rewrite T. cbn [__init__ rule_handlers find_handler].
    string_eqb. unfold _evaluate_exercise_frequency. rewrite S, E.
    cbn [fromisoformat_get bind]. rewrite G. cbn [bind]. rewrite C.
    cbn [bind]. rewrite Z.add_0_l. rewrite Fm. cbn [bind]. reflexivity.
  - cbv zeta. cbn [Verdict.fulfilled Verdict.details].
    split; [exact T1|]. split; [exact Iff|]. split; reflexivity.
Qed.

Lemma C4_frequency_witness :
  exists periods v,
    _group_by_period
      (get_default (Evidence.exercise_sessions two_weeks_evidence) [])
      "week" (midnight 2023 1 2) (midnight 2023 1 15) Session.start_time
      = Ok periods /\
    evaluate __init__ two_weeks two_weeks_evidence = Ok v /\
    let total_periods := Z.of_nat (List.length periods) in
    let satisfied_periods :=
      Z.of_nat (List.length (filter (period_satisfied 3) periods)) in
    1 <= total_periods /\
    (Verdict.fulfilled v = true <-> satisfied_periods = total_periods) /\
    py_get "fulfilled_periods" (Verdict.details v)
      = Some (PInt satisfied_periods) /\
    py_get "total_periods" (Verdict.details v) = Some (PInt total_periods).
Proof.
  apply (C4_frequency_all_periods two_weeks two_weeks_evidence
           (midnight 2023 1 2) (midnight 2023 1 15));
    try reflexivity.
  - right. left. reflexivity.
  - cbn. lia.
Defined.

(** The same input, evaluated: one of two weeks is satisfied, the verdict
    is not fulfilled, and both numbers are in the details. *)
Lemma two_weeks_verdict :
  exists v,
    evaluate __init__ two_weeks two_weeks_evidence = Ok v /\
    Verdict.fulfilled v = false /\
    py_get "fulfilled_periods" (Verdict.details v) = Some (PInt 1) /\
    py_get "total_periods" (Verdict.details v) = Some (PInt 2).
Proof. eexists. split; [vm_compute; reflexivity|]. repeat split. Qed.

Lemma C10_empty_range_witness :
  exists v,
    evaluate __init__ (backwards "exercise_duration") two_weeks_evidence
      = Ok v /\
    Verdict.fulfilled v = false /\
    Verdict.confidence v = 1%Q /\
    py_get "total_periods" (Verdict.details v) = Some (PInt 0) /\
    py_get "fulfilled_periods" (Verdict.details v) = Some (PInt 0).
Proof.
  apply (C10_empty_range_verdict (backwards "exercise_duration")
           two_weeks_evidence (midnight 2023 1 15) (midnight 2023 1 2));
    try reflexivity.
  right. reflexivity.
Defined.

(** ** The consistency rule *)

Lemma insert_session_perm (s : Session.t) (l : list Session.t) :
  Permutation (s :: l) (insert_session s l).
Proof.
  induction l as [|y l IH]; cbn; [reflexivity|].
  destruct (dt_leb (Session.start_time s) (Session.start_time y));
    [reflexivity|].
  rewrite perm_swap. now constructor.
Qed.

Lemma sorted_sessions_perm (l : list Session.t) :
  Permutation l (sorted_sessions l).
Proof.
  induction l as [|s l IH]; cbn; [constructor|].
  rewrite <- insert_session_perm. now constructor.
Qed.

Lemma insert_session_sorted (s : Session.t) (l : list Session.t) :
  StronglySorted starts_before l ->
  StronglySorted starts_before (insert_session s l).
Proof.
  induction 1 as [|y l S IH F]; cbn.
  - repeat constructor.
  - destruct (dt_leb (Session.start_time s) (Session.start_time y)) eqn:L.
    + constructor; [now constructor|]. constructor; [exact L|].
      eapply Forall_impl; [|exact F].
      intros z Hz. unfold starts_before in *. eapply dt_leb_trans; eassumption.
    + constructor; [exact IH|].
      apply (Permutation_Forall (insert_session_perm s l)).
      constructor; [|exact F]. apply dt_leb_total, L.
Qed.

Lemma sorted_sessions_sorted (l : list Session.t) :
  StronglySorted starts_before (sorted_sessions l).
Proof.
  induction l as [|s l IH]; cbn; [constructor|].
  now apply insert_session_sorted.
Qed.

Lemma gap_loop (max_gap_days : Z) (end_date : datetime)
    (l : list Session.t) (gaps : list Gap) (last_session_end : datetime) :
  (let '(gaps', last') :=
     fold_left (gap_step max_gap_days) l (gaps, last_session_end) in
   let final_gap_days := td_days (dt_sub end_date last') in
   if max_gap_days <? final_gap_days
   then gaps' ++ [mkGap last' end_date final_gap_days]
   else gaps') =
  gaps ++ long_stretches max_gap_days (stretches last_session_end l end_date).
Proof.
  revert gaps last_session_end.
  induction l as [|s l IH]; intros gaps last.
  - cbn. unfold long_stretches, whole_days. cbn.
    destruct (max_gap_days <? td_days (dt_sub end_date last));
      cbn; [reflexivity | now rewrite app_nil_r].
  - cbn [fold_left stretches]. unfold gap_step at 2. rewrite IH.
    unfold long_stretches, whole_days. cbn [filter fst snd].
    destruct (max_gap_days <?
              td_days (dt_sub (Session.start_time s) last)); cbn [map].
    + now rewrite <- app_assoc.
    + reflexivity.
Qed.

Lemma find_gaps_stretches (max_gap_days : Z) (start_date end_date : datetime)
    (sessions : list Session.t) :
  find_gaps max_gap_days start_date end_date sessions =
  long_stretches max_gap_days
    (stretches start_date (sorted_sessions sessions) end_date).
Proof. unfold find_gaps. now rewrite gap_loop. Qed.

(** C6: the consistency rule works on the sessions sorted ascending by
    start time (a reordering of the evidence); the gaps it records are
    exactly the stretches of more than [max_gap_days] whole days among:
    promise start to first session start, each session end to the next
    session start, last session end to promise end; and the verdict is
    fulfilled exactly when no gap was recorded. *)
Theorem C6_consistency_gaps (promise : Promise.t) (evidence : Evidence.t)
    (start_date end_date : datetime) :
  Promise.type promise = Some "exercise_consistency" ->
  Promise.start_date promise = Some start_date ->
  Promise.end_date promise = Some end_date ->
  let sessions := get_default (Evidence.exercise_sessions evidence) [] in
  let max_gap_days := get_default (Promise.max_gap_days promise) 7 in
  let gaps := find_gaps max_gap_days start_date end_date sessions in
  Permutation sessions (sorted_sessions sessions) /\
  StronglySorted starts_before (sorted_sessions sessions) /\
  gaps = long_stretches max_gap_days
           (stretches start_date (sorted_sessions sessions) end_date) /\
  exists v,
    evaluate __init__ promise evidence = Ok v /\
    (Verdict.fulfilled v = true <-> gaps = []) /\
    py_get "gaps" (Verdict.details v) = Some (PList (map gap_entry gaps)).
Proof.
  intros T S E. cbv zeta.
  split; [apply sorted_sessions_perm|].
  split; [apply sorted_sessions_sorted|].
  split; [apply find_gaps_stretches|].
  unfold evaluate. rewrite T. cbn [__init__ rule_handlers find_handler].
  string_eqb. unfold _evaluate_exercise_consistency. rewrite S, E.
  cbn [fromisoformat_get bind].
  eexists. split; [reflexivity|].
  cbn [Verdict.fulfilled Verdict.details]. split; [|reflexivity].
  destruct (find_gaps _ start_date end_date _); cbn; split;
    intros; congruence.
Qed.

Lemma C6_consistency_witness :
  let sessions :=
    [hour_session 2023 1 16; hour_session 2023 1 2; hour_session 2023 1 7] in
  let gaps :=
    find_gaps 7 (midnight 2023 1 2) (midnight 2023 1 22) sessions in
  Permutation sessions (sorted_sessions sessions) /\
  StronglySorted starts_before (sorted_sessions sessions) /\
  gaps = long_stretches 7
           (stretches (midnight 2023 1 2) (sorted_sessions sessions)
                      (midnight 2023 1 22)) /\
  exists v,
    evaluate __init__ twenty_days three_sessions = Ok v /\
    (Verdict.fulfilled v = true <-> gaps = []) /\
    py_get "gaps" (Verdict.details v) = Some (PList (map gap_entry gaps)).
Proof.
  apply (C6_consistency_gaps twenty_days three_sessions
           (midnight 2023 1 2) (midnight 2023 1 22)); reflexivity.
Defined.

(** On that input exactly one gap is recorded, the eight whole days from
    the end of the day-5 session to the start of the day-14 session. *)
Lemma three_sessions_one_gap :
  find_gaps 7 (midnight 2023 1 2) (midnight 2023 1 22)
    [hour_session 2023 1 16; hour_session 2023 1 2; hour_session 2023 1 7] =
  [mkGap (mkDatetime 2023 1 7 8 0 0 0) (mkDatetime 2023 1 16 7 0 0 0) 8].
Proof. vm_compute. reflexivity. Qed.

(** ** The start of a period *)

(** The day and the month branch of [_get_period_start] return midnight of
    the day and of the first of the month. *)
Lemma get_period_start_day_month (d : datetime) :
  dt_ok d ->
  _get_period_start d "day" =
    Ok (mkDatetime (year d) (month d) (day d) 0 0 0 0) /\
  _get_period_start d "month" = Ok (mkDatetime (year d) (month d) 1 0 0 0 0).
Proof.
  intros H. unfold _get_period_start. string_eqb. split.
  - apply datetime_new_ok, midnight_ok, H.
  - apply datetime_new_ok, first_of_month_ok, H.
Qed.

(** The week branch returns a Monday, and with it the time of day of its
    argument: it is midnight only for an argument that is at midnight. *)
Lemma get_period_start_week (d : datetime) :
  dt_ok d ->
  exists r, _get_period_start d "week" = Ok r /\ weekday r = 0 /\
            hour r = hour d /\ minute r = minute d /\ second r = second d /\
            microsecond r = microsecond d.
Proof.
  intros H. unfold _get_period_start. string_eqb.
  destruct (week_start_ok d H) as (r & E & _ & W & _ & T).
  exists r. auto.
Qed.

(** C3 on the code: for a start at Wednesday 2023-01-04T10:30 and the week
    granularity, the first generated period starts at Monday
    2023-01-02T10:30, not at Monday midnight; and a session of Thursday
    2023-01-05T08:00, in the same week, is keyed Monday 2023-01-02T08:00,
    finds no such period and is left out of every bucket. With the day
    and the month granularity the same start gives midnight keys. *)
Theorem C3_week_start_keeps_time_of_day :
  _get_period_start wednesday_morning "week" =
    Ok (mkDatetime 2023 1 2 10 30 0 0) /\
  _get_period_start wednesday_morning "week" <> Ok (midnight 2023 1 2) /\
  _get_period_start wednesday_morning "day" = Ok (midnight 2023 1 4) /\
  _get_period_start wednesday_morning "month" = Ok (midnight 2023 1 1) /\
  _group_by_period [session_at (mkDatetime 2023 1 5 8 0 0 0)] "week"
    wednesday_morning (mkDatetime 2023 1 8 10 30 0 0) Session.start_time =
    Ok [(mkDatetime 2023 1 2 10 30 0 0, [])] /\
  _group_by_period [session_at (mkDatetime 2023 1 5 8 0 0 0)] "day"
    wednesday_morning (mkDatetime 2023 1 5 10 30 0 0) Session.start_time =
    Ok [(midnight 2023 1 4, []);
        (midnight 2023 1 5, [session_at (mkDatetime 2023 1 5 8 0 0 0)])].
Proof.
  repeat split; try (vm_compute; reflexivity).
  vm_compute. discriminate.
Qed.

(** * Further properties *)

(** ** Period boundaries *)

Lemma prev_next_day (d : datetime) : cal_ok d -> prev_day (next_day d) = d.
Proof.
  intros [M D]. pose proof (days_in_month_bounds (year d) (month d)) as B.
  destruct d as [y m dd h mi sec us]. cbn [year month day] in *.
  unfold next_day. cbn [year month day hour minute second microsecond].
  destruct (dd <? days_in_month y m) eqn:E1; unbool.
  - unfold prev_day. cbn [year month day hour minute second microsecond].
    destruct (1 <? dd + 1) eqn:E2; unbool; [|lia]. f_equal; lia.
  - destruct (m <? 12) eqn:E2; unbool;
      unfold prev_day; cbn [year month day hour minute second microsecond];
      change (1 <? 1) with false; cbv iota.
    + destruct (1 <? m + 1) eqn:E3; unbool; [|lia].
      replace (m + 1 - 1) with m by lia. f_equal; lia.
    + assert (m = 12) as -> by lia.
      assert (dd = 31) as -> by (unfold days_in_month in *; cbn in *; lia).
      f_equal; lia.
Qed.

Lemma prev_day_leb (d : datetime) : cal_ok d -> dt_leb (prev_day d) d = true.
Proof.
  intros [M D]. pose proof (days_in_month_bounds (year d) (month d - 1)) as B.
  unfold prev_day. repeat break_if; unbool;
    unfold dt_leb, dt_ltb, dt_eqb;
    cbn [year month day hour minute second microsecond]; bool_prop; lia.
Qed.

Lemma iter_prev_day_leb (n : nat) (d : datetime) :
  cal_ok d -> dt_leb (iter_day prev_day n d) d = true.
Proof.
  revert d. induction n as [|n IH]; intros d C; cbn [iter_day].
  - apply dt_leb_refl.
  - eapply dt_leb_trans; [apply IH, prev_day_cal, C | apply prev_day_leb, C].
Qed.

Lemma week_start_shift (d : datetime) :
  shift_days d (- weekday d) = iter_day prev_day (Z.to_nat (weekday d)) d.
Proof.
  pose proof (weekday_range d) as W. unfold shift_days.
  destruct (0 <=? - weekday d) eqn:E0.
  - unbool. assert (weekday d = 0) as -> by lia. reflexivity.
  - now rewrite Z.opp_involutive.
Qed.

(** X1: on a valid datetime [_get_period_start] returns a valid datetime
    that is not after its argument, and it is idempotent: the period start
    of a period start is that period start (any period string). *)
Theorem get_period_start_idempotent (d : datetime) (period : string) :
  dt_ok d ->
  exists r, _get_period_start d period = Ok r /\ dt_ok r /\
            dt_leb r d = true /\ _get_period_start r period = Ok r.
Proof.
  intros H. destruct (dt_ok_inv d H) as (C & Y & T1 & T2 & T3 & T4).
  destruct C as [M D]. unfold _get_period_start.
  destruct (String.eqb period "day").
  { pose proof (midnight_ok d H) as O.
    rewrite (datetime_new_ok _ _ _ O). eexists. split; [reflexivity|].
    split; [exact O|]. cbn [year month day]. split.
    - unfold dt_leb, dt_ltb, dt_eqb.
      cbn [year month day hour minute second microsecond]. bool_prop. lia.
    - apply datetime_new_ok, O. }
  destruct (String.eqb period "week").
  { destruct (week_start_ok d H) as (r & E & O & W & _).
    exists r. split; [exact E|]. split; [exact O|]. split.
    - unfold add_days in E. cbv zeta in E. break_if; [|discriminate].
      injection E as <-. rewrite week_start_shift.
      apply iter_prev_day_leb. split; assumption.
    - rewrite W. unfold add_days, shift_days. cbn [Z.opp Z.leb Z.compare
        Z.to_nat iter_day]. cbv zeta.
      destruct (dt_ok_inv r O) as (_ & Yr & _).
      replace ((MINYEAR <=? year r) && (year r <=? MAXYEAR))%bool with true;
        [reflexivity|].
      symmetry. unfold MINYEAR, MAXYEAR. bool_prop. lia. }
  destruct (String.eqb period "month").
  { pose proof (first_of_month_ok d H) as O.
    rewrite (datetime_new_ok _ _ _ O). eexists. split; [reflexivity|].
    split; [exact O|]. cbn [year month day]. split.
    - unfold dt_leb, dt_ltb, dt_eqb.
      cbn [year month day hour minute second microsecond]. bool_prop. lia.
    - apply datetime_new_ok, O. }
  exists d. repeat split; auto. apply dt_leb_refl.
Qed.

Lemma get_period_start_idempotent_witness :
  exists r, _get_period_start wednesday_morning "week" = Ok r /\ dt_ok r /\
            dt_leb r wednesday_morning = true /\
            _get_period_start r "week" = Ok r.
Proof.
  apply (get_period_start_idempotent wednesday_morning "week"). reflexivity.
Defined.

(** X2: the week branch of [_get_period_start] returns the Monday of the
    week of its argument: a Monday at most six days before the argument's
    date, with the argument's time of day. *)
Theorem week_start_is_monday_of_the_week (d : datetime) :
  dt_ok d ->
  exists r, _get_period_start d "week" = Ok r /\
            weekday r = 0 /\
            toordinal r = toordinal d - weekday d /\
            toordinal d - 6 <= toordinal r <= toordinal d /\
            time_us r = time_us d.
Proof.
  intros H. destruct (dt_ok_inv d H) as (C & _).
  unfold _get_period_start. string_eqb.
  destruct (week_start_ok d H) as (r & E & _ & W & _ & T1 & T2 & T3 & T4).
  exists r. split; [exact E|]. split; [exact W|].
  pose proof (weekday_range d) as R.
  assert (toordinal r = toordinal d - weekday d) as O.
  { unfold add_days in E. cbv zeta in E. break_if; [|discriminate].
    injection E as <-. rewrite week_start_shift.
    destruct (iter_prev_day (Z.to_nat (weekday d)) d C) as (_ & O & _).
    rewrite O. rewrite Z2Nat.id; lia. }
  split; [exact O|]. split; [lia|].
  unfold time_us. congruence.
Qed.

Lemma week_start_is_monday_witness :
  exists r, _get_period_start wednesday_morning "week" = Ok r /\
            weekday r = 0 /\
            toordinal r = toordinal wednesday_morning
                          - weekday wednesday_morning /\
            toordinal wednesday_morning - 6 <= toordinal r
              <= toordinal wednesday_morning /\
            time_us r = time_us wednesday_morning.
Proof.
  apply (week_start_is_monday_of_the_week wednesday_morning). reflexivity.
Defined.

Lemma add_days_one (k : datetime) :
  dt_ok k -> year k <= 9998 -> add_days k 1 = Ok (next_day k).
Proof.
  intros H Y. destruct (add_days_forward k 1 H Y ltac:(lia)) as (r & E & _).
  rewrite E. unfold add_days in E. cbv zeta in E. break_if; [|discriminate].
  injection E as <-. reflexivity.
Qed.

(** X3: for every valid datetime before year 9999 the month branch of
    [_get_period_end] returns the last microsecond of the last day of that
    month, the day number being the length of the month (28, 29, 30 or
    31), whatever the day and time of its argument. *)
Theorem month_period_end (k : datetime) :
  dt_ok k -> year k <= 9998 ->
  _get_period_end k "month" =
    Ok (mkDatetime (year k) (month k) (days_in_month (year k) (month k))
                   23 59 59 999999).
Proof.
  intros H Y. destruct (dt_ok_inv k H) as ([M D] & Y0 & _).
  unfold _get_period_end. string_eqb. unfold first_of_next_month.
  destruct (month k =? 12) eqn:E; unbool.
  - assert (dt_ok (mkDatetime (year k + 1) 1 1 0 0 0 0)) as O.
    { apply dt_ok_intro; unfold cal_ok; cbn; lia. }
    rewrite (datetime_new_ok _ _ _ O). cbn [bind].
    unfold sub_microsecond, prev_day, MINYEAR.
    cbn [year month day hour minute second microsecond].
    change (0 <? 0) with false. change (1 <? 1) with false. cbv iota.
    cbn [year month day].
    destruct (1 <=? year k + 1 - 1) eqn:E1; unbool; [|lia].
    rewrite E. unfold days_in_month. cbn. f_equal. f_equal. lia.
  - assert (dt_ok (mkDatetime (year k) (month k + 1) 1 0 0 0 0)) as O.
    { pose proof (days_in_month_bounds (year k) (month k + 1)).
      apply dt_ok_intro; unfold cal_ok; cbn; lia. }
    rewrite (datetime_new_ok _ _ _ O). cbn [bind].
    unfold sub_microsecond, prev_day, MINYEAR.
    cbn [year month day hour minute second microsecond].
    change (0 <? 0) with false. change (1 <? 1) with false. cbv iota.
    destruct (1 <? month k + 1) eqn:E1; unbool; [|lia].
    cbn [year month day].
    destruct (1 <=? year k) eqn:E2; unbool; [|lia].
    replace (month k + 1 - 1) with (month k) by lia. reflexivity.
Qed.

Lemma month_period_end_witness :
  _get_period_end (mkDatetime 2024 2 10 7 0 0 0) "month" =
    Ok (mkDatetime 2024 2 29 23 59 59 999999).
Proof.
  apply (month_period_end (mkDatetime 2024 2 10 7 0 0 0));
    [reflexivity | cbn; lia].
Defined.

Lemma sub_microsecond_midnight (d : datetime) :
  at_midnight d -> 1 <= year (prev_day d) ->
  sub_microsecond d = Ok (end_of_day (prev_day d)).
Proof.
  intros (T1 & T2 & T3 & T4) Y. unfold sub_microsecond, MINYEAR.
  rewrite T1, T2, T3, T4. change (0 <? 0) with false. cbv iota.
  destruct (1 <=? year (prev_day d)) eqn:E; unbool; [reflexivity | lia].
Qed.

(** X4: for a valid midnight key before year 9999 the day branch of
    [_get_period_end] returns the last microsecond of that same day. *)
Theorem day_period_end (k : datetime) :
  dt_ok k -> at_midnight k -> year k <= 9998 ->
  _get_period_end k "day" = Ok (end_of_day k).
Proof.
  intros H T Y. destruct (dt_ok_inv k H) as (C & Y0 & _).
  unfold _get_period_end. string_eqb.
  rewrite (add_days_one k H Y). cbn [bind].
  rewrite sub_microsecond_midnight.
  - now rewrite (prev_next_day k C).
  - destruct T as (T1 & T2 & T3 & T4).
    destruct (next_day_time k) as (U1 & U2 & U3 & U4).
    unfold at_midnight. repeat split; congruence.
  - rewrite (prev_next_day k C). lia.
Qed.

Lemma day_period_end_witness :
  _get_period_end (midnight 2023 12 31) "day" =
    Ok (mkDatetime 2023 12 31 23 59 59 999999).
Proof.
  apply (day_period_end (midnight 2023 12 31));
    [reflexivity | repeat split | cbn; lia].
Defined.

(** X5: for a valid midnight key before year 9999 the week branch of
    [_get_period_end] returns the last microsecond of the sixth day after
    the key; for a Monday key that day is a Sunday. *)
Theorem week_period_end (k : datetime) :
  dt_ok k -> at_midnight k -> year k <= 9998 ->
  exists r, _get_period_end k "week" = Ok r /\
            toordinal r = toordinal k + 6 /\
            hour r = 23 /\ minute r = 59 /\ second r = 59 /\
            microsecond r = 999999 /\
            (weekday k = 0 -> weekday r = 6).
Proof.
  intros H T Y. destruct (dt_ok_inv k H) as (C & Y0 & _).
  unfold _get_period_end. string_eqb.
  destruct (add_days_forward k 7 H Y ltac:(lia))
    as (d & -> & O & Od & _ & U1 & U2 & U3 & U4).
  cbn [bind]. destruct (dt_ok_inv d O) as (Cd & _).
  pose proof (prev_day_ordinal d Cd) as P.
  pose proof (prev_day_cal d Cd) as Cp.
  assert (1 <= toordinal k) as K1 by (apply (toordinal_year_pos k C); lia).
  rewrite sub_microsecond_midnight.
  - exists (end_of_day (prev_day d)). split; [reflexivity|].
    assert (toordinal (end_of_day (prev_day d)) = toordinal k + 6) as R.
    { unfold end_of_day, toordinal in *. cbn [year month day]. lia. }
    split; [exact R|]. cbn [end_of_day hour minute second microsecond].
    repeat split. unfold weekday. rewrite R. intros W.
    Z.to_euclidean_division_equations. lia.
  - destruct T as (T1 & T2 & T3 & T4). unfold at_midnight.
    repeat split; congruence.
  - apply (toordinal_year_pos _ Cp). lia.
Qed.

Lemma week_period_end_witness :
  exists r, _get_period_end (midnight 2023 1 2) "week" = Ok r /\
            toordinal r = toordinal (midnight 2023 1 2) + 6 /\
            hour r = 23 /\ minute r = 59 /\ second r = 59 /\
            microsecond r = 999999 /\
            (weekday (midnight 2023 1 2) = 0 -> weekday r = 6).
Proof.
  apply (week_period_end (midnight 2023 1 2));
    [reflexivity | repeat split | cbn; lia].
Defined.

(** ** Buckets *)

Lemma dt_eqb_refl (a : datetime) : dt_eqb a a = true.
Proof. now apply dt_eqb_eq. Qed.

Lemma dt_eqb_sym (a b : datetime) : dt_eqb a b = dt_eqb b a.
Proof.
  destruct (dt_eqb a b) eqn:E1, (dt_eqb b a) eqn:E2; try reflexivity.
  - apply dt_eqb_eq in E1. subst b. now rewrite dt_eqb_refl in E2.
  - apply dt_eqb_eq in E2. subst b. now rewrite dt_eqb_refl in E1.
Qed.

Section BucketFacts.

Context {A : Type}.
Implicit Types (periods : @period_dict A) (items : list A).

Lemma dict_mem_In periods key :
  dict_mem key periods = true <-> In key (map fst periods).
Proof.
  induction periods as [|[k v] rest IH]; cbn; [split; [discriminate | tauto]|].
  rewrite orb_true_iff, IH, dt_eqb_eq. tauto.
Qed.

Lemma dict_set_nodup periods key value :
  NoDup (map fst periods) -> NoDup (map fst (dict_set periods key value)).
Proof.
  intros N. rewrite dict_set_keys. destruct (dict_mem key periods) eqn:E.
  - exact N.
  - apply NoDup_app; [exact N | repeat constructor; cbn; tauto |].
    intros x Hx [<- | []]. apply dict_mem_In in Hx. congruence.
Qed.

Lemma dict_get_set periods key value k :
  dict_get (dict_set periods key value) k =
  if dt_eqb key k then Some value else dict_get periods k.
Proof.
  induction periods as [|[k0 v] rest IH]; cbn; [reflexivity|].
  destruct (dt_eqb k0 key) eqn:E0; cbn.
  - apply dt_eqb_eq in E0. subst k0. now destruct (dt_eqb key k).
  - destruct (dt_eqb k0 k) eqn:E1; [|exact IH].
    apply dt_eqb_eq in E1. subst k0. now rewrite dt_eqb_sym, E0.
Qed.

Lemma dict_get_append periods key item k :
  dict_get (dict_append periods key item) k =
  if dt_eqb key k
  then option_map (fun b => b ++ [item]) (dict_get periods k)
  else dict_get periods k.
Proof.
  induction periods as [|[k0 v] rest IH]; cbn.
  - now destruct (dt_eqb key k).
  - destruct (dt_eqb k0 key) eqn:E0; cbn.
    + apply dt_eqb_eq in E0. subst k0. now destruct (dt_eqb key k).
    + destruct (dt_eqb k0 k) eqn:E1; [|exact IH].
      apply dt_eqb_eq in E1. subst k0. now rewrite dt_eqb_sym, E0.
Qed.

Lemma dict_get_not_mem periods k :
  dict_mem k periods = false -> dict_get periods k = None.
Proof.
  induction periods as [|[k0 v] rest IH]; cbn; [reflexivity|].
  intros H. apply orb_false_elim in H as [-> H]. auto.
Qed.

Lemma In_dict_get periods k b :
  NoDup (map fst periods) -> In (k, b) periods -> dict_get periods k = Some b.
Proof.
  induction periods as [|[k0 v] rest IH]; cbn; [tauto|].
  intros N [E | I]; inversion N as [|? ? NI N']; subst.
  - injection E as -> ->. now rewrite dt_eqb_refl.
  - destruct (dt_eqb k0 k) eqn:E0; [|auto].
    apply dt_eqb_eq in E0. subst k0. exfalso. apply NI.
    apply (in_map fst) in I. exact I.
Qed.

(** The [while] loop keeps the keys distinct and every bucket empty. *)
Lemma generate_periods_fresh fuel period current_date end_date periods ps :
  generate_periods fuel period current_date end_date periods = Ok ps ->
  NoDup (map fst periods) ->
  (forall k b, dict_get periods k = Some b -> b = []) ->
  NoDup (map fst ps) /\ (forall k b, dict_get ps k = Some b -> b = []).
Proof.
  revert current_date periods.
  induction fuel as [|fuel IH]; intros cur periods; cbn [generate_periods];
    destruct (dt_leb cur end_date); intros H N Em;
    try discriminate; try (injection H as <-; auto).
  bind_inv H. bind_inv H.
  apply (IH _ _ H); [apply dict_set_nodup, N|].
  intros k b. rewrite dict_get_set.
  destruct (dt_eqb a k); [congruence | apply Em].
Qed.

(** The item loop appends to the bucket of a key, in input order, exactly
    the items whose period start is that key, and touches no key. *)
Lemma group_items_buckets period (timestamp_key : A -> datetime) items
    periods ps :
  group_items period timestamp_key items periods = Ok ps ->
  map fst ps = map fst periods /\
  forall k,
    dict_get ps k =
    option_map
      (fun b => b ++ filter (fun x => starts_period period k (timestamp_key x))
                            items)
      (dict_get periods k).
Proof.
  revert periods.
  induction items as [|item rest IH]; intros periods H; cbn [group_items] in H.
  - injection H as <-. split; [reflexivity|]. intros k. cbn [filter].
    destruct (dict_get periods k); cbn; [now rewrite app_nil_r | reflexivity].
  - bind_inv H. destruct (IH _ H) as (K & G). split.
    + rewrite K. destruct (dict_mem a periods);
        [apply dict_append_keys | reflexivity].
    + intros k. rewrite G. cbn [filter].
      assert (starts_period period k (timestamp_key item) = dt_eqb a k) as ->
        by (unfold starts_period; now rewrite E).
      destruct (dict_mem a periods) eqn:Mem.
      * rewrite dict_get_append. destruct (dt_eqb a k); [|reflexivity].
        destruct (dict_get periods k); cbn; [|reflexivity].
        now rewrite <- app_assoc.
      * destruct (dt_eqb a k) eqn:Ek; [|reflexivity].
        apply dt_eqb_eq in Ek. subst k.
        now rewrite (dict_get_not_mem _ _ Mem).
Qed.

End BucketFacts.

(** Keys and buckets of [_group_by_period]. *)
Lemma group_by_period_spec {A : Type} (items items' : list A)
    (period : string) (start_date end_date : datetime)
    (timestamp_key : A -> datetime) (ps ps' : list (datetime * list A)) :
  _group_by_period items period start_date end_date timestamp_key = Ok ps ->
  _group_by_period items' period start_date end_date timestamp_key = Ok ps' ->
  NoDup (map fst ps) /\
  (forall k b, In (k, b) ps ->
     b = filter (fun x => starts_period period k (timestamp_key x)) items) /\
  map fst ps' = map fst ps.
Proof.
  unfold _group_by_period. intros H H'. bind_inv H. bind_inv H'.
  rewrite E in E0. injection E0 as <-.
  destruct (generate_periods_fresh _ _ _ _ _ _ E) as (N & Em);
    [constructor | discriminate|].
  destruct (group_items_buckets _ _ _ _ _ H) as (K & G).
  destruct (group_items_buckets _ _ _ _ _ H') as (K' & _).
  split; [now rewrite K|]. split; [|congruence].
  intros k b I. assert (NoDup (map fst ps)) as N' by now rewrite K.
  pose proof (In_dict_get _ _ _ N' I) as Gk. rewrite G in Gk.
  destruct (dict_get a k) as [b0|] eqn:G0; [|discriminate].
  cbn in Gk. injection Gk as <-. now rewrite (Em _ _ G0).
Qed.

(** X6: when [_group_by_period] returns, its keys are pairwise distinct
    and the bucket of each key holds, in input order, exactly the items
    whose own period start is that key; so an item is in at most one
    bucket, and an item whose period start is not a generated key is in
    none. The keys are the same for any other list of items. *)
Theorem group_by_period_buckets {A : Type} (items items' : list A)
    (period : string) (start_date end_date : datetime)
    (timestamp_key : A -> datetime) (ps ps' : list (datetime * list A)) :
  _group_by_period items period start_date end_date timestamp_key = Ok ps ->
  _group_by_period items' period start_date end_date timestamp_key = Ok ps' ->
  NoDup (map fst ps) /\
  (forall k b, In (k, b) ps ->
     b = filter (fun x => starts_period period k (timestamp_key x)) items) /\
  map fst ps' = map fst ps.
Proof. apply @group_by_period_spec. Qed.

Lemma group_by_period_buckets_witness :
  NoDup (map fst [(midnight 2023 1 4, @nil Session.t);
                  (midnight 2023 1 5, [thursday_session])]) /\
  (forall k b,
     In (k, b) [(midnight 2023 1 4, []);
                (midnight 2023 1 5, [thursday_session])] ->
     b = filter (fun x => starts_period "day" k (Session.start_time x))
                [thursday_session]) /\
  map fst [(midnight 2023 1 4, @nil Session.t); (midnight 2023 1 5, [])] =
  map fst [(midnight 2023 1 4, @nil Session.t);
           (midnight 2023 1 5, [thursday_session])].
Proof.
  apply (group_by_period_buckets [thursday_session] [] "day"
           wednesday_morning (mkDatetime 2023 1 5 10 30 0 0)
           Session.start_time);
    vm_compute; reflexivity.
Defined.

Lemma filter_disjoint_length {A : Type} (f g : A -> bool) (l : list A) :
  (forall x, f x = true -> g x = true -> False) ->
  List.length (filter (fun x => f x || g x) l) =
  (List.length (filter f l) + List.length (filter g l))%nat.
Proof.
  intros D. induction l as [|x l IH]; cbn; [reflexivity|].
  destruct (f x) eqn:F, (g x) eqn:G; cbn; try lia.
  exfalso. eauto.
Qed.

Lemma starts_period_unique (period : string) (k k' d : datetime) :
  starts_period period k d = true -> starts_period period k' d = true ->
  k = k'.
Proof.
  unfold starts_period. destruct (_get_period_start d period); try discriminate.
  intros H1 H2. apply dt_eqb_eq in H1, H2. congruence.
Qed.

Lemma bucket_total_filter {A : Type} (period : string)
    (timestamp_key : A -> datetime) (items : list A)
    (ps : list (datetime * list A)) :
  NoDup (map fst ps) ->
  (forall k b, In (k, b) ps ->
     b = filter (fun x => starts_period period k (timestamp_key x)) items) ->
  bucket_total ps =
  List.length
    (filter (fun x => in_some_period period (map fst ps) (timestamp_key x))
            items).
Proof.
  induction ps as [|[k b] rest IH]; intros N B.
  - unfold in_some_period. cbn. clear N B.
    induction items as [|x l IHl]; cbn; [reflexivity | exact IHl].
  - cbn [map fst] in N. inversion N as [|? ? NI N']; subst.
    cbn [bucket_total fold_right snd map fst in_some_period existsb].
    fold (@bucket_total A rest). rewrite IH; [|exact N'|].
    2:{ intros k' b' I. apply B. now right. }
    rewrite (B k b (or_introl eq_refl)) at 1.
    rewrite <- filter_disjoint_length; [reflexivity|].
    intros x Hk Hr. unfold in_some_period in Hr.
    apply existsb_exists in Hr as (k' & I & Hk').
    pose proof (starts_period_unique _ _ _ _ Hk Hk'). subst k'. auto.
Qed.

(** X7: when [_group_by_period] returns, the buckets together hold as many
    items as there are items whose period start is one of the generated
    keys: no item is counted twice and the other items are counted in no
    bucket. *)
Theorem group_by_period_total {A : Type} (items : list A) (period : string)
    (start_date end_date : datetime) (timestamp_key : A -> datetime)
    (ps : list (datetime * list A)) :
  _group_by_period items period start_date end_date timestamp_key = Ok ps ->
  bucket_total ps =
  List.length
    (filter (fun x => in_some_period period (map fst ps) (timestamp_key x))
            items) /\
  (bucket_total ps <= List.length items)%nat.
Proof.
  intros H.
  destruct (group_by_period_spec items items period start_date end_date
              timestamp_key ps ps H H) as (N & B & _).
  rewrite (bucket_total_filter period timestamp_key items ps N B).
  split; [reflexivity | apply filter_length_le].
Qed.

Lemma group_by_period_total_witness :
  bucket_total [(mkDatetime 2023 1 2 10 30 0 0, @nil Session.t)] =
  List.length
    (filter (fun x => in_some_period "week"
                        (map fst [(mkDatetime 2023 1 2 10 30 0 0,
                                   @nil Session.t)])
                        (Session.start_time x))
            [thursday_session]) /\
  (bucket_total [(mkDatetime 2023 1 2 10 30 0 0, @nil Session.t)]
   <= List.length [thursday_session])%nat.
Proof.
  apply (group_by_period_total [thursday_session] "week" wednesday_morning
           (mkDatetime 2023 1 8 10 30 0 0) Session.start_time).
  vm_compute. reflexivity.
Defined.

(** ** The frequency and the duration rule *)

Section CheckPeriods.

Context {A : Type}.
Implicit Types (periods : @period_dict A).

Lemma check_periods_inv (count_key period : string) (frequency : Z) periods
    (fulfilled_periods : Z) (entries : list pyval) (r : Z * list pyval) :
  check_periods count_key period frequency periods fulfilled_periods entries
    = Ok r ->
  fst r = fulfilled_periods +
          Z.of_nat (List.length (filter (period_satisfied frequency) periods))
  /\ List.length (snd r) = (List.length entries + List.length periods)%nat.
Proof.
  revert fulfilled_periods entries.
  induction periods as [|[k sessions] rest IH]; intros fp entries H;
    cbn [check_periods] in H.
  - injection H as <-. cbn. split; lia.
  - bind_inv H. destruct (IH _ _ H) as (F & L). rewrite F, L.
    rewrite length_app. cbn [filter List.length].
    unfold period_satisfied at 2. cbn [snd].
    destruct (frequency <=? Z.of_nat (List.length sessions));
      cbn [List.length]; split; lia.
Qed.

(** Whether the loop over the periods returns does not depend on the
    frequency or on the key of the count. *)
Lemma check_periods_any (count_key count_key' period : string)
    (frequency frequency' : Z) periods (fp fp' : Z)
    (entries entries' : list pyval) (r : Z * list pyval) :
  check_periods count_key period frequency periods fp entries = Ok r ->
  exists r',
    check_periods count_key' period frequency' periods fp' entries' = Ok r'.
Proof.
  revert fp fp' entries entries'.
  induction periods as [|[k sessions] rest IH]; intros fp fp' en en' H;
    cbn [check_periods] in *.
  - eauto.
  - bind_inv H. rewrite E. cbn [bind]. eapply IH, H.
Qed.

Lemma satisfied_monotone (frequency frequency' : Z) periods :
  frequency' <= frequency ->
  (List.length (filter (period_satisfied frequency) periods)
   <= List.length (filter (period_satisfied frequency') periods))%nat.
Proof.
  intros L. induction periods as [|[k b] rest IH]; cbn [filter]; [lia|].
  destruct (period_satisfied frequency (k, b)) eqn:E1,
           (period_satisfied frequency' (k, b)) eqn:E2;
    unfold period_satisfied in E1, E2; cbn [snd] in E1, E2;
    unbool; cbn [List.length]; lia.
Qed.

End CheckPeriods.

Lemma fulfillment_iff (satisfied total : Z) :
  0 <= satisfied <= total ->
  exists pct, fulfillment satisfied total = Ok pct /\
              (Qle_bool 1 pct = true <-> 1 <= total /\ satisfied = total).
Proof.
  intros S. destruct (Z_lt_le_dec total 1) as [T | T].
  - assert (total = 0) as -> by lia. exists 0%Q. split; [reflexivity|].
    split; [discriminate | lia].
  - destruct (fulfillment_all satisfied total S T) as (pct & E & I).
    exists pct. split; [exact E|]. rewrite I. lia.
Qed.

(** The verdict computed by the common tail of the two rules. *)
Lemma rule_tail {A : Type} (count_key period : string) (frequency : Z)
    (periods : list (datetime * list A)) (r : Z * list pyval) :
  check_periods count_key period frequency periods 0 [] = Ok r ->
  let satisfied :=
    Z.of_nat (List.length (filter (period_satisfied frequency) periods)) in
  let total := Z.of_nat (List.length periods) in
  fst r = satisfied /\ List.length (snd r) = List.length periods /\
  0 <= satisfied <= total /\
  exists pct, fulfillment satisfied total = Ok pct /\
              (Qle_bool 1 pct = true <-> 1 <= total /\ satisfied = total).
Proof.
  intros H. cbv zeta. destruct (check_periods_inv _ _ _ _ _ _ _ H) as (F & L).
  pose proof (satisfied_le_total frequency periods) as LE.
  split; [rewrite F; lia|]. split; [exact L|]. split; [lia|].
  apply fulfillment_iff. lia.
Qed.

(** X8: whenever the frequency or the duration rule returns a verdict,
    its details report 0 <= fulfilled_periods <= total_periods, the
    [periods] list has total_periods entries, and the verdict is fulfilled
    exactly when there is at least one period and every period is
    satisfied. *)
Theorem period_rule_details (promise : Promise.t) (evidence : Evidence.t)
    (v : Verdict.t) :
  Promise.type promise = Some "exercise_frequency" \/
  Promise.type promise = Some "exercise_duration" ->
  evaluate __init__ promise evidence = Ok v ->
  exists fulfilled_periods total_periods entries,
    py_get "fulfilled_periods" (Verdict.details v)
      = Some (PInt fulfilled_periods) /\
    py_get "total_periods" (Verdict.details v) = Some (PInt total_periods) /\
    py_get "periods" (Verdict.details v) = Some (PList entries) /\
    Z.of_nat (List.length entries) = total_periods /\
    0 <= fulfilled_periods <= total_periods /\
    (Verdict.fulfilled v = true <->
     1 <= total_periods /\ fulfilled_periods = total_periods).
Proof.
  intros T H. unfold evaluate in H.
  destruct T as [T | T]; rewrite T in H;
    cbn [__init__ rule_handlers find_handler] in H;
    cbv beta iota delta [String.eqb Ascii.eqb Bool.eqb] in H.
  - unfold _evaluate_exercise_frequency in H.
    do 4 bind_inv H. destruct a2 as [fp entries]. bind_inv H.
    injection H as <-. cbn [Verdict.fulfilled Verdict.details py_get].
    destruct (rule_tail _ _ _ _ _ E2) as (F & L & R & pct & Fm & I).
    cbn [fst snd] in F, L. subst fp. rewrite Fm in E3. injection E3 as <-.
    do 3 eexists. split; [reflexivity|]. split; [reflexivity|].
    split; [reflexivity|]. split; [now rewrite L|]. split; assumption.
  - unfold _evaluate_exercise_duration in H.
    do 4 bind_inv H. destruct a2 as [fp entries]. bind_inv H.
    injection H as <-. cbn [Verdict.fulfilled Verdict.details py_get].
    destruct (rule_tail _ _ _ _ _ E2) as (F & L & R & pct & Fm & I).
    cbn [fst snd] in F, L. subst fp. rewrite Fm in E3. injection E3 as <-.
    do 3 eexists. split; [reflexivity|]. split; [reflexivity|].
    split; [reflexivity|]. split; [now rewrite L|]. split; assumption.
Qed.

Lemma period_rule_details_witness :
  exists fulfilled_periods total_periods entries,
    py_get "fulfilled_periods"
           (PDict [("periods", PList []); ("total_periods", PInt 0);
                   ("fulfilled_periods", PInt 0);
                   ("qualifying_sessions", PInt 0)])
      = Some (PInt fulfilled_periods) /\
    py_get "total_periods"
           (PDict [("periods", PList []); ("total_periods", PInt 0);
                   ("fulfilled_periods", PInt 0);
                   ("qualifying_sessions", PInt 0)])
      = Some (PInt total_periods) /\
    py_get "periods"
           (PDict [("periods", PList []); ("total_periods", PInt 0);
                   ("fulfilled_periods", PInt 0);
                   ("qualifying_sessions", PInt 0)])
      = Some (PList entries) /\
    Z.of_nat (List.length entries) = total_periods /\
    0 <= fulfilled_periods <= total_periods /\
    (false = true <-> 1 <= total_periods /\ fulfilled_periods = total_periods).
Proof.
  apply (period_rule_details (backwards "exercise_duration") no_evidence
           (Verdict.mk false 1
              "The promise required exercising with a heart rate above 120 bpm for at least 25 minutes, 1 times per week. You met this requirement in 0 out of 0 weeks (0%)."
              (PDict [("periods", PList []); ("total_periods", PInt 0);
                      ("fulfilled_periods", PInt 0);
                      ("qualifying_sessions", PInt 0)]))).
  - right. reflexivity.
  - vm_compute. reflexivity.
Defined.

(** X9: lowering the required frequency never loses a fulfilled verdict:
    if the frequency or the duration rule judges a promise fulfilled with
    frequency [f], it returns a fulfilled verdict for every [f' <= f] on
    the same promise and evidence. *)
Theorem lower_frequency_keeps_fulfilled
    (ty : option string) (f f' : Z) (period : option string)
    (heart_rate_threshold duration_minutes max_gap_days : option Z)
    (start_date end_date : option datetime) (evidence : Evidence.t)
    (v : Verdict.t) :
  ty = Some "exercise_frequency" \/ ty = Some "exercise_duration" ->
  f' <= f ->
  evaluate __init__
    (Promise.mk ty (Some f) period heart_rate_threshold duration_minutes
                max_gap_days start_date end_date) evidence = Ok v ->
  Verdict.fulfilled v = true ->
  exists v',
    evaluate __init__
      (Promise.mk ty (Some f') period heart_rate_threshold duration_minutes
                  max_gap_days start_date end_date) evidence = Ok v' /\
    Verdict.fulfilled v' = true.
Proof.
  intros T L H Fv. unfold evaluate in *. cbn [Promise.type] in *.
  destruct T as [-> | ->];
    cbn [__init__ rule_handlers find_handler] in *;
    cbv beta iota delta [String.eqb Ascii.eqb Bool.eqb] in *.
  - unfold _evaluate_exercise_frequency in *.
    cbn [Promise.frequency Promise.period Promise.start_date Promise.end_date
         get_default] in *.
    do 4 bind_inv H. destruct a2 as [fp entries]. bind_inv H.
    injection H as <-. cbn [Verdict.fulfilled] in Fv.
    rewrite E, E0. cbn [bind]. rewrite E1. cbn [bind].
    destruct (check_periods_any "sessions_count" "sessions_count" _ f f' a1
                0 0 [] [] _ E2) as ([fp' entries'] & C').
    rewrite C'. cbn [bind].
    destruct (rule_tail _ _ _ _ _ E2) as (F & _ & R & pct & Fm & I).
    destruct (rule_tail _ _ _ _ _ C') as (F' & _ & R' & pct' & Fm' & I').
    cbn [fst] in F, F'. subst fp fp'. rewrite Fm in E3. injection E3 as <-.
    rewrite Fm'. cbn [bind]. eexists. split; [reflexivity|].
    cbn [Verdict.fulfilled]. apply I'. apply I in Fv.
    pose proof (satisfied_monotone f f' a1 L). lia.
  - unfold _evaluate_exercise_duration in *.
    cbn [Promise.frequency Promise.period Promise.start_date Promise.end_date
         Promise.heart_rate_threshold Promise.duration_minutes
         get_default] in *.
    do 4 bind_inv H. destruct a2 as [fp entries]. bind_inv H.
    injection H as <-. cbn [Verdict.fulfilled] in Fv.
    rewrite E, E0. cbn [bind]. rewrite E1. cbn [bind].
    destruct (check_periods_any "qualifying_sessions" "qualifying_sessions"
                _ f f' a1 0 0 [] [] _ E2) as ([fp' entries'] & C').
    rewrite C'. cbn [bind].
    destruct (rule_tail _ _ _ _ _ E2) as (F & _ & R & pct & Fm & I).
    destruct (rule_tail _ _ _ _ _ C') as (F' & _ & R' & pct' & Fm' & I').
    cbn [fst] in F, F'. subst fp fp'. rewrite Fm in E3. injection E3 as <-.
    rewrite Fm'. cbn [bind]. eexists. split; [reflexivity|].
    cbn [Verdict.fulfilled]. apply I'. apply I in Fv.
    pose proof (satisfied_monotone f f' a1 L). lia.
Qed.

Lemma lower_frequency_witness :
  exists v',
    evaluate __init__
      (Promise.mk (Some "exercise_frequency") (Some 1) (Some "week")
                  None None None
                  (Some (midnight 2023 1 2)) (Some (midnight 2023 1 15)))
      two_weeks_evidence = Ok v' /\
    Verdict.fulfilled v' = true.
Proof.
  eapply (lower_frequency_keeps_fulfilled (Some "exercise_frequency") 2 1
            (Some "week") None None None
            (Some (midnight 2023 1 2)) (Some (midnight 2023 1 15))
            two_weeks_evidence).
  - left. reflexivity.
  - lia.
  - vm_compute. reflexivity.
  - reflexivity.
Defined.

(** X10: the duration rule on a non-empty range (start <= end, a period
    of day, week or month, the range ending before year 9999) returns a
    verdict; the intervals that pass the heart-rate and duration filter
    are grouped by their start time; the verdict is fulfilled exactly when
    every generated period holds at least [frequency] of them; and the
    details report the two counts and the number of qualifying
    intervals. *)
Theorem duration_all_periods (promise : Promise.t) (evidence : Evidence.t)
    (start_date end_date : datetime) :
  Promise.type promise = Some "exercise_duration" ->
  Promise.start_date promise = Some start_date ->
  Promise.end_date promise = Some end_date ->
  known_period (get_default (Promise.period promise) "week") ->
  dt_ok start_date -> dt_ok end_date -> year end_date <= 9998 ->
  evidence_ok evidence ->
  dt_leb start_date end_date = true ->
  let qualifying :=
    filter (qualifies (get_default (Promise.heart_rate_threshold promise) 120)
                      (get_default (Promise.duration_minutes promise) 25))
           (get_default (Evidence.elevated_hr_periods evidence) []) in
  exists periods v,
    _group_by_period qualifying
      (get_default (Promise.period promise) "week") start_date end_date
      Interval.start_time = Ok periods /\
    evaluate __init__ promise evidence = Ok v /\
    let total_periods := Z.of_nat (List.length periods) in
    let satisfied_periods :=
      Z.of_nat (List.length
                  (filter (period_satisfied
                             (get_default (Promise.frequency promise) 1))
                          periods)) in
    1 <= total_periods /\
    (Verdict.fulfilled v = true <-> satisfied_periods = total_periods) /\
    py_get "fulfilled_periods" (Verdict.details v)
      = Some (PInt satisfied_periods) /\
    py_get "total_periods" (Verdict.details v) = Some (PInt total_periods) /\
    py_get "qualifying_sessions" (Verdict.details v)
      = Some (PInt (Z.of_nat (List.length qualifying))).
Proof.
  intros T S E P Hs He Y V L. cbv zeta.
  destruct (group_by_period_ok _ _ start_date end_date Interval.start_time
              P Hs He Y
              (evidence_ok_intervals evidence
                 (qualifies
                    (get_default (Promise.heart_rate_threshold promise) 120)
                    (get_default (Promise.duration_minutes promise) 25)) V))
    as (periods & G & K & N).
  specialize (N L).
  destruct (check_periods_ok "qualifying_sessions"
              (get_default (Promise.period promise) "week")
              (get_default (Promise.frequency promise) 1) periods 0 [] P K)
    as (entries & C).
  pose proof (satisfied_le_total (get_default (Promise.frequency promise) 1)
                                 periods) as LE.
  assert (1 <= Z.of_nat (List.length periods)) as T1.
  { destruct periods; [congruence | cbn [List.length]; lia]. }
  destruct (fulfillment_all
              (Z.of_nat (List.length
                 (filter (period_satisfied
                            (get_default (Promise.frequency promise) 1))
                         periods)))
              (Z.of_nat (List.length periods)) ltac:(lia) T1)
    as (pct & Fm & Iff).
  exists periods. eexists. split; [exact G|]. split.
  - unfold evaluate. rewrite T. cbn [__init__ rule_handlers find_handler].
    string_eqb. unfold _evaluate_exercise_duration. rewrite S, E.
    cbn [fromisoformat_get bind]. rewrite G. cbn [bind]. rewrite C.
    cbn [bind]. rewrite Z.add_0_l. rewrite Fm. cbn [bind]. reflexivity.
  - cbn [Verdict.fulfilled Verdict.details].
    split; [exact T1|]. split; [exact Iff|]. repeat split.
Qed.

(** One day, one interval that qualifies and one that does not. *)
Lemma duration_all_periods_witness :
  let evidence :=
    Evidence.mk []
      None
      (Some [Interval.mk (at_minute 2) (at_minute 5) (Some 3%Q)
                         (Some (245 # 2)%Q);
             Interval.mk (at_minute 10) (at_minute 11) (Some 1%Q)
                         (Some 150%Q)]) in
  let qualifying :=
    filter (qualifies 120 2)
           (get_default (Evidence.elevated_hr_periods evidence) []) in
  exists periods v,
    _group_by_period qualifying "day" (midnight 2023 1 2) (midnight 2023 1 2)
      Interval.start_time = Ok periods /\
    evaluate __init__ duration_demo evidence = Ok v /\
    let total_periods := Z.of_nat (List.length periods) in
    let satisfied_periods :=
      Z.of_nat (List.length (filter (period_satisfied 1) periods)) in
    1 <= total_periods /\
    (Verdict.fulfilled v = true <-> satisfied_periods = total_periods) /\
    py_get "fulfilled_periods" (Verdict.details v)
      = Some (PInt satisfied_periods) /\
    py_get "total_periods" (Verdict.details v) = Some (PInt total_periods) /\
    py_get "qualifying_sessions" (Verdict.details v)
      = Some (PInt (Z.of_nat (List.length qualifying))).
Proof.
  cbv zeta.
  apply (duration_all_periods duration_demo
           (Evidence.mk [] None
              (Some [Interval.mk (at_minute 2) (at_minute 5) (Some 3%Q)
                                 (Some (245 # 2)%Q);
                     Interval.mk (at_minute 10) (at_minute 11) (Some 1%Q)
                                 (Some 150%Q)]))
           (midnight 2023 1 2) (midnight 2023 1 2));
    try reflexivity.
  - left. reflexivity.
  - cbn. lia.
Defined.

(** X11: the intervals that fail the filter of the duration rule have no
    influence on the outcome: dropping them from [elevated_hr_periods]
    beforehand gives the same outcome, for every promise. *)
Theorem non_qualifying_intervals_ignored (promise : Promise.t)
    (hr_data : list Sample.t) (sessions : option (list Session.t))
    (intervals : list Interval.t) :
  evaluate __init__ promise (Evidence.mk hr_data sessions (Some intervals)) =
  evaluate __init__ promise
    (Evidence.mk hr_data sessions
       (Some (filter
                (qualifies
                   (get_default (Promise.heart_rate_threshold promise) 120)
                   (get_default (Promise.duration_minutes promise) 25))
                intervals))).
Proof.
  unfold evaluate.
  destruct (Promise.type promise) as [name|]; [|reflexivity].
  destruct (find_handler name (rule_handlers __init__)) eqn:F; [|reflexivity].
  unfold __init__ in F. cbn [rule_handlers find_handler] in F.
  destruct (String.eqb "exercise_frequency" name);
    [injection F as <-; reflexivity|].
  destruct (String.eqb "exercise_duration" name).
  - injection F as <-. unfold _evaluate_exercise_duration.
    cbn [Evidence.elevated_hr_periods get_default].
    set (q := qualifies _ _).
    assert (filter q (filter q intervals) = filter q intervals) as ->;
      [|reflexivity].
    induction intervals as [|i l IH]; cbn; [reflexivity|].
    destruct (q i) eqn:Q; cbn; [rewrite Q; now f_equal | exact IH].
  - destruct (String.eqb "exercise_consistency" name);
      [injection F as <-; reflexivity | discriminate].
Qed.

(** ** The rules against the interpretive mock *)

Lemma all_satisfied_head {A : Type} (frequency : Z)
    (periods : list (datetime * list A)) :
  1 <= Z.of_nat (List.length periods) ->
  Z.of_nat (List.length (filter (period_satisfied frequency) periods)) =
    Z.of_nat (List.length periods) ->
  exists k b, In (k, b) periods /\ frequency <= Z.of_nat (List.length b).
Proof.
  destruct periods as [|[k b] rest]; cbn [List.length filter]; [lia|].
  intros _ H. exists k, b. split; [now left|].
  destruct (period_satisfied frequency (k, b)) eqn:E.
  - unfold period_satisfied in E. cbn [snd] in E. unbool. exact E.
  - pose proof (satisfied_le_total frequency rest). lia.
Qed.

(** A fulfilled verdict of one of the two period rules shows a bucket of
    at least [frequency] items taken from the grouped list. *)
Lemma fulfilled_bucket {A : Type} (count_key period : string) (frequency : Z)
    (items : list A) (start_date end_date : datetime)
    (timestamp_key : A -> datetime) (periods : list (datetime * list A))
    (r : Z * list pyval) (pct : Q) :
  _group_by_period items period start_date end_date timestamp_key
    = Ok periods ->
  check_periods count_key period frequency periods 0 [] = Ok r ->
  fulfillment (fst r) (Z.of_nat (List.length periods)) = Ok pct ->
  Qle_bool 1 pct = true ->
  frequency <= Z.of_nat (List.length items).
Proof.
  intros G C Fm Fv.
  destruct (rule_tail _ _ _ _ _ C) as (F & _ & R & pct' & Fm' & I).
  rewrite F in Fm. rewrite Fm' in Fm. injection Fm as ->.
  apply I in Fv as [T1 All].
  destruct (all_satisfied_head frequency periods T1 All) as (k & b & In_b & Le).
  destruct (group_by_period_spec items items period start_date end_date
              timestamp_key periods periods G G) as (_ & B & _).
  rewrite (B k b In_b) in Le.
  pose proof (filter_length_le
                (fun x => starts_period period k (timestamp_key x)) items).
  lia.
Qed.

(** X12: whenever the frequency rule of the rule-based evaluator judges a
    promise fulfilled, so does the mock of the interpretive evaluator on
    the same promise and evidence. *)
Theorem frequency_rule_implies_mock (promise : Promise.t)
    (evidence : Evidence.t) (v : Verdict.t) (prompt : string) :
  Promise.type promise = Some "exercise_frequency" ->
  evaluate __init__ promise evidence = Ok v ->
  Verdict.fulfilled v = true ->
  Verdict.fulfilled (LLMEvaluator._mock_llm_call prompt promise evidence)
    = true.
Proof.
  intros T H Fv. unfold evaluate in H. rewrite T in H.
  cbn [__init__ rule_handlers find_handler] in H.
  cbv beta iota delta [String.eqb Ascii.eqb Bool.eqb] in H.
  unfold _evaluate_exercise_frequency in H.
  do 4 bind_inv H. destruct a2 as [fp entries]. bind_inv H.
  injection H as <-. cbn [Verdict.fulfilled] in Fv.
  pose proof (fulfilled_bucket _ _ _ _ _ _ _ _ (fp, entries) _ E1 E2 E3 Fv)
    as Le.
  unfold LLMEvaluator._mock_llm_call. rewrite T. cbn [get_default].
  string_eqb. cbn [Verdict.fulfilled]. now apply Z.leb_le.
Qed.

Lemma frequency_rule_implies_mock_witness :
  Verdict.fulfilled
    (LLMEvaluator._mock_llm_call ""
       (Promise.mk (Some "exercise_frequency") (Some 2) (Some "week")
                   None None None
                   (Some (midnight 2023 1 2)) (Some (midnight 2023 1 15)))
       two_weeks_evidence) = true.
Proof.
  eapply (frequency_rule_implies_mock
            (Promise.mk (Some "exercise_frequency") (Some 2) (Some "week")
                        None None None
                        (Some (midnight 2023 1 2)) (Some (midnight 2023 1 15)))
            two_weeks_evidence).
  - reflexivity.
  - vm_compute. reflexivity.
  - reflexivity.
Defined.

(** X13: whenever the duration rule judges a promise with a frequency of
    at least 1 fulfilled, so does the mock of the interpretive evaluator
    on the same promise and evidence. *)
Theorem duration_rule_implies_mock (promise : Promise.t)
    (evidence : Evidence.t) (v : Verdict.t) (prompt : string) :
  Promise.type promise = Some "exercise_duration" ->
  1 <= get_default (Promise.frequency promise) 1 ->
  evaluate __init__ promise evidence = Ok v ->
  Verdict.fulfilled v = true ->
  Verdict.fulfilled (LLMEvaluator._mock_llm_call prompt promise evidence)
    = true.
Proof.
  intros T F1 H Fv. unfold evaluate in H. rewrite T in H.
  cbn [__init__ rule_handlers find_handler] in H.
  cbv beta iota delta [String.eqb Ascii.eqb Bool.eqb] in H.
  unfold _evaluate_exercise_duration in H.
  do 4 bind_inv H. destruct a2 as [fp entries]. bind_inv H.
  injection H as <-. cbn [Verdict.fulfilled] in Fv.
  pose proof (fulfilled_bucket _ _ _ _ _ _ _ _ (fp, entries) _ E1 E2 E3 Fv)
    as Le.
  unfold LLMEvaluator._mock_llm_call. rewrite T. cbn [get_default].
  string_eqb. cbn [Verdict.fulfilled]. apply Z.ltb_lt. lia.
Qed.

Lemma duration_rule_implies_mock_witness :
  Verdict.fulfilled
    (LLMEvaluator._mock_llm_call "" duration_demo
       (Evidence.mk [] None
          (Some [Interval.mk (at_minute 2) (at_minute 5) (Some 3%Q)
                             (Some (245 # 2)%Q)]))) = true.
Proof.
  eapply (duration_rule_implies_mock duration_demo
            (Evidence.mk [] None
               (Some [Interval.mk (at_minute 2) (at_minute 5) (Some 3%Q)
                                  (Some (245 # 2)%Q)]))).
  - reflexivity.
  - cbn. lia.
  - vm_compute. reflexivity.
  - reflexivity.
Defined.

(** ** More on the consistency rule *)

Lemma stretches_length (previous_end end_date : datetime)
    (l : list Session.t) :
  List.length (stretches previous_end l end_date) = S (List.length l).
Proof.
  revert previous_end. induction l as [|s l IH]; intros p; cbn;
    [reflexivity | now rewrite IH].
Qed.

Lemma long_stretches_exceed (max_gap_days : Z)
    (l : list (datetime * datetime)) :
  Forall (fun g => max_gap_days < gap_days g /\
                   gap_days g = whole_days (gap_start g) (gap_end g))
         (long_stretches max_gap_days l) /\
  (List.length (long_stretches max_gap_days l) <= List.length l)%nat.
Proof.
  unfold long_stretches. split.
  - apply Forall_forall. intros g Hg. apply in_map_iff in Hg as (ab & <- & I).
    apply filter_In in I as [_ I]. unbool. cbn. auto.
  - rewrite length_map. apply filter_length_le.
Qed.

(** X14: with both dates present the consistency rule always returns a
    verdict; every gap it records is longer than [max_gap_days] whole
    days, its [gap_days] being the whole days from [gap_start] to
    [gap_end]; there is at most one gap more than there are sessions; and
    the details report the number of recorded gaps as [gaps_found]. *)
Theorem consistency_gaps_exceed (promise : Promise.t) (evidence : Evidence.t)
    (start_date end_date : datetime) :
  Promise.type promise = Some "exercise_consistency" ->
  Promise.start_date promise = Some start_date ->
  Promise.end_date promise = Some end_date ->
  let sessions := get_default (Evidence.exercise_sessions evidence) [] in
  let max_gap_days := get_default (Promise.max_gap_days promise) 7 in
  let gaps := find_gaps max_gap_days start_date end_date sessions in
  Forall (fun g => max_gap_days < gap_days g /\
                   gap_days g = whole_days (gap_start g) (gap_end g)) gaps /\
  (List.length gaps <= List.length sessions + 1)%nat /\
  exists v,
    evaluate __init__ promise evidence = Ok v /\
    py_get "gaps_found" (Verdict.details v)
      = Some (PInt (Z.of_nat (List.length gaps))) /\
    py_get "max_gap_days" (Verdict.details v) = Some (PInt max_gap_days).
Proof.
  intros T S E. cbv zeta. rewrite find_gaps_stretches.
  destruct (long_stretches_exceed
              (get_default (Promise.max_gap_days promise) 7)
              (stretches start_date
                 (sorted_sessions
                    (get_default (Evidence.exercise_sessions evidence) []))
                 end_date)) as (F & L).
  split; [exact F|]. split.
  - rewrite stretches_length in L.
    rewrite <- (Permutation_length (sorted_sessions_perm _)) in L. lia.
  - unfold evaluate. rewrite T. cbn [__init__ rule_handlers find_handler].
    string_eqb. unfold _evaluate_exercise_consistency. rewrite S, E.
    cbn [fromisoformat_get bind]. rewrite find_gaps_stretches.
    eexists. split; [reflexivity|]. split; reflexivity.
Qed.

Lemma consistency_gaps_exceed_witness :
  let sessions := get_default (Evidence.exercise_sessions three_sessions) [] in
  let gaps :=
    find_gaps 7 (midnight 2023 1 2) (midnight 2023 1 22) sessions in
  Forall (fun g => 7 < gap_days g /\
                   gap_days g = whole_days (gap_start g) (gap_end g)) gaps /\
  (List.length gaps <= List.length sessions + 1)%nat /\
  exists v,
    evaluate __init__ twenty_days three_sessions = Ok v /\
    py_get "gaps_found" (Verdict.details v)
      = Some (PInt (Z.of_nat (List.length gaps))) /\
    py_get "max_gap_days" (Verdict.details v) = Some (PInt 7).
Proof.
  apply (consistency_gaps_exceed twenty_days three_sessions
           (midnight 2023 1 2) (midnight 2023 1 22)); reflexivity.
Defined.

Lemma long_stretches_monotone (m m' : Z) (l : list (datetime * datetime)) :
  m <= m' -> long_stretches m l = [] -> long_stretches m' l = [].
Proof.
  intros L. unfold long_stretches.
  induction l as [|ab l IH]; cbn [filter map]; [reflexivity|].
  destruct (m <? whole_days (fst ab) (snd ab)) eqn:E1; [discriminate|].
  destruct (m' <? whole_days (fst ab) (snd ab)) eqn:E2; unbool; [lia|].
  exact IH.
Qed.

(** X15: allowing longer gaps never loses a fulfilled verdict: if the
    consistency rule judges a promise fulfilled with [max_gap_days = m],
    it returns a fulfilled verdict for every [m' >= m] on the same promise
    and evidence. *)
Theorem longer_gap_keeps_fulfilled
    (frequency : option Z) (period : option string)
    (heart_rate_threshold duration_minutes : option Z) (m m' : Z)
    (start_date end_date : option datetime) (evidence : Evidence.t)
    (v : Verdict.t) :
  m <= m' ->
  evaluate __init__
    (Promise.mk (Some "exercise_consistency") frequency period
                heart_rate_threshold duration_minutes (Some m)
                start_date end_date) evidence = Ok v ->
  Verdict.fulfilled v = true ->
  exists v',
    evaluate __init__
      (Promise.mk (Some "exercise_consistency") frequency period
                  heart_rate_threshold duration_minutes (Some m')
                  start_date end_date) evidence = Ok v' /\
    Verdict.fulfilled v' = true.
Proof.
  intros L H Fv. unfold evaluate in *. cbn [Promise.type] in *.
  cbn [__init__ rule_handlers find_handler] in *.
  cbv beta iota delta [String.eqb Ascii.eqb Bool.eqb] in *.
  unfold _evaluate_exercise_consistency in *.
  cbn [Promise.max_gap_days Promise.start_date Promise.end_date
       get_default] in *.
  do 2 bind_inv H. injection H as <-. cbn [Verdict.fulfilled] in Fv.
  rewrite E, E0. cbn [bind]. eexists. split; [reflexivity|].
  cbn [Verdict.fulfilled]. rewrite find_gaps_stretches in *.
  apply Nat.eqb_eq in Fv. apply length_zero_iff_nil in Fv.
  now rewrite (long_stretches_monotone m m' _ L Fv).
Qed.

Lemma longer_gap_witness :
  exists v',
    evaluate __init__
      (Promise.mk (Some "exercise_consistency") None None None None (Some 9)
                  (Some (midnight 2023 1 2)) (Some (midnight 2023 1 22)))
      three_sessions = Ok v' /\
    Verdict.fulfilled v' = true.
Proof.
  eapply (longer_gap_keeps_fulfilled None None None None 8 9
            (Some (midnight 2023 1 2)) (Some (midnight 2023 1 22))
            three_sessions).
  - lia.
  - vm_compute. reflexivity.
  - reflexivity.
Defined.

Lemma dt_leb_antisym (a b : datetime) :
  dt_leb a b = true -> dt_leb b a = true -> a = b.
Proof.
  intros H1 H2. apply dt_eqb_eq. revert H1 H2.
  unfold dt_leb, dt_ltb, dt_eqb. bool_prop. lia.
Qed.

(** Two sorted lists with the same sessions, no two of which start at the
    same instant, are the same list. *)
Lemma sorted_unique (l1 l2 : list Session.t) :
  StronglySorted starts_before l1 -> StronglySorted starts_before l2 ->
  Permutation l1 l2 -> NoDup (map Session.start_time l1) -> l1 = l2.
Proof.
  intros S1. revert l2.
  induction S1 as [|a l1 S1 IH F1]; intros l2 S2 P N.
  - apply Permutation_nil in P. now subst.
  - destruct S2 as [|b l2 S2 F2].
    { apply Permutation_sym, Permutation_nil in P. discriminate. }
    assert (a = b) as <-.
    { cbn [map] in N. inversion N as [|? ? NI N']; subst.
      assert (In b (a :: l1)) as Ib
        by (apply (Permutation_in b (Permutation_sym P)); now left).
      assert (In a (b :: l2)) as Ia
        by (apply (Permutation_in a P); now left).
      destruct Ib as [-> | Ib]; [reflexivity|].
      destruct Ia as [-> | Ia]; [reflexivity|].
      rewrite Forall_forall in F1, F2.
      pose proof (F1 b Ib) as Lab. pose proof (F2 a Ia) as Lba.
      pose proof (dt_leb_antisym _ _ Lab Lba) as Eq.
      exfalso. apply NI. rewrite Eq. now apply in_map. }
    f_equal. apply IH; [exact S2 | eapply Permutation_cons_inv, P|].
    cbn [map] in N. now inversion N.
Qed.

Lemma sorted_sessions_permutation (l l' : list Session.t) :
  Permutation l l' -> NoDup (map Session.start_time l) ->
  sorted_sessions l = sorted_sessions l'.
Proof.
  intros P N. apply sorted_unique.
  - apply sorted_sessions_sorted.
  - apply sorted_sessions_sorted.
  - rewrite <- (sorted_sessions_perm l), <- (sorted_sessions_perm l'). exact P.
  - eapply Permutation_NoDup; [|exact N].
    apply Permutation_map, sorted_sessions_perm.
Qed.

(** X16: when no two sessions start at the same instant, the outcome of
    the consistency rule does not depend on the order in which the
    evidence lists the sessions. *)
Theorem consistency_order_independent (promise : Promise.t)
    (hr_data : list Sample.t) (sessions sessions' : list Session.t)
    (intervals : option (list Interval.t)) :
  Promise.type promise = Some "exercise_consistency" ->
  Permutation sessions sessions' ->
  NoDup (map Session.start_time sessions) ->
  evaluate __init__ promise (Evidence.mk hr_data (Some sessions) intervals) =
  evaluate __init__ promise (Evidence.mk hr_data (Some sessions') intervals).
Proof.
  intros T P N. unfold evaluate. rewrite T.
  cbn [__init__ rule_handlers find_handler]. string_eqb.
  unfold _evaluate_exercise_consistency, find_gaps.
  cbn [Evidence.exercise_sessions get_default].
  now rewrite (sorted_sessions_permutation _ _ P N).
Qed.

Lemma consistency_order_independent_witness :
  evaluate __init__ twenty_days
    (Evidence.mk [] (Some [hour_session 2023 1 16; hour_session 2023 1 2])
                 None) =
  evaluate __init__ twenty_days
    (Evidence.mk [] (Some [hour_session 2023 1 2; hour_session 2023 1 16])
                 None).
Proof.
  apply (consistency_order_independent twenty_days []
           [hour_session 2023 1 16; hour_session 2023 1 2]
           [hour_session 2023 1 2; hour_session 2023 1 16] None).
  - reflexivity.
  - apply perm_swap.
  - repeat constructor; cbn; intuition discriminate.
Defined.

(** ** The order of the evidence *)

Section OrderOfItems.

Context {A : Type}.
Implicit Types (periods : @period_dict A) (items : list A).

Lemma group_items_returns period (timestamp_key : A -> datetime) items
    periods :
  (exists ps, group_items period timestamp_key items periods = Ok ps) <->
  Forall (fun x => exists r,
            _get_period_start (timestamp_key x) period = Ok r) items.
Proof.
  revert periods. induction items as [|item rest IH]; intros periods;
    cbn [group_items].
  - split; [constructor | eauto].
  - split.
    + intros (ps & H). bind_inv H. constructor; [eauto|].
      eapply IH. eauto.
    + intros F. inversion F as [|? ? (r & E) F']; subst.
      rewrite E. cbn [bind]. apply IH, F'.
Qed.

Lemma buckets_as_map (F : datetime -> list A) periods :
  (forall k b, In (k, b) periods -> b = F k) ->
  periods = map (fun k => (k, F k)) (map fst periods).
Proof.
  induction periods as [|[k b] rest IH]; intros B; cbn; [reflexivity|].
  rewrite (B k b (or_introl eq_refl)). f_equal.
  apply IH. intros k' b' I. apply B. now right.
Qed.

Lemma check_periods_lengths (count_key period : string) (frequency : Z)
    (F F' : datetime -> list A) (keys : list datetime)
    (fp : Z) (entries : list pyval) :
  (forall k, List.length (F k) = List.length (F' k)) ->
  check_periods count_key period frequency
    (map (fun k => (k, F k)) keys) fp entries =
  check_periods count_key period frequency
    (map (fun k => (k, F' k)) keys) fp entries.
Proof.
  intros L. revert fp entries.
  induction keys as [|k keys IH]; intros fp entries; cbn [map check_periods];
    [reflexivity|].
  destruct (_get_period_end k period); cbn [bind]; try reflexivity.
  rewrite (L k). apply IH.
Qed.

Lemma filter_length_perm (f : A -> bool) (l l' : list A) :
  Permutation l l' ->
  List.length (filter f l) = List.length (filter f l').
Proof.
  induction 1 as [|x l l' _ IH|x y l|l l' l'' _ IH1 _ IH2]; cbn.
  - reflexivity.
  - destruct (f x); cbn; congruence.
  - destruct (f x), (f y); reflexivity.
  - congruence.
Qed.

(** Grouping a reordered list gives the same keys and buckets of the same
    sizes, so the loop over the periods computes the same. *)
Lemma group_check_perm (count_key period : string) (frequency : Z)
    items items' (start_date end_date : datetime)
    (timestamp_key : A -> datetime) periods :
  Permutation items items' ->
  _group_by_period items period start_date end_date timestamp_key
    = Ok periods ->
  exists periods',
    _group_by_period items' period start_date end_date timestamp_key
      = Ok periods' /\
    List.length periods' = List.length periods /\
    check_periods count_key period frequency periods' 0 [] =
    check_periods count_key period frequency periods 0 [].
Proof.
  intros P G.
  assert (exists periods',
            _group_by_period items' period start_date end_date timestamp_key
              = Ok periods') as (periods' & G').
  { unfold _group_by_period in *. bind_inv G. rewrite E. cbn [bind].
    apply group_items_returns.
    apply (Permutation_Forall P).
    apply (group_items_returns period timestamp_key items a). eauto. }
  exists periods'. split; [exact G'|].
  destruct (group_by_period_spec items items' period start_date end_date
              timestamp_key periods periods' G G') as (_ & B & K).
  destruct (group_by_period_spec items' items period start_date end_date
              timestamp_key periods' periods G' G) as (_ & B' & _).
  split.
  - rewrite <- (length_map fst periods'), K. apply length_map.
  - rewrite (buckets_as_map _ periods B), (buckets_as_map _ periods' B'), K.
    apply check_periods_lengths. intros k. symmetry.
    apply filter_length_perm, P.
Qed.

End OrderOfItems.

Lemma filter_perm {A : Type} (f : A -> bool) (l l' : list A) :
  Permutation l l' -> Permutation (filter f l) (filter f l').
Proof.
  induction 1 as [|x l l' _ IH|x y l|l l' l'' _ IH1 _ IH2]; cbn.
  - constructor.
  - destruct (f x); [now constructor | exact IH].
  - destruct (f x), (f y); try reflexivity. apply perm_swap.
  - now transitivity (filter f l').
Qed.

(** X17: the verdict of the frequency rule and of the duration rule does
    not depend on the order in which the evidence lists the sessions and
    the elevated intervals: if the rule returns a verdict on some
    evidence, it returns the same verdict on the reordered evidence. *)
Theorem period_rules_order_independent (promise : Promise.t)
    (hr_data : list Sample.t) (sessions sessions' : list Session.t)
    (intervals intervals' : list Interval.t) (v : Verdict.t) :
  Promise.type promise = Some "exercise_frequency" \/
  Promise.type promise = Some "exercise_duration" ->
  Permutation sessions sessions' ->
  Permutation intervals intervals' ->
  evaluate __init__ promise
    (Evidence.mk hr_data (Some sessions) (Some intervals)) = Ok v ->
  evaluate __init__ promise
    (Evidence.mk hr_data (Some sessions') (Some intervals')) = Ok v.
Proof.
  intros T Ps Pi H. unfold evaluate in *.
  destruct T as [T | T]; rewrite T in *;
    cbn [__init__ rule_handlers find_handler] in *;
    cbv beta iota delta [String.eqb Ascii.eqb Bool.eqb] in *.
  - unfold _evaluate_exercise_frequency in *.
    cbn [Evidence.exercise_sessions get_default] in *.
    do 3 bind_inv H. rewrite E, E0. cbn [bind].
    destruct (group_check_perm "sessions_count"
                (get_default (Promise.period promise) "week")
                (get_default (Promise.frequency promise) 1)
                _ _ _ _ _ _ Ps E1) as (ps' & -> & L & C).
    cbn [bind]. rewrite C, L. exact H.
  - unfold _evaluate_exercise_duration in *.
    cbn [Evidence.elevated_hr_periods get_default] in *.
    do 3 bind_inv H. rewrite E, E0. cbn [bind].
    set (q := qualifies _ _) in *.
    destruct (group_check_perm "qualifying_sessions"
                (get_default (Promise.period promise) "week")
                (get_default (Promise.frequency promise) 1)
                _ _ _ _ _ _ (filter_perm q _ _ Pi) E1) as (ps' & -> & L & C).
    cbn [bind]. rewrite C, L.
    rewrite <- (Permutation_length (filter_perm q _ _ Pi)). exact H.
Qed.

Lemma period_rules_order_independent_witness :
  exists v,
    evaluate __init__ two_weeks
      (Evidence.mk []
         (Some [session_at (midnight 2023 1 9); session_at (midnight 2023 1 2)])
         (Some [])) = Ok v /\
    evaluate __init__ two_weeks
      (Evidence.mk []
         (Some [session_at (midnight 2023 1 2); session_at (midnight 2023 1 9)])
         (Some [])) = Ok v.
Proof.
  eexists. split; [vm_compute; reflexivity|].
  apply (period_rules_order_independent two_weeks []
           [session_at (midnight 2023 1 9); session_at (midnight 2023 1 2)]
           [session_at (midnight 2023 1 2); session_at (midnight 2023 1 9)]
           [] []).
  - left. reflexivity.
  - apply perm_swap.
  - constructor.
  - vm_compute. reflexivity.
Defined.

(** ** The elevated heart-rate sweep *)

Section Sweep.

Variables (hr_data : list Sample.t) (threshold min_duration_minutes : Z).

Let step := TerraApiClient.sweep_step hr_data threshold min_duration_minutes.

Let open_ok (current : option datetime) : Prop :=
  forall s, current = Some s ->
  exists x, In x hr_data /\ Sample.timestamp x = s /\
            threshold <= Sample.heart_rate x.

Lemma sweep_step_reported (st : TerraApiClient.sweep_state) (x : Sample.t) :
  In x hr_data ->
  Forall (reported_interval hr_data threshold min_duration_minutes) (fst st) ->
  open_ok (snd st) ->
  Forall (reported_interval hr_data threshold min_duration_minutes)
         (fst (step st x)) /\
  open_ok (snd (step st x)).
Proof.
  intros Ix F O. destruct st as [periods current]. cbn [fst snd] in *.
  unfold step, TerraApiClient.sweep_step.
  destruct (threshold <=? Sample.heart_rate x) eqn:T; unbool.
  - destruct current as [s|]; cbn [fst snd]; split; auto.
    intros s' E. injection E as <-. exists x. auto.
  - destruct current as [s|]; cbn [fst snd]; [|split; assumption].
    split; [|intros s' E; discriminate].
    destruct (Qle_bool _ _) eqn:Q; [|exact F].
    apply Forall_app. split; [exact F|]. constructor; [|constructor].
    unfold reported_interval. cbn [Interval.start_time Interval.end_time
      Interval.duration_minutes Interval.average_heart_rate].
    split; [apply O; reflexivity|]. split; [exists x; auto|].
    repeat split. exact Q.
Qed.

Lemma sweep_fold_reported (l : list Sample.t)
    (st : TerraApiClient.sweep_state) :
  (forall x, In x l -> In x hr_data) ->
  Forall (reported_interval hr_data threshold min_duration_minutes) (fst st) ->
  open_ok (snd st) ->
  Forall (reported_interval hr_data threshold min_duration_minutes)
         (fst (fold_left step l st)) /\
  open_ok (snd (fold_left step l st)).
Proof.
  revert st. induction l as [|x l IH]; intros st Sub F O; cbn [fold_left].
  - auto.
  - destruct (sweep_step_reported st x (Sub x (or_introl eq_refl)) F O)
      as (F' & O').
    apply IH; auto. intros y Iy. apply Sub. now right.
Qed.

Lemma sweep_fold_quiet (l : list Sample.t) (periods : list Interval.t) :
  Forall (fun x => Sample.heart_rate x < threshold) l ->
  fold_left step l (periods, None) = (periods, None).
Proof.
  induction 1 as [|x l Hx _ IH]; cbn [fold_left]; [reflexivity|].
  unfold step at 2, TerraApiClient.sweep_step.
  destruct (threshold <=? Sample.heart_rate x) eqn:T; unbool; [lia|].
  exact IH.
Qed.

Lemma sweep_fold_open (l : list Sample.t) (periods : list Interval.t)
    (s : datetime) :
  Forall (fun x => threshold <= Sample.heart_rate x) l ->
  fold_left step l (periods, Some s) = (periods, Some s).
Proof.
  induction 1 as [|x l Hx _ IH]; cbn [fold_left]; [reflexivity|].
  unfold step at 2, TerraApiClient.sweep_step.
  destruct (threshold <=? Sample.heart_rate x) eqn:T; unbool; [|lia].
  exact IH.
Qed.

End Sweep.

Lemma last_In {A : Type} (l : list A) (d : A) : l <> [] -> In (last l d) l.
Proof.
  induction l as [|x l IH]; [congruence|]. intros _.
  destruct l as [|y l]; [now left|].
  right. apply IH. discriminate.
Qed.

(** X18: every interval that the sweep reports starts at the timestamp of
    a sample at or above the threshold and ends at the timestamp of a
    sample; its duration is the time between the two in minutes and is at
    least [min_duration_minutes]; its average is the one that
    [_calculate_average_hr] computes for the two timestamps. *)
Theorem sweep_reports_valid_intervals (hr_data : list Sample.t)
    (threshold min_duration_minutes : Z) :
  Forall (reported_interval hr_data threshold min_duration_minutes)
         (TerraApiClient.check_continuous_elevated_heart_rate
            hr_data threshold min_duration_minutes).
Proof.
  unfold TerraApiClient.check_continuous_elevated_heart_rate.
  destruct (sweep_fold_reported hr_data threshold min_duration_minutes
              hr_data ([], None)) as (F & O);
    [auto | constructor | intros s E; discriminate|].
  destruct (fold_left
              (TerraApiClient.sweep_step hr_data threshold
                                         min_duration_minutes)
              hr_data ([], None)) as [periods current].
  cbn [fst snd] in *. destruct current as [s|]; [|exact F].
  destruct (Qle_bool _ _) eqn:Q; [|exact F].
  apply Forall_app. split; [exact F|]. constructor; [|constructor].
  unfold reported_interval. cbn [Interval.start_time Interval.end_time
    Interval.duration_minutes Interval.average_heart_rate].
  destruct (O s eq_refl) as (x & Ix & Tx & Hx).
  split; [exists x; auto|]. split.
  - assert (map Sample.timestamp hr_data <> []) as NE
      by (destruct hr_data; [contradiction | discriminate]).
    pose proof (last_In _ s NE) as IL.
    apply in_map_iff in IL as (e & Ee & Ie). exists e. auto.
  - repeat split. exact Q.
Qed.

(** A series that stays below the threshold opens no interval. *)
Lemma sweep_no_elevated_sample (hr_data : list Sample.t)
    (threshold min_duration_minutes : Z) :
  Forall (fun x => Sample.heart_rate x < threshold) hr_data ->
  TerraApiClient.check_continuous_elevated_heart_rate
    hr_data threshold min_duration_minutes = [].
Proof.
  intros F. unfold TerraApiClient.check_continuous_elevated_heart_rate.
  now rewrite (sweep_fold_quiet hr_data threshold min_duration_minutes
                 hr_data [] F).
Qed.

(** X19: when no sample reaches the threshold (the empty series
    included) the sweep reports nothing. *)
Theorem sweep_below_threshold (hr_data : list Sample.t)
    (threshold min_duration_minutes : Z) :
  Forall (fun x => Sample.heart_rate x < threshold) hr_data ->
  TerraApiClient.check_continuous_elevated_heart_rate
    hr_data threshold min_duration_minutes = [].
Proof. apply sweep_no_elevated_sample. Qed.

Lemma sweep_below_threshold_witness :
  TerraApiClient.check_continuous_elevated_heart_rate sample_series 131 2
    = [].
Proof.
  apply (sweep_below_threshold sample_series 131 2).
  repeat constructor.
Defined.

(** X20: when every sample of a non-empty series is at or above the
    threshold, no interval is closed inside the series: the sweep reports
    the single interval from the first to the last sample if that lasts
    at least [min_duration_minutes], and nothing otherwise. *)
Theorem sweep_always_elevated (first : Sample.t) (rest : list Sample.t)
    (threshold min_duration_minutes : Z) :
  let hr_data := first :: rest in
  let start := Sample.timestamp first in
  let last_timestamp := last (map Sample.timestamp hr_data) start in
  let duration := Qred (td_minutes (dt_sub last_timestamp start)) in
  Forall (fun x => threshold <= Sample.heart_rate x) hr_data ->
  TerraApiClient.check_continuous_elevated_heart_rate
    hr_data threshold min_duration_minutes =
  if Qle_bool (inject_Z min_duration_minutes) duration
  then [Interval.mk start last_timestamp (Some duration)
          (Some (TerraApiClient._calculate_average_hr hr_data start
                   last_timestamp))]
  else [].
Proof.
  cbv zeta. intros F. inversion F as [|? ? H1 F']; subst.
  unfold TerraApiClient.check_continuous_elevated_heart_rate.
  cbn [fold_left]. unfold TerraApiClient.sweep_step at 2.
  destruct (threshold <=? Sample.heart_rate first) eqn:T; unbool; [|lia].
  rewrite (sweep_fold_open (first :: rest) threshold min_duration_minutes
             rest [] _ F').
  reflexivity.
Qed.

Lemma sweep_always_elevated_witness :
  TerraApiClient.check_continuous_elevated_heart_rate
    [Sample.mk (at_minute 2) 130; Sample.mk (at_minute 3) 130;
     Sample.mk (at_minute 4) 130] 120 2 =
  [Interval.mk (at_minute 2) (at_minute 4) (Some 2%Q) (Some 130%Q)].
Proof.
  apply (sweep_always_elevated (Sample.mk (at_minute 2) 130)
           [Sample.mk (at_minute 3) 130; Sample.mk (at_minute 4) 130] 120 2).
  repeat constructor; cbn; lia.
Defined.

Lemma sum_bounds (lo hi : Z) (l : list Z) :
  Forall (fun z => lo <= z <= hi) l ->
  lo * Z.of_nat (List.length l) <= fold_right Z.add 0 l
    <= hi * Z.of_nat (List.length l).
Proof.
  induction 1 as [|z l Hz _ IH]; cbn [fold_right List.length]; [lia|].
  rewrite Nat2Z.inj_succ. lia.
Qed.

(** X21: [_calculate_average_hr] returns 0 when no sample lies in the
    closed range, and otherwise a value between the lowest and the
    highest heart rate of the samples in the range. *)
Theorem average_hr_bounds (hr_data : list Sample.t)
    (start_time end_time : datetime) (lo hi : Z) :
  (samples_between hr_data start_time end_time = [] ->
   TerraApiClient._calculate_average_hr hr_data start_time end_time = 0%Q) /\
  (samples_between hr_data start_time end_time <> [] ->
   Forall (fun d => lo <= Sample.heart_rate d <= hi)
          (samples_between hr_data start_time end_time) ->
   (inject_Z lo
    <= TerraApiClient._calculate_average_hr hr_data start_time end_time
    <= inject_Z hi)%Q).
Proof.
  unfold TerraApiClient._calculate_average_hr. cbv zeta.
  fold (samples_between hr_data start_time end_time).
  set (l := samples_between hr_data start_time end_time).
  split.
  - intros ->. reflexivity.
  - intros NE F.
    assert (Forall (fun z => lo <= z <= hi) (map Sample.heart_rate l)) as Fz.
    { apply Forall_forall. intros z Hz. apply in_map_iff in Hz as (d & <- & I).
      rewrite Forall_forall in F. auto. }
    pose proof (sum_bounds lo hi _ Fz) as [S1 S2].
    destruct (map Sample.heart_rate l) as [|z zs] eqn:M.
    { destruct l; [congruence | discriminate]. }
    rewrite <- M in *. clear M z zs.
    set (n := Z.of_nat (List.length (map Sample.heart_rate l))) in *.
    set (total := fold_right Z.add 0 (map Sample.heart_rate l)) in *.
    assert (0 < n) as Pn.
    { unfold n. rewrite length_map. destruct l; [congruence|].
      cbn [List.length]. lia. }
    unfold true_div. rewrite Qred_correct.
    assert (0 < inject_Z n)%Q as Qn
      by (unfold Qlt, inject_Z; cbn; lia).
    split.
    + apply Qle_shift_div_l; [exact Qn|].
      rewrite <- inject_Z_mult, <- Zle_Qle. exact S1.
    + apply Qle_shift_div_r; [exact Qn|].
      rewrite <- inject_Z_mult, <- Zle_Qle. exact S2.
Qed.

Lemma average_hr_bounds_witness :
  (inject_Z 100
   <= TerraApiClient._calculate_average_hr sample_series
        (at_minute 2) (at_minute 5)
   <= inject_Z 130)%Q.
Proof.
  apply (average_hr_bounds sample_series (at_minute 2) (at_minute 5) 100 130).
  - vm_compute. discriminate.
  - vm_compute. repeat constructor; discriminate.
Defined.

(** ** The evaluator registry *)

Import EvaluatorRegistry.

Lemma lookup_register (reg : EvaluatorRegistry.t) (name name' : string)
    (cls : evaluator_class) :
  lookup (register reg name cls) name' =
  if String.eqb name name' then Some cls else lookup reg name'.
Proof.
  induction reg as [|[k c] rest IH]; cbn [register lookup].
  - reflexivity.
  - destruct (String.eqb_spec k name) as [->|N]; cbn [lookup].
    + destruct (String.eqb name name'); reflexivity.
    + destruct (String.eqb_spec k name') as [->|N']; [|exact IH].
      destruct (String.eqb_spec name name'); [congruence | reflexivity].
Qed.

(** X22: after [register(name, cls)], [get_evaluator] on [name] calls
    [cls] with the keyword arguments and returns its instance (a registration under the
    same name is replaced), and every other name is looked up as
    before. *)
Theorem get_evaluator_after_register (reg : EvaluatorRegistry.t)
    (name name' : string) (cls : evaluator_class) (kw : kwargs) :
  get_evaluator (register reg name cls) name' kw =
  if String.eqb name name'
  then evaluator <- cls kw ;; Ok (Some evaluator)
  else get_evaluator reg name' kw.
Proof.
  unfold get_evaluator. rewrite lookup_register.
  destruct (String.eqb name name'); reflexivity.
Qed.

Lemma lookup_not_registered (reg : EvaluatorRegistry.t) (name : string) :
  ~ In name (list_evaluators reg) -> lookup reg name = None.
Proof.
  induction reg as [|[k c] rest IH]; cbn; [reflexivity|].
  intros N. destruct (String.eqb_spec k name); [tauto|]. apply IH. tauto.
Qed.

(** X23: [get_evaluator] on a name that was never registered returns
    [None]; it raises nothing, whatever the keyword arguments. A name in
    [list_evaluators] is never answered with [None]. *)
Theorem get_evaluator_unregistered (reg : EvaluatorRegistry.t)
    (name : string) (kw : kwargs) :
  (~ In name (list_evaluators reg) -> get_evaluator reg name kw = Ok None) /\
  (In name (list_evaluators reg) -> get_evaluator reg name kw <> Ok None).
Proof.
  split.
  - intros N. unfold get_evaluator. now rewrite lookup_not_registered.
  - unfold get_evaluator. induction reg as [|[k c] rest IH]; cbn; [tauto|].
    intros [E | I].
    + subst k. rewrite String.eqb_refl. destruct (c kw); discriminate.
    + destruct (String.eqb k name); [destruct (c kw); discriminate | auto].
Qed.

Lemma get_evaluator_unregistered_witness :
  get_evaluator (after_imports []) "gpt" [] = Ok None /\
  get_evaluator (after_imports []) "llm" [] <> Ok None.
Proof.
  destruct (get_evaluator_unregistered (after_imports []) "gpt" [])
    as [H1 _].
  destruct (get_evaluator_unregistered (after_imports []) "llm" [])
    as [_ H2].
  split.
  - apply H1. vm_compute. intros [H | [H | []]]; discriminate H.
  - apply H2. vm_compute. right. left. reflexivity.
Defined.

Lemma list_evaluators_register (reg : EvaluatorRegistry.t) (name : string)
    (cls : evaluator_class) :
  list_evaluators (register reg name cls) =
  if existsb (String.eqb name) (list_evaluators reg)
  then list_evaluators reg
  else list_evaluators reg ++ [name].
Proof.
  unfold list_evaluators.
  induction reg as [|[k c] rest IH]; cbn; [reflexivity|].
  rewrite (String.eqb_sym name k).
  destruct (String.eqb k name); cbn; [reflexivity|].
  rewrite IH. now destruct (existsb (String.eqb name) (map fst rest)).
Qed.

(** X24: [register] keeps the names of [list_evaluators] distinct: a new
    name goes to the end of the list, and registering a name again leaves
    the list as it is; so [list_evaluators] never shows a name twice. *)
Theorem list_evaluators_nodup (reg : EvaluatorRegistry.t) (name : string)
    (cls : evaluator_class) :
  NoDup (list_evaluators reg) ->
  NoDup (list_evaluators (register reg name cls)) /\
  (In name (list_evaluators reg) ->
   list_evaluators (register reg name cls) = list_evaluators reg) /\
  (~ In name (list_evaluators reg) ->
   list_evaluators (register reg name cls) = list_evaluators reg ++ [name]).
Proof.
  intros N. rewrite list_evaluators_register.
  destruct (existsb (String.eqb name) (list_evaluators reg)) eqn:E.
  - apply existsb_exists in E as (x & I & Ex). apply String.eqb_eq in Ex.
    subst x. split; [exact N|]. split; [reflexivity | tauto].
  - assert (~ In name (list_evaluators reg)) as NI.
    { intros I. assert (existsb (String.eqb name) (list_evaluators reg) = true)
        as C by (apply existsb_exists; exists name; split;
                 [exact I | apply String.eqb_refl]).
      congruence. }
    split; [|split; [tauto | reflexivity]].
    apply NoDup_app; [exact N | repeat constructor; cbn; tauto|].
    intros x Ix [<- | []]. exact (NI Ix).
Qed.

Lemma list_evaluators_nodup_witness :
  NoDup (list_evaluators (after_imports [])) /\
  (In "llm" (list_evaluators (register [] "rule_based"
                                       RuleBasedEvaluator_class)) ->
   list_evaluators (after_imports []) =
   list_evaluators (register [] "rule_based" RuleBasedEvaluator_class)) /\
  (~ In "llm" (list_evaluators (register [] "rule_based"
                                         RuleBasedEvaluator_class)) ->
   list_evaluators (after_imports []) =
   list_evaluators (register [] "rule_based" RuleBasedEvaluator_class)
     ++ ["llm"]).
Proof.
  apply (list_evaluators_nodup
           (register [] "rule_based" RuleBasedEvaluator_class)
           "llm" LLMEvaluator_class).
  vm_compute. repeat constructor; cbn; tauto.
Defined.

(** ** The mock data *)

Lemma randint_range (a b : Z) (g : Random.state) :
  a <= b -> a <= fst (Random.randint a b g) <= b.
Proof.
  intros L. unfold Random.randint, Random.draw. cbn [fst].
  pose proof (Z.mod_pos_bound (Random.raw g (Random.pos g)) (b - a + 1)
                ltac:(lia)). lia.
Qed.

Lemma choice_In {A : Type} (default : A) (seq : list A) (g : Random.state) :
  seq <> [] -> In (fst (Random.choice default seq g)) seq.
Proof.
  intros NE. unfold Random.choice, Random.draw. cbn [fst].
  apply nth_In.
  assert (0 < Z.of_nat (List.length seq))
    by (destruct seq; [congruence | cbn [List.length]; lia]).
  pose proof (Z.mod_pos_bound (Random.raw g (Random.pos g))
                (Z.of_nat (List.length seq)) ltac:(lia)). lia.
Qed.

Lemma mock_heart_rate_band (h : Z) (g : Random.state) :
  hr_band h (fst (MockClient.mock_heart_rate h g)) /\
  55 <= fst (MockClient.mock_heart_rate h g) <= 160.
Proof.
  unfold MockClient.mock_heart_rate, hr_band.
  pose proof (randint_range 60 80 g ltac:(lia)) as B.
  destruct (Random.randint 60 80 g) as [base g1]. cbn [fst] in B.
  destruct ((6 <=? h) && (h <? 9))%bool.
  { pose proof (randint_range 100 160 g1 ltac:(lia)). lia. }
  destruct ((17 <=? h) && (h <? 20))%bool.
  { pose proof (randint_range 100 150 g1 ltac:(lia)). lia. }
  pose proof (randint_range (-5) 20 g1 ltac:(lia)) as D.
  destruct (Random.randint (-5) 20 g1) as [delta g2]. cbn [fst] in *. lia.
Qed.

Lemma generate_samples_ok_samples (fuel : nat)
    (current_time end_date : datetime) (data data' : list MockSample.t)
    (g g' : Random.state) :
  MockClient.generate_samples fuel current_time end_date data g
    = Ok (data', g') ->
  Forall mock_sample_ok data -> Forall mock_sample_ok data'.
Proof.
  revert current_time data g.
  induction fuel as [|fuel IH]; intros cur data g H F;
    cbn [MockClient.generate_samples] in H;
    destruct (dt_leb cur end_date); try discriminate;
    try (injection H as <- <-; exact F).
  pose proof (mock_heart_rate_band (hour cur) g) as [B1 B2].
  destruct (MockClient.mock_heart_rate (hour cur) g) as [hr g1].
  cbn [fst] in B1, B2. bind_inv H. apply (IH _ _ _ H).
  apply Forall_app. split; [exact F|]. constructor; [|constructor].
  unfold mock_sample_ok. cbn. auto.
Qed.

(** The samples of [_generate_mock_heart_rate_data] are within the bands. *)
Lemma generated_samples_ok (start_date end_date : datetime)
    (g g' : Random.state) (data : list MockSample.t) :
  MockClient._generate_mock_heart_rate_data start_date end_date g
    = Ok (data, g') ->
  Forall mock_sample_ok data.
Proof.
  intros H. eapply generate_samples_ok_samples; [exact H | constructor].
Qed.

(** X25: every sample that [_generate_mock_heart_rate_data] returns,
    whatever the random draws, has a heart rate between 55 and 160: from
    100 to 160 between 6 and 9 o'clock, from 100 to 150 between 17 and 20
    o'clock, and from 55 to 100 at any other hour; and it carries the
    source tag of the mock. *)
Theorem mock_heart_rates_in_band (start_date end_date : datetime)
    (g g' : Random.state) (data : list MockSample.t) :
  MockClient._generate_mock_heart_rate_data start_date end_date g
    = Ok (data, g') ->
  Forall mock_sample_ok data.
Proof. apply generated_samples_ok. Qed.

Lemma add_minutes_ok (d : datetime) (n : Z) :
  dt_ok d -> year d <= 9998 -> 0 <= n <= 1440 ->
  exists r, add_minutes d n = Ok r /\ dt_ok r /\
            dt_sub r d = n * 60000000 /\
            minute_rank d + n <= minute_rank r /\
            toordinal d <= toordinal r <= toordinal d + 1 /\
            second r = second d /\ microsecond r = microsecond d.
Proof.
  intros H Y N. destruct (dt_ok_inv d H) as (C & Y0 & T1 & T2 & T3 & T4).
  unfold add_minutes. cbv zeta.
  set (total := hour d * 60 + minute d + n).
  assert (0 <= total / 1440 <= 1) as D
    by (unfold total; Z.to_euclidean_division_equations; lia).
  destruct (add_days_forward d (total / 1440) H Y ltac:(lia))
    as (r0 & -> & O0 & Ord & R & _).
  cbn [bind]. destruct (dt_ok_inv r0 O0) as (C0 & Y1 & _).
  eexists. split; [reflexivity|].
  assert (0 <= total mod 1440 < 1440) as M by (apply Z.mod_pos_bound; lia).
  split.
  { apply dt_ok_intro; cbn [year month day hour minute second microsecond];
      try assumption; try lia.
    - Z.to_euclidean_division_equations; lia.
    - apply Z.mod_pos_bound; lia. }
  unfold dt_sub, abs_us, time_us, minute_rank, toordinal, rank, US_PER_DAY
    in *. cbn [year month day hour minute second microsecond].
  repeat split; try lia;
    unfold total in *; Z.to_euclidean_division_equations; lia.
Qed.

Lemma dt_leb_minute_rank (a b : datetime) :
  dt_ok a -> dt_ok b -> dt_leb a b = true -> minute_rank a <= minute_rank b.
Proof.
  intros Ha Hb. destruct (dt_ok_inv a Ha) as ([Ma Da] & _ & Ta & Ua & _).
  destruct (dt_ok_inv b Hb) as ([Mb Db] & _ & Tb & Ub & _).
  pose proof (days_in_month_bounds (year a) (month a)).
  pose proof (days_in_month_bounds (year b) (month b)).
  unfold minute_rank, rank, dt_leb, dt_ltb, dt_eqb. bool_prop. lia.
Qed.

Lemma minute_steps_prefix (l l' : list datetime) :
  minute_steps (l ++ l') -> minute_steps l.
Proof.
  induction l as [|a l IH]; [constructor|].
  destruct l as [|b l]; [constructor|].
  cbn [app minute_steps]. intros [E S]. split; [exact E|]. apply IH, S.
Qed.

Lemma minute_steps_snoc (l : list datetime) (a b : datetime) :
  minute_steps (l ++ [a]) -> dt_sub b a = 60000000 ->
  minute_steps ((l ++ [a]) ++ [b]).
Proof.
  intros S E. induction l as [|x l IH].
  - cbn. auto.
  - destruct l as [|y l].
    + cbn in *. tauto.
    + cbn [app minute_steps] in *. destruct S as [E1 S].
      split; [exact E1|]. apply IH, S.
Qed.

Lemma generate_samples_timeline (fuel : nat)
    (current_time end_date : datetime) (data : list MockSample.t)
    (g : Random.state) :
  dt_ok current_time -> dt_ok end_date -> year end_date <= 9998 ->
  minute_rank end_date - minute_rank current_time + 1 <= Z.of_nat fuel ->
  minute_steps (map mock_timestamp data ++ [current_time]) ->
  Forall (fun t => dt_leb t end_date = true) (map mock_timestamp data) ->
  exists tail g',
    MockClient.generate_samples fuel current_time end_date data g
      = Ok (data ++ tail, g') /\
    minute_steps (map mock_timestamp (data ++ tail)) /\
    Forall (fun t => dt_leb t end_date = true)
           (map mock_timestamp (data ++ tail)) /\
    (dt_leb current_time end_date = true ->
     exists x rest, tail = x :: rest /\ mock_timestamp x = current_time) /\
    (dt_leb current_time end_date = false -> tail = [] /\ g' = g).
Proof.
  revert current_time data g.
  induction fuel as [|fuel IH]; intros cur data g Hc He Y B S F;
    cbn [MockClient.generate_samples]; destruct (dt_leb cur end_date) eqn:L.
  - pose proof (dt_leb_minute_rank _ _ Hc He L). lia.
  - exists [], g. rewrite app_nil_r. split; [reflexivity|].
    split; [eapply minute_steps_prefix, S|]. split; [exact F|].
    split; [discriminate | auto].
  - pose proof (dt_leb_year _ _ L) as Yc.
    destruct (MockClient.mock_heart_rate (hour cur) g) as [hr g1].
    destruct (add_minutes_ok cur 1 Hc ltac:(lia) ltac:(lia))
      as (cur' & -> & Oc & Sub & R & _).
    cbn [bind].
    destruct (IH cur'
                (data ++ [MockSample.mk (Sample.mk cur hr) "mock_terra_api"])
                g1 Oc He Y ltac:(lia))
      as (tail & g' & E & S' & F' & _ & _).
    { rewrite map_app. cbn [map]. unfold mock_timestamp at 2. cbn.
      apply minute_steps_snoc; [exact S | lia]. }
    { rewrite map_app. apply Forall_app. split; [exact F|].
      constructor; [exact L | constructor]. }
    rewrite <- app_assoc in E, S', F'. cbn [app] in E, S', F'.
    eexists. exists g'. split; [exact E|]. split; [exact S'|].
    split; [exact F'|]. split; [|discriminate].
    intros _. eexists. eexists. split; reflexivity.
  - exists [], g. rewrite app_nil_r. split; [reflexivity|].
    split; [eapply minute_steps_prefix, S|]. split; [exact F|].
    split; [discriminate | auto].
Qed.

(** [_generate_mock_heart_rate_data] returns, one sample a minute. *)
Lemma generate_mock_heart_rate_data_returns (start_date end_date : datetime)
    (g : Random.state) :
  dt_ok start_date -> dt_ok end_date -> year end_date <= 9998 ->
  exists data g',
    MockClient._generate_mock_heart_rate_data start_date end_date g
      = Ok (data, g') /\
    minute_steps (map mock_timestamp data) /\
    Forall (fun t => dt_leb t end_date = true) (map mock_timestamp data) /\
    (dt_leb start_date end_date = true ->
     exists x rest, data = x :: rest /\ mock_timestamp x = start_date) /\
    (dt_leb start_date end_date = false -> data = [] /\ g' = g).
Proof.
  intros Hs He Y. unfold MockClient._generate_mock_heart_rate_data.
  destruct (generate_samples_timeline
              (MockClient.minute_budget start_date end_date)
              start_date end_date [] g Hs He Y)
    as (tail & g' & E & S & F & N & Z0).
  - unfold MockClient.minute_budget. lia.
  - cbn. exact I.
  - constructor.
  - exists tail, g'. cbn [app] in *. auto.
Qed.

(** X26: for a valid range that ends before year 9999
    [_generate_mock_heart_rate_data] returns, whatever the random draws;
    the samples are one minute apart, none is after the end date, and on
    a non-empty range the first one is at the start date; on an empty
    range (start after end) there is no sample and no draw is made. *)
Theorem mock_samples_every_minute (start_date end_date : datetime)
    (g : Random.state) :
  dt_ok start_date -> dt_ok end_date -> year end_date <= 9998 ->
  exists data g',
    MockClient._generate_mock_heart_rate_data start_date end_date g
      = Ok (data, g') /\
    minute_steps (map mock_timestamp data) /\
    Forall (fun t => dt_leb t end_date = true) (map mock_timestamp data) /\
    (dt_leb start_date end_date = true ->
     exists x rest, data = x :: rest /\ mock_timestamp x = start_date) /\
    (dt_leb start_date end_date = false -> data = [] /\ g' = g).
Proof. apply generate_mock_heart_rate_data_returns. Qed.

Lemma mock_samples_every_minute_witness :
  exists data g',
    MockClient._generate_mock_heart_rate_data
      (mkDatetime 2023 1 2 23 58 30 0) (mkDatetime 2023 1 3 0 1 0 0)
      demo_generator = Ok (data, g') /\
    minute_steps (map mock_timestamp data) /\
    Forall (fun t => dt_leb t (mkDatetime 2023 1 3 0 1 0 0) = true)
           (map mock_timestamp data) /\
    (dt_leb (mkDatetime 2023 1 2 23 58 30 0) (mkDatetime 2023 1 3 0 1 0 0)
       = true ->
     exists x rest, data = x :: rest /\
                    mock_timestamp x = mkDatetime 2023 1 2 23 58 30 0) /\
    (dt_leb (mkDatetime 2023 1 2 23 58 30 0) (mkDatetime 2023 1 3 0 1 0 0)
       = false -> data = [] /\ g' = demo_generator).
Proof.
  apply (mock_samples_every_minute (mkDatetime 2023 1 2 23 58 30 0)
           (mkDatetime 2023 1 3 0 1 0 0) demo_generator);
    [reflexivity | reflexivity | cbn; lia].
Defined.

Lemma mock_heart_rates_in_band_witness :
  Forall mock_sample_ok
    [MockSample.mk (Sample.mk (mkDatetime 2023 1 2 7 0 0 0) 102)
                   "mock_terra_api"].
Proof.
  eapply (mock_heart_rates_in_band (mkDatetime 2023 1 2 7 0 0 0)
            (mkDatetime 2023 1 2 7 0 30 0) demo_generator).
  vm_compute. reflexivity.
Defined.

Lemma cache_get_set (cache : list (string * list MockSample.t))
    (key key' : string) (data : list MockSample.t) :
  MockClient.cache_get (MockClient.cache_set cache key data) key' =
  if String.eqb key key' then Some data else MockClient.cache_get cache key'.
Proof.
  induction cache as [|[k v] rest IH];
    cbn [MockClient.cache_set MockClient.cache_get].
  - reflexivity.
  - destruct (String.eqb_spec k key) as [->|N]; cbn [MockClient.cache_get].
    + destruct (String.eqb key key'); reflexivity.
    + destruct (String.eqb_spec k key') as [->|N']; [|exact IH].
      destruct (String.eqb_spec key key'); [congruence | reflexivity].
Qed.

(** A second [get_heart_rate_data] for the same range hits the cache. *)
Lemma get_heart_rate_data_cached (self self' : MockClient.t)
    (start_date end_date : datetime) (g g' g2 : Random.state)
    (data : list MockSample.t) :
  MockClient.get_heart_rate_data self start_date end_date g
    = Ok (data, self', g') ->
  MockClient.get_heart_rate_data self' start_date end_date g2
    = Ok (data, self', g2) /\
  MockClient.user_id self' = MockClient.user_id self /\
  (forall key cached,
     key <> MockClient.cache_key start_date end_date ->
     MockClient.cache_get (MockClient._mock_data_cache self) key
       = Some cached ->
     MockClient.cache_get (MockClient._mock_data_cache self') key
       = Some cached).
Proof.
  unfold MockClient.get_heart_rate_data. cbv zeta.
  destruct (MockClient.cache_get (MockClient._mock_data_cache self)
              (MockClient.cache_key start_date end_date)) as [d|] eqn:C.
  - intros H. injection H as <- <- <-. rewrite C. auto.
  - intros H. bind_inv H. destruct a as [d g1]. injection H as <- <- <-.
    cbn [MockClient._mock_data_cache MockClient.user_id].
    rewrite cache_get_set, String.eqb_refl.
    split; [reflexivity|]. split; [reflexivity|].
    intros key cached N G. rewrite cache_get_set.
    destruct (String.eqb_spec (MockClient.cache_key start_date end_date) key);
      [congruence | exact G].
Qed.

(** X27: once [get_heart_rate_data] has returned the samples of a range,
    every later call for that range returns the very same samples, makes
    no random draw and leaves the client as it is; and what was cached
    for other ranges stays cached. *)
Theorem heart_rate_data_is_cached (self self' : MockClient.t)
    (start_date end_date : datetime) (g g' g2 : Random.state)
    (data : list MockSample.t) :
  MockClient.get_heart_rate_data self start_date end_date g
    = Ok (data, self', g') ->
  MockClient.get_heart_rate_data self' start_date end_date g2
    = Ok (data, self', g2) /\
  MockClient.user_id self' = MockClient.user_id self /\
  (forall key cached,
     key <> MockClient.cache_key start_date end_date ->
     MockClient.cache_get (MockClient._mock_data_cache self) key
       = Some cached ->
     MockClient.cache_get (MockClient._mock_data_cache self') key
       = Some cached).
Proof. apply get_heart_rate_data_cached. Qed.

Lemma heart_rate_data_is_cached_witness :
  exists data self' g',
    MockClient.get_heart_rate_data (MockClient.__init__ "user")
      (mkDatetime 2023 1 2 7 0 0 0) (mkDatetime 2023 1 2 7 1 0 0)
      demo_generator = Ok (data, self', g') /\
    MockClient.get_heart_rate_data self'
      (mkDatetime 2023 1 2 7 0 0 0) (mkDatetime 2023 1 2 7 1 0 0)
      demo_generator = Ok (data, self', demo_generator).
Proof.
  eexists. eexists. eexists. split.
  - vm_compute. reflexivity.
  - eapply (heart_rate_data_is_cached (MockClient.__init__ "user") _
              (mkDatetime 2023 1 2 7 0 0 0) (mkDatetime 2023 1 2 7 1 0 0)
              demo_generator _ demo_generator).
    vm_compute. reflexivity.
Defined.

(** X28: on a client that has cached nothing, the method
    [check_continuous_elevated_heart_rate] called with a threshold above
    160 reports no interval, whatever the random draws: no mock sample
    reaches such a threshold. *)
Theorem no_interval_above_the_band (user : string)
    (threshold min_duration_minutes : Z) (start_date end_date : datetime)
    (g g' : Random.state) (self' : MockClient.t)
    (intervals : list Interval.t) :
  160 < threshold ->
  MockClient.check_continuous_elevated_heart_rate_call
    (MockClient.__init__ user) threshold min_duration_minutes
    start_date end_date g = Ok (intervals, self', g') ->
  intervals = [].
Proof.
  intros T H. unfold MockClient.check_continuous_elevated_heart_rate_call in H.
  bind_inv H. destruct a as [[hr_data self1] g1]. injection H as <- _ _.
  unfold MockClient.get_heart_rate_data in E. cbv zeta in E.
  cbn [MockClient.__init__ MockClient._mock_data_cache MockClient.cache_get]
    in E.
  bind_inv E. destruct a as [d g2]. injection E as <- _ _.
  pose proof (generated_samples_ok _ _ _ _ _ E0) as F.
  apply sweep_no_elevated_sample. apply Forall_forall. intros x Ix.
  apply in_map_iff in Ix as (m & <- & Im). rewrite Forall_forall in F.
  destruct (F m Im) as (_ & B & _). lia.
Qed.

Lemma no_interval_above_the_band_witness :
  exists intervals self' g',
    MockClient.check_continuous_elevated_heart_rate_call
      (MockClient.__init__ "user") 161 1
      (mkDatetime 2023 1 2 7 0 0 0) (mkDatetime 2023 1 2 7 3 0 0)
      demo_generator = Ok (intervals, self', g') /\
    intervals = [].
Proof.
  eexists. eexists. eexists. split.
  - vm_compute. reflexivity.
  - eapply (no_interval_above_the_band "user" 161 1
              (mkDatetime 2023 1 2 7 0 0 0) (mkDatetime 2023 1 2 7 3 0 0)
              demo_generator).
    + lia.
    + vm_compute. reflexivity.
Defined.

Lemma add_minutes_same_day (d r : datetime) (n : Z) :
  0 <= hour d -> 0 <= minute d -> 0 <= n ->
  hour d * 60 + minute d + n < 1440 ->
  add_minutes d n = Ok r ->
  dt_sub r d = n * 60000000.
Proof.
  intros Hh Hm Hn T. unfold add_minutes. cbv zeta.
  set (total := hour d * 60 + minute d + n).
  assert (total / 1440 = 0) as -> by (apply Z.div_small; unfold total; lia).
  assert (total mod 1440 = total) as ->
    by (apply Z.mod_small; unfold total; lia).
  unfold add_days, shift_days. cbn [Z.leb Z.compare Z.to_nat iter_day].
  cbv zeta. break_if; cbn [bind]; [|discriminate].
  intros H. injection H as <-.
  unfold dt_sub, abs_us, time_us, toordinal.
  cbn [year month day hour minute second microsecond].
  unfold total. Z.to_euclidean_division_equations. lia.
Qed.

Lemma session_step_ok (start_date end_date : datetime) (days : Z)
    (sessions sessions' : list MockSession.t) (g g' : Random.state) :
  MockClient.session_step start_date end_date days sessions g
    = Ok (sessions', g') ->
  Forall (mock_session_ok start_date end_date) sessions ->
  Forall (mock_session_ok start_date end_date) sessions' /\
  (List.length sessions' <= S (List.length sessions))%nat.
Proof.
  unfold MockClient.session_step. intros H F.
  destruct (Random.randint 0 (days - 1) g) as [random_days g1].
  pose proof (choice_In 7 [7; 8; 17; 18; 19] g1 ltac:(discriminate)) as Rh.
  destruct (Random.choice 7 [7; 8; 17; 18; 19] g1) as [random_hour g2].
  cbn [fst] in Rh. bind_inv H.
  pose proof (randint_range 0 30 g2 ltac:(lia)) as Rm.
  destruct (Random.randint 0 30 g2) as [random_minute g3].
  cbn [fst] in Rm. bind_inv H.
  pose proof (randint_range 30 90 g3 ltac:(lia)) as Rd.
  destruct (Random.randint 30 90 g3) as [duration g4].
  cbn [fst] in Rd. bind_inv H.
  unfold datetime_new_hm in E0. cbv zeta in E0.
  destruct (dt_okb (mkDatetime (year a) (month a) (day a) random_hour
                               random_minute 0 0)); [|discriminate].
  injection E0 as <-.
  destruct (dt_leb start_date _ && dt_leb a1 end_date)%bool eqn:C.
  2:{ injection H as <- <-. split; [exact F | lia]. }
  apply andb_prop in C as [C1 C2].
  pose proof (choice_In "running"
                ["running"; "cycling"; "walking"; "strength_training"] g4
                ltac:(discriminate)) as Ra.
  destruct (Random.choice "running" _ g4) as [activity g5]. cbn [fst] in Ra.
  pose proof (randint_range 200 600 g5 ltac:(lia)) as Rc.
  destruct (Random.randint 200 600 g5) as [calories g6]. cbn [fst] in Rc.
  pose proof (randint_range 120 160 g6 ltac:(lia)) as Rv.
  destruct (Random.randint 120 160 g6) as [average g7]. cbn [fst] in Rv.
  injection H as <- <-. split.
  - apply Forall_app. split; [exact F|]. constructor; [|constructor].
    unfold mock_session_ok. cbv zeta.
    cbn [MockSession.session MockSession.calories_burned MockSession.source
         Session.start_time Session.end_time Session.duration_minutes
         Session.average_heart_rate Session.activity_type hour minute].
    split; [exact C1|]. split; [exact C2|]. split; [exact Rd|].
    split.
    { eapply add_minutes_same_day; [| | | |exact E1];
        cbn [hour minute]; cbn [In] in Rh; lia. }
    repeat split; auto; lia.
  - rewrite length_app. cbn [List.length]. lia.
Qed.

Lemma session_loop_ok (n : nat) (start_date end_date : datetime) (days : Z)
    (sessions sessions' : list MockSession.t) (g g' : Random.state) :
  MockClient.session_loop n start_date end_date days sessions g
    = Ok (sessions', g') ->
  Forall (mock_session_ok start_date end_date) sessions ->
  Forall (mock_session_ok start_date end_date) sessions' /\
  (List.length sessions' <= List.length sessions + n)%nat.
Proof.
  revert sessions g. induction n as [|n IH]; intros sessions g H F;
    cbn [MockClient.session_loop] in H.
  - injection H as <- <-. split; [exact F | lia].
  - bind_inv H. destruct a as [s1 g1].
    destruct (session_step_ok _ _ _ _ _ _ _ E F) as (F1 & L1).
    destruct (IH _ _ H F1) as (F2 & L2). split; [exact F2 | lia].
Qed.

(** The sessions of [get_exercise_sessions] are well formed. *)
Lemma get_exercise_sessions_ok (self : MockClient.t)
    (start_date end_date : datetime) (g g' : Random.state)
    (sessions : list MockSession.t) :
  MockClient.get_exercise_sessions self start_date end_date g
    = Ok (sessions, g') ->
  Forall (mock_session_ok start_date end_date) sessions /\
  Z.of_nat (List.length sessions)
    <= Z.max 0 (td_days (dt_sub end_date start_date) + 1).
Proof.
  unfold MockClient.get_exercise_sessions. cbv zeta. intros H.
  pose proof (randint_range 3 5 g ltac:(lia)) as R.
  destruct (Random.randint 3 5 g) as [r g1]. cbn [fst] in R.
  destruct (session_loop_ok _ _ _ _ _ _ _ _ H (Forall_nil _)) as (F & L).
  split; [exact F|]. cbn [List.length] in L.
  set (days := td_days (dt_sub end_date start_date) + 1) in *.
  assert (Z.quot (days * r) 7 <= Z.max 0 days) as Q.
  { destruct (Z_lt_le_dec days 0) as [N | P].
    - assert (Z.quot (days * r) 7 <= 0)
        by (Z.to_euclidean_division_equations; nia).
      lia.
    - Z.to_euclidean_division_equations. nia. }
  lia.
Qed.

(** X29: every session that [get_exercise_sessions] returns, whatever the
    random draws, lies within the requested range, starts at 7, 8, 17, 18
    or 19 o'clock within the first 31 minutes, lasts between 30 and 90
    minutes with an end time that many minutes after the start, and has
    an average heart rate between 120 and 160; and there are never more
    sessions than days in the range. *)
Theorem mock_sessions_in_range (self : MockClient.t)
    (start_date end_date : datetime) (g g' : Random.state)
    (sessions : list MockSession.t) :
  MockClient.get_exercise_sessions self start_date end_date g
    = Ok (sessions, g') ->
  Forall (mock_session_ok start_date end_date) sessions /\
  Z.of_nat (List.length sessions)
    <= Z.max 0 (td_days (dt_sub end_date start_date) + 1).
Proof. apply get_exercise_sessions_ok. Qed.

Lemma mock_sessions_in_range_witness :
  exists sessions g',
    MockClient.get_exercise_sessions (MockClient.__init__ "user")
      (midnight 2023 1 2) (midnight 2023 1 9) demo_generator
      = Ok (sessions, g') /\
    Forall (mock_session_ok (midnight 2023 1 2) (midnight 2023 1 9))
           sessions /\
    Z.of_nat (List.length sessions)
      <= Z.max 0 (td_days (dt_sub (midnight 2023 1 9) (midnight 2023 1 2))
                  + 1).
Proof.
  eexists. eexists. split.
  - vm_compute. reflexivity.
  - eapply (mock_sessions_in_range (MockClient.__init__ "user")
              (midnight 2023 1 2) (midnight 2023 1 9) demo_generator).
    vm_compute. reflexivity.
Defined.

(** Whenever [generate_test_data_for_week] returns, the elevated periods
    are the sweep of the returned samples, and samples and sessions are
    as the mock generates them. *)
Lemma test_data_is_coherent (user : string) (week_start : datetime)
    (g g' : Random.state) (data : MockClient.test_data) :
  MockClient.generate_test_data_for_week user week_start g = Ok (data, g') ->
  MockClient.elevated_hr_periods data =
    TerraApiClient.check_continuous_elevated_heart_rate
      (map MockSample.sample (MockClient.heart_rate_data data)) 120 25 /\
  Forall mock_sample_ok (MockClient.heart_rate_data data) /\
  exists week_end,
    add_days week_start 7 = Ok week_end /\
    Forall (mock_session_ok week_start week_end)
           (MockClient.exercise_sessions data).
Proof.
  unfold MockClient.generate_test_data_for_week. cbv zeta. intros H.
  bind_inv H. rename a into week_end. bind_inv H.
  destruct a as [[hr client1] g1]. bind_inv H. destruct a as [sessions g2].
  bind_inv H. destruct a as [[elevated client3] g3]. injection H as <- <-.
  cbn [MockClient.elevated_hr_periods MockClient.heart_rate_data
       MockClient.exercise_sessions].
  destruct (get_heart_rate_data_cached _ _ _ _ _ _ g2 _ E0) as (Hit & _).
  unfold MockClient.check_continuous_elevated_heart_rate_call in E2.
  rewrite Hit in E2. cbn [bind] in E2. injection E2 as <- _ _.
  split; [reflexivity|]. split.
  - unfold MockClient.get_heart_rate_data in E0. cbv zeta in E0.
    cbn [MockClient.__init__ MockClient._mock_data_cache MockClient.cache_get]
      in E0.
    bind_inv E0. destruct a as [d g4]. injection E0 as <- _ _.
    match goal with
    | Hg : MockClient._generate_mock_heart_rate_data _ _ _ = Ok _ |- _ =>
        eapply generated_samples_ok, Hg
    end.
  - exists week_end. split; [assumption|].
    match goal with
    | Hs : MockClient.get_exercise_sessions _ _ _ _ = Ok _ |- _ =>
        eapply get_exercise_sessions_ok, Hs
    end.
Qed.

Lemma add_days_forward_year (d : datetime) (n : Z) :
  dt_ok d -> year d <= 9998 -> 1 <= n <= 28 ->
  exists r, add_days d n = Ok r /\ dt_ok r /\ year r <= year d + 1 /\
            dt_sub r d = n * US_PER_DAY /\ dt_leb d r = true.
Proof.
  intros H Y N. destruct (dt_ok_inv d H) as (C & _).
  destruct (add_days_forward d n H Y ltac:(lia))
    as (r & E & O & Ord & R & T).
  exists r. split; [exact E|]. split; [exact O|].
  assert (dt_leb d r = true) as L.
  { destruct (dt_leb d r) eqn:L; [reflexivity|]. apply dt_leb_total in L.
    destruct (dt_ok_inv r O) as (Cr & _).
    pose proof (dt_leb_rank r d Cr C L). lia. }
  split; [|split; [|exact L]].
  - unfold add_days in E. cbv zeta in E. break_if; [|discriminate].
    injection E as <-. unfold shift_days.
    destruct (0 <=? n) eqn:Hn; unbool; [|lia].
    destruct (iter_next_day (Z.to_nat n) d C ltac:(lia))
      as (_ & _ & _ & Yr & _). lia.
  - destruct T as (T1 & T2 & T3 & T4).
    unfold dt_sub, abs_us, time_us. rewrite Ord, T1, T2, T3, T4. lia.
Qed.

Lemma session_step_returns (start_date end_date : datetime) (days : Z)
    (sessions : list MockSession.t) (g : Random.state) :
  dt_ok start_date -> year start_date <= 9998 -> 1 <= days <= 29 ->
  exists r, MockClient.session_step start_date end_date days sessions g
              = Ok r.
Proof.
  intros H Y D. unfold MockClient.session_step.
  pose proof (randint_range 0 (days - 1) g ltac:(lia)) as R0.
  destruct (Random.randint 0 (days - 1) g) as [random_days g1].
  cbn [fst] in R0.
  pose proof (choice_In 7 [7; 8; 17; 18; 19] g1 ltac:(discriminate)) as Rh.
  destruct (Random.choice 7 [7; 8; 17; 18; 19] g1) as [random_hour g2].
  cbn [fst In] in Rh.
  destruct (add_days_forward start_date random_days H Y ltac:(lia))
    as (a & -> & Oa & _).
  cbn [bind]. destruct (dt_ok_inv a Oa) as (Ca & Ya & _).
  pose proof (randint_range 0 30 g2 ltac:(lia)) as Rm.
  destruct (Random.randint 0 30 g2) as [random_minute g3]. cbn [fst] in Rm.
  assert (dt_ok (mkDatetime (year a) (month a) (day a) random_hour
                            random_minute 0 0)) as O1.
  { apply dt_ok_intro; cbn [year month day hour minute second microsecond];
      try assumption; lia. }
  unfold datetime_new_hm. cbv zeta. unfold dt_ok in O1. rewrite O1.
  cbn [bind].
  pose proof (randint_range 30 90 g3 ltac:(lia)) as Rd.
  destruct (Random.randint 30 90 g3) as [duration g4]. cbn [fst] in Rd.
  unfold add_minutes. cbv zeta.
  cbn [year month day hour minute second microsecond].
  assert ((random_hour * 60 + random_minute + duration) / 1440 = 0) as ->
    by (apply Z.div_small; lia).
  unfold add_days, shift_days. cbn [Z.leb Z.compare Z.to_nat iter_day].
  cbv zeta. cbn [year].
  replace ((MINYEAR <=? year a) && (year a <=? MAXYEAR))%bool with true
    by (symmetry; unfold MINYEAR, MAXYEAR; bool_prop; lia).
  cbn [bind].
  destruct (dt_leb start_date _ && dt_leb _ end_date)%bool; [|eauto].
  destruct (Random.choice "running" _ g4) as [activity g5].
  destruct (Random.randint 200 600 g5) as [calories g6].
  destruct (Random.randint 120 160 g6) as [average g7]. eauto.
Qed.

Lemma session_loop_returns (n : nat) (start_date end_date : datetime)
    (days : Z) (sessions : list MockSession.t) (g : Random.state) :
  dt_ok start_date -> year start_date <= 9998 -> 1 <= days <= 29 ->
  exists r, MockClient.session_loop n start_date end_date days sessions g
              = Ok r.
Proof.
  intros H Y D. revert sessions g.
  induction n as [|n IH]; intros sessions g; cbn [MockClient.session_loop].
  - eauto.
  - destruct (session_step_returns start_date end_date days sessions g H Y D)
      as ([s1 g1] & ->).
    cbn [bind]. apply IH.
Qed.

(** X30: for every valid week start before year 9998 and whatever the
    random draws, [generate_test_data_for_week] returns; in the dict it
    returns, the elevated periods are exactly what the sweep with
    threshold 120 and a minimum of 25 minutes finds in the heart-rate
    samples of that same dict (the second fetch is served from the cache,
    not generated anew), the first sample is at the week start, and
    samples and sessions are as the mock generates them for the week. *)
Theorem test_data_for_week (user : string) (week_start : datetime)
    (g : Random.state) :
  dt_ok week_start -> year week_start <= 9997 ->
  exists data g' week_end,
    MockClient.generate_test_data_for_week user week_start g
      = Ok (data, g') /\
    add_days week_start 7 = Ok week_end /\
    MockClient.elevated_hr_periods data =
      TerraApiClient.check_continuous_elevated_heart_rate
        (map MockSample.sample (MockClient.heart_rate_data data)) 120 25 /\
    (exists x rest, MockClient.heart_rate_data data = x :: rest /\
                    mock_timestamp x = week_start) /\
    Forall mock_sample_ok (MockClient.heart_rate_data data) /\
    Forall (mock_session_ok week_start week_end)
           (MockClient.exercise_sessions data).
Proof.
  intros H Y.
  destruct (add_days_forward_year week_start 7 H ltac:(lia) ltac:(lia))
    as (week_end & Ew & Ow & Yw & Sub & L).
  destruct (generate_mock_heart_rate_data_returns week_start week_end g H Ow ltac:(lia))
    as (hr & g1 & Eg & _ & _ & First & _).
  destruct (First L) as (x & rest & Ehr & Ex).
  assert (td_days (dt_sub week_end week_start) + 1 = 8) as Days.
  { rewrite Sub. unfold td_days, US_PER_DAY. reflexivity. }
  assert (exists r,
            MockClient.get_exercise_sessions
              (MockClient.mk user
                 [(MockClient.cache_key week_start week_end, hr)])
              week_start week_end g1 = Ok r) as ([sessions g2] & Es).
  { unfold MockClient.get_exercise_sessions. cbv zeta. rewrite Days.
    destruct (Random.randint 3 5 g1) as [r g2].
    apply session_loop_returns; [exact H | lia | lia]. }
  assert (MockClient.generate_test_data_for_week user week_start g =
          Ok (MockClient.mkTestData hr sessions
                (TerraApiClient.check_continuous_elevated_heart_rate
                   (map MockSample.sample hr) 120 25), g2)) as E.
  { unfold MockClient.generate_test_data_for_week. cbv zeta.
    rewrite Ew. cbn [bind]. unfold MockClient.get_heart_rate_data at 1.
    cbv zeta.
    cbn [MockClient.__init__ MockClient._mock_data_cache MockClient.cache_get
         MockClient.user_id MockClient.cache_set].
    rewrite Eg. cbn [bind]. rewrite Es. cbn [bind].
    unfold MockClient.check_continuous_elevated_heart_rate_call,
      MockClient.get_heart_rate_data. cbv zeta.
    cbn [MockClient._mock_data_cache MockClient.cache_get].
    rewrite String.eqb_refl. cbn [bind]. reflexivity. }
  destruct (test_data_is_coherent user week_start g g2 _ E)
    as (Co & Fs & we & Ew' & Fx).
  rewrite Ew in Ew'. injection Ew' as <-.
  eexists. exists g2, week_end. split; [exact E|]. split; [exact Ew|].
  cbn [MockClient.elevated_hr_periods MockClient.heart_rate_data
       MockClient.exercise_sessions] in *.
  split; [reflexivity|]. split; [eauto|]. split; assumption.
Qed.

Lemma test_data_for_week_witness :
  exists data g' week_end,
    MockClient.generate_test_data_for_week "user" (midnight 2023 1 2)
      demo_generator = Ok (data, g') /\
    add_days (midnight 2023 1 2) 7 = Ok week_end /\
    MockClient.elevated_hr_periods data =
      TerraApiClient.check_continuous_elevated_heart_rate
        (map MockSample.sample (MockClient.heart_rate_data data)) 120 25 /\
    (exists x rest, MockClient.heart_rate_data data = x :: rest /\
                    mock_timestamp x = midnight 2023 1 2) /\
    Forall mock_sample_ok (MockClient.heart_rate_data data) /\
    Forall (mock_session_ok (midnight 2023 1 2) week_end)
           (MockClient.exercise_sessions data).
Proof.
  apply (test_data_for_week "user" (midnight 2023 1 2) demo_generator);
    [reflexivity | cbn; lia].
Defined.
